(** * magicnews: the scraping pipeline, embedded and verified

    The development follows the layout of the repository:
    - [Str]      Python [str] operations used by the code (strip, lower,
                 splitlines, substring search, ...);
    - [Base]     [scrapers/base.py]: date parser, filename sanitizer, text
                 serializer, archive writer;
    - [Rewrite]  [summarize_archive]'s [parse_article_file];
    - [Net]      the network, the log and Python exceptions as an explicit
                 state and result type;
    - one module per site adapter, and [Driver] for the two driver loops.

    A Python [str] is a [list ascii]; a character is its code point, so the
    model covers the code points below 256. *)

From Stdlib Require Import Ascii String.
From stdpp Require Import base list strings gmap pretty sorting.

Local Open Scope list_scope.

(** A string literal as a Python [str]. *)
Definition lit (s : string) : list ascii := list_ascii_of_string s.

(* ===================================================================== *)
(** * Python [str] operations *)
(* ===================================================================== *)

Module Str.

Definition code (c : ascii) : nat := nat_of_ascii c.

Definition LF : ascii := "010"%char.
Definition CR : ascii := "013"%char.
Definition SP : ascii := " "%char.
Definition QUOTE : ascii := "034"%char.
Definition COLON : ascii := ":"%char.
Definition COMMA : ascii := ","%char.
Definition DOT : ascii := "."%char.

(** [str.isspace] on one character, which is also the class [\s] of [re]
    on [str] patterns: TAB..CR, FS..US, SPACE, NEL and NBSP. *)
Definition isspace (c : ascii) : bool :=
  let n := code c in
  ((9 <=? n) && (n <=? 13)) || ((28 <=? n) && (n <=? 32))
  || (n =? 133) || (n =? 160).

(** The class [\d] of [re] on [str] patterns (decimal digits). *)
Definition isdigit (c : ascii) : bool :=
  let n := code c in (48 <=? n) && (n <=? 57).

(** The class [\w] of [re] on [str] patterns: alphanumerics and the
    underscore. *)
Definition isword (c : ascii) : bool :=
  let n := code c in
  isdigit c || ((65 <=? n) && (n <=? 90)) || ((97 <=? n) && (n <=? 122))
  || (n =? 95) || (n =? 170) || (n =? 178) || (n =? 179) || (n =? 181)
  || (n =? 185) || (n =? 186) || ((188 <=? n) && (n <=? 190))
  || ((192 <=? n) && negb (n =? 215) && negb (n =? 247)).

(** The line boundaries of [str.splitlines]: LF, VT, FF, CR, FS, GS, RS
    and NEL (CR LF counts as one boundary). *)
Definition is_linebreak (c : ascii) : bool :=
  let n := code c in
  ((10 <=? n) && (n <=? 13)) || ((28 <=? n) && (n <=? 30)) || (n =? 133).

(** [s.lstrip()], [s.rstrip()], [s.strip()] *)
Fixpoint lstrip (s : list ascii) : list ascii :=
  match s with
  | c :: s' => if isspace c then lstrip s' else s
  | [] => []
  end.

Fixpoint rstrip (s : list ascii) : list ascii :=
  match s with
  | c :: s' =>
      match rstrip s' with
      | [] => if isspace c then [] else [c]
      | r => c :: r
      end
  | [] => []
  end.

Definition strip (s : list ascii) : list ascii := rstrip (lstrip s).

(** [sep.join(parts)] *)
Fixpoint join (sep : list ascii) (parts : list (list ascii)) : list ascii :=
  match parts with
  | [] => []
  | [p] => p
  | p :: rest => p ++ sep ++ join sep rest
  end.

(** [s.startswith(p)] *)
Fixpoint startswith (p s : list ascii) : bool :=
  match p, s with
  | [], _ => true
  | a :: p', b :: s' => Ascii.eqb a b && startswith p' s'
  | _ :: _, [] => false
  end.

(** [p in s] *)
Fixpoint contains (p s : list ascii) : bool :=
  startswith p s || match s with [] => false | _ :: s' => contains p s' end.

(** [any(p in s for p in ps)] *)
Definition contains_any (ps : list (list ascii)) (s : list ascii) : bool :=
  existsb (fun p => contains p s) ps.

(** [s.lower()] and [s.upper()] on the letters A-Z / a-z and on the
    Latin-1 letters whose counterpart is a Latin-1 letter. *)
Definition lower_char (c : ascii) : ascii :=
  let n := code c in
  if ((65 <=? n) && (n <=? 90))
     || ((192 <=? n) && (n <=? 222) && negb (n =? 215))
  then ascii_of_nat (n + 32) else c.

Definition upper_char (c : ascii) : ascii :=
  let n := code c in
  if ((97 <=? n) && (n <=? 122))
     || ((224 <=? n) && (n <=? 254) && negb (n =? 247))
  then ascii_of_nat (n - 32) else c.

Definition lower (s : list ascii) : list ascii := map lower_char s.
Definition upper (s : list ascii) : list ascii := map upper_char s.

(** [s.replace(old, new)] for a non-empty [old]: occurrences are replaced
    from left to right without overlap; [skip] counts the characters of
    the occurrence just replaced that are still to be passed over. *)
Fixpoint replace_go (old new : list ascii) (skip : nat) (s : list ascii)
  : list ascii :=
  match s with
  | [] => []
  | c :: s' =>
      match skip with
      | S k => replace_go old new k s'
      | O => if startswith old s
             then new ++ replace_go old new (length old - 1) s'
             else c :: replace_go old new 0 s'
      end
  end.

Definition replace (old new s : list ascii) : list ascii :=
  replace_go old new 0 s.

(** [s.splitlines()] *)
Fixpoint splitlines (s : list ascii) : list (list ascii) :=
  match s with
  | [] => []
  | c :: s' =>
      if is_linebreak c then
        [] :: match s' with
              | d :: s'' =>
                  if Ascii.eqb c CR && Ascii.eqb d LF
                  then splitlines s'' else splitlines s'
              | [] => []
              end
      else match splitlines s' with
           | [] => [[c]]
           | l :: ls => (c :: l) :: ls
           end
  end.

(** [s.split(sep, 1)[-1]] for a one-character [sep]: what follows the
    first [sep], or all of [s] when there is none. *)
Fixpoint after_first (sep : ascii) (s : list ascii) : option (list ascii) :=
  match s with
  | [] => None
  | c :: s' => if Ascii.eqb c sep then Some s' else after_first sep s'
  end.

Definition split1_last (sep : ascii) (s : list ascii) : list ascii :=
  default s (after_first sep s).

(** [s.split(sep)] for a one-character [sep] *)
Fixpoint split (sep : ascii) (s : list ascii) : list (list ascii) :=
  match s with
  | [] => [[]]
  | c :: s' =>
      if Ascii.eqb c sep then [] :: split sep s'
      else match split sep s' with
           | [] => [[c]]
           | l :: ls => (c :: l) :: ls
           end
  end.

(** [int(s)] in base 10: surrounding whitespace, a sign, digits with
    single underscores between them. [None] stands for [ValueError]. *)
Definition digit_val (c : ascii) : Z := Z.of_nat (code c - 48).

Fixpoint digits_go (acc : Z) (after_digit : bool) (s : list ascii)
  : option Z :=
  match s with
  | [] => if after_digit then Some acc else None
  | c :: s' =>
      if isdigit c then digits_go (10 * acc + digit_val c)%Z true s'
      else if Ascii.eqb c "_"%char && after_digit then digits_go acc false s'
      else None
  end.

Definition py_int (s : list ascii) : option Z :=
  match strip s with
  | c :: r =>
      if Ascii.eqb c "+"%char then digits_go 0 false r
      else if Ascii.eqb c "-"%char then Z.opp <$> digits_go 0 false r
      else digits_go 0 false (c :: r)
  | [] => None
  end.

(** [str(n)] of an integer, and the digit of [n] at a power of ten as
    [%0Nd] prints it. *)
Definition str_of_Z (n : Z) : list ascii := lit (pretty n).

Definition digit_char (n : Z) : ascii :=
  ascii_of_nat (48 + Z.to_nat (n mod 10)).

End Str.

(* ===================================================================== *)
(** * Regular expressions as backtracking parsers *)
(* ===================================================================== *)

(** The patterns of the repository (and those that [datetime.strptime]
    builds from a format) are written with these combinators. A parser
    returns every way of matching a prefix, in the order in which the
    backtracking engine of [re] tries them; [re.match] takes the first. *)
Module Re.
Import Str.

Definition parser (A : Type) : Type := list ascii -> list (A * list ascii).

Definition ret {A} (a : A) : parser A := fun s => [(a, s)].

Definition bind {A B} (p : parser A) (k : A -> parser B) : parser B :=
  fun s => flat_map (fun ar => k (fst ar) (snd ar)) (p s).

Definition alt {A} (p q : parser A) : parser A := fun s => p s ++ q s.

(** one character of a class *)
Definition char (f : ascii -> bool) : parser ascii :=
  fun s => match s with
           | c :: r => if f c then [(c, r)] else []
           | [] => []
           end.

(** a literal, compared with [eq] *)
Fixpoint literal (eq : ascii -> ascii -> bool) (pat : list ascii)
  : parser (list ascii) :=
  match pat with
  | [] => ret []
  | a :: pat' =>
      bind (char (eq a)) (fun c =>
      bind (literal eq pat') (fun cs => ret (c :: cs)))
  end.

Definition exact : list ascii -> parser (list ascii) := literal Ascii.eqb.

(** under [re.IGNORECASE], against a lower-case pattern *)
Definition nocase : list ascii -> parser (list ascii) :=
  literal (fun a c => Ascii.eqb a (lower_char c)).

(** [(?:p)?], greedy *)
Definition opt (p : parser (list ascii)) : parser (list ascii) :=
  alt p (ret []).

(** [\s+], greedy: the longest run first, then shorter ones *)
Fixpoint ws_plus (s : list ascii) : list (list ascii * list ascii) :=
  match s with
  | c :: s' =>
      if isspace c
      then map (fun wr => (c :: fst wr, snd wr)) (ws_plus s') ++ [([c], s')]
      else []
  | [] => []
  end.

(** [\s*], greedy *)
Definition ws_star : parser (list ascii) := alt ws_plus (ret []).

(** [p1 p2] with the matched texts concatenated *)
Definition cat (p q : parser (list ascii)) : parser (list ascii) :=
  bind p (fun a => bind q (fun b => ret (a ++ b))).

Definition digit : parser (list ascii) :=
  bind (char isdigit) (fun c => ret [c]).

Definition in_range (lo hi : ascii) : parser (list ascii) :=
  bind (char (fun c => (code lo <=? code c) && (code c <=? code hi)))
       (fun c => ret [c]).

(** the first alternative that matches *)
Fixpoint first_of {A} (ps : list (parser A)) : parser A :=
  match ps with
  | [] => fun _ => []
  | p :: ps' => alt p (first_of ps')
  end.

End Re.

(* ===================================================================== *)
(** * Python values, exceptions and the world *)
(* ===================================================================== *)

Module Py.
Import Str.

(** The exception classes that the code can meet. [OutOfFuel] is not a
    Python exception: it marks the exhaustion of the fuel of the one
    [while] loop of the code, which is proved never to happen. *)
Inductive exn_kind : Type :=
| ConnectionError | HTTPError | JSONDecodeError
| ValueError | TypeError | AttributeError | OverflowError | OSError
| OutOfFuel.

Record exn : Type := Exn { kind : exn_kind; text : list ascii }.

(** [isinstance(e, RequestException)] *)
Definition is_request_exception (e : exn) : bool :=
  match kind e with
  | ConnectionError | HTTPError => true
  | _ => false
  end.

(** [isinstance(e, (ValueError, AttributeError))] *)
Definition is_value_or_attribute_error (e : exn) : bool :=
  match kind e with
  | ValueError | JSONDecodeError | AttributeError => true
  | _ => false
  end.

Definition is_value_error (e : exn) : bool :=
  match kind e with
  | ValueError | JSONDecodeError => true
  | _ => false
  end.

Inductive result (A : Type) : Type :=
| Ok (a : A)
| Raise (e : exn).
Arguments Ok {A} a.
Arguments Raise {A} e.

Definition value_error {A} (msg : string) : result A :=
  Raise (Exn ValueError (lit msg)).
Definition type_error {A} (msg : string) : result A :=
  Raise (Exn TypeError (lit msg)).
Definition attribute_error {A} (msg : string) : result A :=
  Raise (Exn AttributeError (lit msg)).

(** What [json.loads] returns: [None], [bool], [int], [float] (a decimal
    mantissa and exponent), [str], [list] and [dict] (the fields in the
    order of the document). *)
#[warnings="-register-all"] Inductive json : Type :=
| JNull
| JBool (b : bool)
| JNum (z : Z)
| JFloat (mantissa exponent : Z)
| JStr (s : list ascii)
| JArr (items : list json)
| JObj (fields : list (list ascii * json)).

(** [bool(v)] *)
Definition truthy (v : json) : bool :=
  match v with
  | JNull => false
  | JBool b => b
  | JNum z => negb (z =? 0)%Z
  | JFloat m _ => negb (m =? 0)%Z
  | JStr s => match s with [] => false | _ => true end
  | JArr l => match l with [] => false | _ => true end
  | JObj f => match f with [] => false | _ => true end
  end.

(** [a or b] *)
Definition py_or (a b : json) : json := if truthy a then a else b.

(** The value of key [k] in a [dict] built from [fields]: a later
    occurrence of a key replaces an earlier one. *)
Fixpoint lookup_field (k : list ascii) (fields : list (list ascii * json))
  : option json :=
  match fields with
  | [] => None
  | (k', v) :: rest =>
      match lookup_field k rest with
      | Some v' => Some v'
      | None => if bool_decide (k = k') then Some v else None
      end
  end.

(** [v.get(k, dflt)]: [AttributeError] unless [v] is a [dict] *)
Definition get_default (k : string) (dflt : json) (v : json) : result json :=
  match v with
  | JObj fields => Ok (default dflt (lookup_field (lit k) fields))
  | _ => attribute_error "object has no attribute 'get'"
  end.

(** [v.get(k)] *)
Definition get (k : string) (v : json) : result json := get_default k JNull v.

(** [len(v)] *)
Definition len (v : json) : result nat :=
  match v with
  | JStr s => Ok (length s)
  | JArr l => Ok (length l)
  | JObj f => Ok (size (list_to_set (map fst f) : gset (list ascii)))
  | _ => type_error "object has no len()"
  end.

End Py.

(* ===================================================================== *)
(** * The world: network, log and files *)
(* ===================================================================== *)

Module World.
Import Str Py.

(** What the code reads off a parsed document ([BeautifulSoup(html,
    "lxml")]); each field is the result of the query named in its comment. *)
Record Page : Type := {
  (** [a["href"]] for [a] in [soup.find_all("a", href=True)] *)
  hrefs : list (list ascii);
  (** the same for [heading.find_all_next("a", href=True)], [heading] being
      the first [h1] or [h2] whose text mentions local news; [None] without
      such a heading *)
  local_news_hrefs : option (list (list ascii));
  (** the [content] of the [og:title] and [twitter:title] meta tags *)
  og_title : option (list ascii);
  twitter_title : option (list ascii);
  (** [soup.find("h1").get_text(strip=True)] *)
  h1 : option (list ascii);
  (** the [content] of the [article:section] meta tag *)
  section_meta : option (list ascii);
  (** the text of the first link whose class mentions a category *)
  category_link : option (list ascii);
  (** [soup.get_text(" ", strip=True)] *)
  page_text : list ascii;
  (** [p.get_text(" ", strip=True)] for [p] in [soup.find_all("p")] *)
  p_texts : list (list ascii)
}.

(** A response body, known by what the two decoders of the code make of
    it: [BeautifulSoup(text, "lxml")] and [resp.json()] ([None] when the
    body is not JSON). *)
Record Text : Type := { soup_of : Page; json_of : option json }.

Inductive response : Type :=
| NoReply (reason : list ascii)          (* the request itself fails *)
| Reply (status : nat) (body : Text).

Inductive level : Type := WARNING | ERROR.

(** A record of the [logging] module. The records of level INFO are not
    kept (nothing depends on them); the arguments of such a call are still
    evaluated where that can raise. *)
Record log_record : Type := {
  logger_name : list ascii;
  log_level : level;
  message : list ascii
}.

(** The answer of the network may depend on how many requests the process
    has sent before: a page can change between two fetches. *)
Record world : Type := {
  net : nat -> list ascii -> response;
  requests : list (list ascii);            (* the URLs requested so far *)
  log : list log_record;
  files : gmap (list ascii) (list ascii);  (* path to content *)
  ROOT_DIR : list ascii                    (* [scrapers.base.ROOT_DIR] *)
}.

(** A computation: a result or an exception, and the world after it. *)
Definition M (A : Type) : Type := world -> result A * world.

Definition ret {A} (a : A) : M A := fun w => (Ok a, w).

Definition raise {A} (e : exn) : M A := fun w => (Raise e, w).

Definition bind {A B} (m : M A) (k : A -> M B) : M B :=
  fun w => match m w with
           | (Ok a, w') => k a w'
           | (Raise e, w') => (Raise e, w')
           end.

Definition lift {A} (r : result A) : M A := fun w => (r, w).

(** [try: m except <class> as e: h e] *)
Definition try_except {A} (m : M A) (caught : exn -> bool) (h : exn -> M A) : M A :=
  fun w => match m w with
           | (Ok a, w') => (Ok a, w')
           | (Raise e, w') => if caught e then h e w' else (Raise e, w')
           end.

Definition any_exception (e : exn) : bool := true.

Definition log_to (name : string) (l : level) (msg : list ascii) : M unit :=
  fun w => (Ok tt,
            {| net := net w; requests := requests w;
               log := log w ++ [{| logger_name := lit name; log_level := l;
                                   message := msg |}];
               files := files w; ROOT_DIR := ROOT_DIR w |}).

(** [requests.get(url, ...)] *)
Definition requests_get (url : list ascii) : M (nat * Text) :=
  fun w =>
    let w' := {| net := net w; requests := requests w ++ [url];
                 log := log w; files := files w; ROOT_DIR := ROOT_DIR w |} in
    match net w (length (requests w)) url with
    | NoReply reason => (Raise (Exn ConnectionError reason), w')
    | Reply status body => (Ok (status, body), w')
    end.

(** [resp.raise_for_status()] *)
Definition raise_for_status (status : nat) : M unit :=
  if (400 <=? status) && (status <? 600)
  then raise (Exn HTTPError (str_of_Z (Z.of_nat status) ++ lit " Error"))
  else ret tt.

(** [path.exists()], [path.write_text(text)], [path.read_text()] *)
Definition path_exists (path : list ascii) : M bool :=
  fun w => (Ok (bool_decide (is_Some (files w !! path))), w).

Definition write_text (path text : list ascii) : M unit :=
  fun w => (Ok tt,
            {| net := net w; requests := requests w; log := log w;
               files := <[path := text]> (files w); ROOT_DIR := ROOT_DIR w |}).

Definition read_file (path : list ascii) : M (list ascii) :=
  fun w => match files w !! path with
           | Some t => (Ok t, w)
           | None => (Raise (Exn OSError (lit "No such file or directory")), w)
           end.

Definition get_world : M world := fun w => (Ok w, w).

(** [for x in xs: body x] *)
Fixpoint for_each {A} (xs : list A) (body : A -> M unit) : M unit :=
  match xs with
  | [] => ret tt
  | x :: rest => bind (body x) (fun _ => for_each rest body)
  end.

End World.

Notation "'do' x <- m ; k" := (World.bind m (fun x => k))
  (at level 10, x name, m at level 100, k at level 200).
Notation "m ;; k" := (World.bind m (fun _ => k))
  (at level 100, k at level 200, right associativity).

(* ===================================================================== *)
(** * scrapers/base.py *)
(* ===================================================================== *)

Module Base.
Import Str Py World.

(** The character class removed by the first [re.sub] of
    [title_to_filename]: backslash, slash, star, question mark, colon,
    double quote, angle brackets and bar. *)
Definition illegal (c : ascii) : bool :=
  bool_decide (c ∈ ["\"; "/"; "*"; "?"; ":"; QUOTE; "<"; ">"; "|"]%char).

Definition strip_illegal (s : list ascii) : list ascii :=
  List.filter (fun c => negb (illegal c)) s.

(** The second [re.sub]: every run of [\s] becomes one space. [in_run]
    tells that the previous character belonged to the run being replaced. *)
Fixpoint collapse_go (in_run : bool) (s : list ascii) : list ascii :=
  match s with
  | [] => []
  | c :: s' =>
      if isspace c
      then if in_run then collapse_go true s' else " "%char :: collapse_go true s'
      else c :: collapse_go false s'
  end.

Definition collapse_ws (s : list ascii) : list ascii := collapse_go false s.

(** The stem that [title_to_filename] computes before it appends the
    extension (lines 74-83). *)
Definition clean_title (title : list ascii) : list ascii :=
  let cleaned := strip_illegal title in
  let cleaned := strip (collapse_ws cleaned) in
  let cleaned := match cleaned with [] => lit "untitled" | _ => cleaned end in
  if 150 <? length cleaned then rstrip (take 150 cleaned) else cleaned.

Definition title_to_filename (title : list ascii) : list ascii :=
  match title with
  | [] => lit "untitled.txt"
  | _ => clean_title title ++ lit ".txt"
  end.

(** ** Calendar dates ([datetime.date]) *)

Record date : Type := Date { year : Z; month : Z; day : Z }.

#[global] Instance date_eq_dec : EqDecision date.
Proof. solve_decision. Defined.

Definition is_leap (y : Z) : bool :=
  ((y mod 4 =? 0) && (negb (y mod 100 =? 0) || (y mod 400 =? 0)))%Z.

Definition days_in_month (y m : Z) : Z :=
  if (m =? 2)%Z then (if is_leap y then 29 else 28)
  else if ((m =? 4) || (m =? 6) || (m =? 9) || (m =? 11))%Z then 30
  else 31.

(** the range check of the constructor: MINYEAR = 1, MAXYEAR = 9999 *)
Definition valid_ymd (y m d : Z) : bool :=
  ((1 <=? y) && (y <=? 9999) && (1 <=? m) && (m <=? 12)
   && (1 <=? d) && (d <=? days_in_month y m))%Z.

Definition valid_date (d : date) : bool := valid_ymd (year d) (month d) (day d).

Definition fits_c_int (z : Z) : bool :=
  ((-2147483648 <=? z) && (z <=? 2147483647))%Z.

(** [date(y, m, d)]: the arguments are converted to C [int] first
    ([OverflowError]), then checked against the calendar ([ValueError]). *)
Definition date_new (y m d : Z) : result date :=
  if negb (fits_c_int y && fits_c_int m && fits_c_int d)
  then Raise (Exn OverflowError (lit "Python int too large to convert to C int"))
  else if valid_ymd y m d then Ok (Date y m d)
  else value_error "date value out of range".

(** [d.isoformat()], that is [%04d-%02d-%02d] *)
Definition isoformat (d : date) : list ascii :=
  [digit_char (year d / 1000); digit_char (year d / 100);
   digit_char (year d / 10); digit_char (year d); "-"%char;
   digit_char (month d / 10); digit_char (month d); "-"%char;
   digit_char (day d / 10); digit_char (day d)].

(** ** [datetime.strptime] for the two formats of the date parser

    [_strptime] turns a format into a regular expression compiled with
    [re.IGNORECASE]: a directive becomes a named group, every run of
    whitespace of the format becomes [\s+], [%b] and [%B] become the
    alternatives of the month names of the C locale, longest first. *)

Definition a_month : list (list ascii) :=
  map lit ["jan"; "feb"; "mar"; "apr"; "may"; "jun";
           "jul"; "aug"; "sep"; "oct"; "nov"; "dec"]%string.

Definition f_month : list (list ascii) :=
  map lit ["january"; "february"; "march"; "april"; "may"; "june"; "july";
           "august"; "september"; "october"; "november"; "december"]%string.

(** [sorted(names, key=len, reverse=True)], a stable sort *)
Fixpoint insert_by_length (x : list ascii) (l : list (list ascii))
  : list (list ascii) :=
  match l with
  | [] => [x]
  | y :: l' => if length x <? length y then y :: insert_by_length x l'
               else x :: l
  end.

Definition longest_first (names : list (list ascii)) : list (list ascii) :=
  foldr insert_by_length [] names.

(** [__seqToRE] *)
Definition seq_to_re (names : list (list ascii)) : Re.parser (list ascii) :=
  Re.first_of (map Re.nocase (longest_first names)).

(** the group of [%d]: [3[0-1]|[1-2]\d|0[1-9]|[1-9]| [1-9]] *)
Definition re_day : Re.parser (list ascii) :=
  Re.first_of
    [ Re.cat (Re.exact (lit "3")) (Re.in_range "0" "1");
      Re.cat (Re.in_range "1" "2") Re.digit;
      Re.cat (Re.exact (lit "0")) (Re.in_range "1" "9");
      Re.in_range "1" "9";
      Re.cat (Re.exact (lit " ")) (Re.in_range "1" "9") ].

(** the group of [%Y]: [\d\d\d\d] *)
Definition re_year : Re.parser (list ascii) :=
  Re.cat Re.digit (Re.cat Re.digit (Re.cat Re.digit Re.digit)).

(** the expression of [<month> %d, %Y], with its three groups *)
Definition format_regex (names : list (list ascii))
  : Re.parser (list ascii * list ascii * list ascii) :=
  Re.bind (seq_to_re names) (fun mon =>
  Re.bind Re.ws_plus (fun _ =>
  Re.bind re_day (fun d =>
  Re.bind (Re.exact (lit ",")) (fun _ =>
  Re.bind Re.ws_plus (fun _ =>
  Re.bind re_year (fun y => Re.ret (mon, d, y))))))).

(** [names.index(x)] *)
Fixpoint index_of (x : list ascii) (names : list (list ascii)) : option nat :=
  match names with
  | [] => None
  | n :: rest => if bool_decide (x = n) then Some 0
                 else S <$> index_of x rest
  end.

(** [datetime.strptime(s, fmt).date()], [names] being the month names of
    the directive of [fmt]. *)
Definition strptime (names : list (list ascii)) (s : list ascii) : result date :=
  match format_regex names s with
  | [] => value_error "time data does not match format"
  | ((mon, d, y), rest) :: _ =>
      match rest with
      | _ :: _ => value_error "unconverted data remains"
      | [] =>
          match index_of (lower mon) names, py_int d, py_int y with
          | Some i, Some dv, Some yv => date_new yv (Z.of_nat (S i)) dv
          | _, _, _ => value_error "invalid literal"
          end
      end
  end.

(** [parse_us_date_string] (lines 58-66): the loop over the two formats,
    [except ValueError: continue]. *)
Definition fix_sept (date_str : list ascii) : list ascii :=
  replace (lit "SEPT ") (lit "Sep ") (replace (lit "Sept ") (lit "Sep ") date_str).

Fixpoint try_formats (fmts : list (list (list ascii))) (fixed : list ascii)
  : result (option date) :=
  match fmts with
  | [] => Ok None
  | names :: rest =>
      match strptime names fixed with
      | Ok d => Ok (Some d)
      | Raise e => if is_value_error e then try_formats rest fixed else Raise e
      end
  end.

Definition parse_us_date_string (date_str : list ascii) : result (option date) :=
  try_formats [a_month; f_month] (fix_sept date_str).

(** ** [DATE_PATTERN] (lines 27-31) and [DATE_PATTERN.search] *)

Definition month_pattern : Re.parser (list ascii) :=
  let m (short rest : string) := Re.cat (Re.exact (lit short)) (Re.opt (Re.exact (lit rest))) in
  Re.first_of
    [ m "Jan" "uary"; m "Feb" "ruary"; m "Mar" "ch"; m "Apr" "il";
      Re.exact (lit "May"); m "Jun" "e"; m "Jul" "y"; m "Aug" "ust";
      Re.cat (Re.exact (lit "Sep"))
             (Re.opt (Re.cat (Re.exact (lit "t")) (Re.opt (Re.exact (lit "ember")))));
      m "Oct" "ober"; m "Nov" "ember"; m "Dec" "ember" ]%string.

(** [\b] after a word character: the end of the text or a character that
    is not of [\w] *)
Definition word_end : Re.parser (list ascii) :=
  fun s => match s with
           | c :: _ => if isword c then [] else [([], s)]
           | [] => [([], s)]
           end.

(** the pattern after its leading [\b] *)
Definition date_pattern : Re.parser (list ascii) :=
  Re.cat month_pattern
    (Re.cat Re.ws_plus
       (Re.cat (Re.alt (Re.cat Re.digit Re.digit) Re.digit)
          (Re.cat (Re.exact (lit ","))
             (Re.cat Re.ws_plus (Re.cat re_year word_end))))).

(** [DATE_PATTERN.search(text)] and [match.group(0)]: the leftmost start
    at which the pattern matches. The leading [\b] holds where the
    previous character is not of [\w] (a month name starts with a letter). *)
Fixpoint search_from (after_word : bool) (s : list ascii) : option (list ascii) :=
  match (if after_word then [] else date_pattern s) with
  | (m, _) :: _ => Some m
  | [] => match s with
          | c :: s' => search_from (isword c) s'
          | [] => None
          end
  end.

Definition DATE_PATTERN_search (text : list ascii) : option (list ascii) :=
  search_from false text.

(** ** Articles and the text serializer *)

(** The dictionary that an adapter returns. The title of a row of the JSON
    API is whatever the document holds, so it is kept as a Python value;
    [date] is [None] for a record without a [datetime.date]. *)
Record Article : Type := {
  url : list ascii;
  title : json;
  date_of : option date;
  paragraphs : list (list ascii)
}.

(** [article.get("title") or "Untitled"] *)
Definition title_or_untitled (a : Article) : json :=
  py_or (title a) (JStr (lit "Untitled")).

(** the non-blank stripped paragraphs, each followed by an empty line *)
Definition paragraph_lines (ps : list (list ascii)) : list (list ascii) :=
  flat_map (fun p => match strip p with [] => [] | q => [q; []] end) ps.

Definition article_lines (t : list ascii) (a : Article) (site_slug : list ascii)
  : list (list ascii) :=
  [t; []; lit "Site: " ++ upper site_slug]
  ++ match date_of a with
     | Some d => [lit "Published: " ++ isoformat d]
     | None => []
     end
  ++ [lit "URL: " ++ url a; []]
  ++ paragraph_lines (paragraphs a).

(** [write_text_article] (lines 87-112): the text handed to
    [path.write_text]. Joining a title that is not a [str] raises. *)
Definition article_text (a : Article) (site_slug : list ascii) : result (list ascii) :=
  match title_or_untitled a with
  | JStr t => Ok (rstrip (join [LF] (article_lines t a site_slug)) ++ [LF])
  | _ => type_error "sequence item 0: expected str instance"
  end.

(** ** The fetcher (lines 47-56) *)

Definition fetch_html (url : list ascii) : M Text :=
  try_except
    (do r <- requests_get url;
     raise_for_status (fst r) ;;
     ret (snd r))
    is_request_exception
    (fun e =>
       log_to "Scraper" ERROR
         (lit "Request failed for " ++ url ++ lit ": " ++ text e) ;;
       raise e).

(** ** File names: [Path.stem] and [Path.suffix] of a name *)

(** [name.rfind(".")] *)
Fixpoint rfind_dot (name : list ascii) : option nat :=
  match name with
  | [] => None
  | c :: rest =>
      match rfind_dot rest with
      | Some i => Some (S i)
      | None => if Ascii.eqb c DOT then Some 0 else None
      end
  end.

Definition has_suffix (name : list ascii) (i : nat) : bool :=
  (0 <? i) && (i <? length name - 1).

Definition path_suffix (name : list ascii) : list ascii :=
  match rfind_dot name with
  | Some i => if has_suffix name i then drop i name else []
  | None => []
  end.

Definition path_stem (name : list ascii) : list ascii :=
  match rfind_dot name with
  | Some i => if has_suffix name i then take i name else name
  | None => name
  end.

(** [dir / name] *)
Definition in_dir (dir name : list ascii) : list ascii := dir ++ lit "/" ++ name.

(** ** The archive writer (lines 114-152) *)

(** [ensure_output_dir]: the path of the directory; directories are not
    kept in the model, a file is there when its path is. *)
Definition output_dir (root : list ascii) (target_date : date) (site_slug : list ascii)
  : list ascii :=
  in_dir (in_dir (in_dir root (isoformat target_date)) site_slug) (lit "Original").

(** [sorted({...})] on strings: insertion into a strictly increasing list *)
Fixpoint str_ltb (a b : list ascii) : bool :=
  match a, b with
  | [], [] => false
  | [], _ :: _ => true
  | _ :: _, [] => false
  | x :: a', y :: b' =>
      if code x <? code y then true
      else if code y <? code x then false
      else str_ltb a' b'
  end.

Fixpoint insert_sorted (x : list ascii) (l : list (list ascii)) : list (list ascii) :=
  match l with
  | [] => [x]
  | y :: l' => if str_ltb x y then x :: l
               else if str_ltb y x then y :: insert_sorted x l'
               else l
  end.

Definition sorted_set (l : list (list ascii)) : list (list ascii) :=
  foldr insert_sorted [] l.

(** [json.dumps(urls, indent=2)] of a list of strings *)
Definition hex_digit (n : nat) : ascii :=
  if n <? 10 then ascii_of_nat (48 + n) else ascii_of_nat (87 + n).

Definition json_escape_char (c : ascii) : list ascii :=
  let n := code c in
  if Ascii.eqb c QUOTE then ["\"%char; QUOTE]
  else if Ascii.eqb c "\"%char then ["\"%char; "\"%char]
  else if n =? 10 then lit "\n"
  else if n =? 13 then lit "\r"
  else if n =? 9 then lit "\t"
  else if n =? 8 then lit "\b"
  else if n =? 12 then lit "\f"
  else if (n <? 32) || (126 <? n)
  then lit "\u00" ++ [hex_digit (n / 16); hex_digit (n mod 16)]
  else [c].

Definition json_string (s : list ascii) : list ascii :=
  [QUOTE] ++ flat_map json_escape_char s ++ [QUOTE].

Definition json_dumps (l : list (list ascii)) : list ascii :=
  match l with
  | [] => lit "[]"
  | _ => lit "[" ++ [LF] ++ lit "  "
         ++ join (lit "," ++ [LF] ++ lit "  ") (map json_string l)
         ++ [LF] ++ lit "]"
  end.

(** [title_to_filename(title)] on a value that may not be a [str]:
    [re.sub] raises on anything else *)
Definition filename_of (t : json) : result (list ascii) :=
  if truthy t then
    match t with
    | JStr s => Ok (title_to_filename s)
    | _ => type_error "expected string or bytes-like object"
    end
  else Ok (lit "untitled.txt").

(** [f"{base} ({i}){ext}"] *)
Definition numbered (base ext : list ascii) (i : nat) : list ascii :=
  base ++ lit " (" ++ str_of_Z (Z.of_nat i) ++ lit ")" ++ ext.

(** [while candidate.exists(): candidate = ...; i += 1], entered with a
    candidate that exists; [taken] answers [exists] for a name of the
    directory. *)
Fixpoint probe (taken : list ascii -> bool) (base ext : list ascii) (i fuel : nat)
  : option (list ascii) :=
  match fuel with
  | O => None
  | S fuel' =>
      let candidate := numbered base ext i in
      if taken candidate then probe taken base ext (S i) fuel'
      else Some candidate
  end.

(** lines 140-149: the name under which an article is saved *)
Definition free_name (taken : list ascii -> bool) (fuel : nat) (filename : list ascii)
  : option (list ascii) :=
  if taken filename
  then probe taken (path_stem filename) (path_suffix filename) 2 fuel
  else Some filename.

Definition taken_in (fs : gmap (list ascii) (list ascii)) (dir name : list ascii) : bool :=
  bool_decide (is_Some (fs !! in_dir dir name)).

(** the body of the loop of [save_articles] for one article *)
Definition save_article (site_slug out_dir : list ascii) (a : Article) : M unit :=
  do filename <- lift (filename_of (title_or_untitled a));
  do w <- get_world;
  match free_name (taken_in (files w) out_dir) (S (size (files w))) filename with
  | None => raise (Exn OutOfFuel [])
  | Some name =>
      do text <- lift (article_text a site_slug);
      write_text (in_dir out_dir name) text
  end.

(** [save_articles] (lines 120-152). An article is a dictionary with four
    keys, so [a for a in articles if a] keeps every one. *)
Definition save_articles (site_slug : list ascii) (target_date : date)
  (articles : list Article) : M unit :=
  match articles with
  | [] => ret tt
  | _ =>
      do w <- get_world;
      let out_dir := output_dir (ROOT_DIR w) target_date site_slug in
      let urls :=
        sorted_set (List.filter (fun u => match u with [] => false | _ => true end)
                                (map url articles)) in
      write_text
        (in_dir out_dir (site_slug ++ lit "_urls_" ++ isoformat target_date ++ lit ".json"))
        (json_dumps urls) ;;
      for_each articles (save_article site_slug out_dir)
  end.

End Base.

(* ===================================================================== *)
(** * The rewrite stage: [parse_article_file] of summarize_archive *)
(* ===================================================================== *)

Module Rewrite.
Import Str Py World.

Record ArticleMetadata : Type := {
  site_id : list ascii;
  date_str : list ascii;
  article_path : list ascii;
  meta_title : option (list ascii);
  meta_url : option (list ascii);
  published_date : option (list ascii);
  site_name_in_file : option (list ascii)
}.

(** Reading a file in text mode: CR LF and CR become LF. *)
Fixpoint universal_newlines (s : list ascii) : list ascii :=
  match s with
  | [] => []
  | c :: s' =>
      if Ascii.eqb c CR then
        LF :: match s' with
              | d :: s'' => if Ascii.eqb d LF then universal_newlines s''
                            else universal_newlines s'
              | [] => []
              end
      else c :: universal_newlines s'
  end.

(** The variables of the loop (lines 36-37). *)
Record parse_state : Type := {
  st_title : option (list ascii);
  st_url : option (list ascii);
  st_pub_date : option (list ascii);
  st_site_name : option (list ascii);
  st_body : list (list ascii)
}.

Definition initial : parse_state :=
  {| st_title := None; st_url := None; st_pub_date := None;
     st_site_name := None; st_body := [] |}.

(** [stripped.split(":", 1)[-1].strip()] *)
Definition field_value (stripped : list ascii) : list ascii :=
  strip (split1_last COLON stripped).

(** the body of the loop (lines 39-49) *)
Definition parse_line (st : parse_state) (line : list ascii) : parse_state :=
  let stripped := strip line in
  match stripped with
  | [] => st
  | _ =>
      if bool_decide (st_title st = None) && negb (contains [COLON] stripped)
      then {| st_title := Some stripped; st_url := st_url st;
              st_pub_date := st_pub_date st; st_site_name := st_site_name st;
              st_body := st_body st |}
      else
        let lowered := lower stripped in
        if startswith (lit "site:") lowered
        then {| st_title := st_title st; st_url := st_url st;
                st_pub_date := st_pub_date st;
                st_site_name := Some (field_value stripped);
                st_body := st_body st |}
        else if startswith (lit "published:") lowered
        then {| st_title := st_title st; st_url := st_url st;
                st_pub_date := Some (field_value stripped);
                st_site_name := st_site_name st; st_body := st_body st |}
        else if startswith (lit "url:") lowered
        then {| st_title := st_title st; st_url := Some (field_value stripped);
                st_pub_date := st_pub_date st; st_site_name := st_site_name st;
                st_body := st_body st |}
        else {| st_title := st_title st; st_url := st_url st;
                st_pub_date := st_pub_date st; st_site_name := st_site_name st;
                st_body := st_body st ++ [line] |}
  end.

Definition parse_lines (lines : list (list ascii)) : parse_state :=
  foldl parse_line initial lines.

(** lines 35-51 on the text that was read *)
Definition parse_text (text : list ascii) : ArticleMetadata * list ascii :=
  let st := parse_lines (splitlines text) in
  ({| site_id := []; date_str := []; article_path := [];
      meta_title := st_title st; meta_url := st_url st;
      published_date := st_pub_date st;
      site_name_in_file := st_site_name st |},
   strip (join [LF] (st_body st))).

(** [parse_article_file] (lines 28-51) *)
Definition parse_article_file (path : list ascii) : M (ArticleMetadata * list ascii) :=
  do text <-
    try_except (read_file path) any_exception
      (fun e =>
         log_to "root" ERROR
           (lit "Failed to read " ++ path ++ lit ": " ++ text e) ;;
         raise e);
  ret (parse_text (universal_newlines text)).

End Rewrite.

(* ===================================================================== *)
(** * scrapers/wmur.py *)
(* ===================================================================== *)

Module Wmur.
Import Str Py World Base.

Definition BASE_URL : list ascii := lit "https://www.wmur.com".
Definition LOCAL_NEWS_URL : list ascii := BASE_URL ++ lit "/local-news".
Definition MAX_ARTICLES : nat := 60.

Definition NON_NEWS_KEYWORDS : list (list ascii) :=
  map lit ["grow-it-green"; "nh-chronicle"; "forecast"; "hour-by-hour"]%string.

(** [.*$]: [.] matches all but LF, [$] the end of the text or the place
    before a last LF. The value is what is left unmatched. *)
Fixpoint to_end_of_text (s : list ascii) : list (list ascii * list ascii) :=
  match s with
  | [] => [([], [])]
  | c :: s' =>
      if Ascii.eqb c LF then match s' with [] => [([], s)] | _ => [] end
      else map (fun mr => (c :: fst mr, snd mr)) (to_end_of_text s')
  end.

(** The expression of line 40, [\s*[-|]\s*WMUR.*$] under IGNORECASE. *)
Definition site_suffix : Re.parser (list ascii) :=
  Re.cat Re.ws_star
    (Re.cat (Re.bind (Re.char (fun c => Ascii.eqb c "-"%char || Ascii.eqb c "|"%char))
                     (fun c => Re.ret [c]))
       (Re.cat Re.ws_star (Re.cat (Re.nocase (lit "wmur")) to_end_of_text))).

(** [re.sub(pattern, "", title)]: the leftmost match reaches the end of the
    text, so there is at most one. *)
Fixpoint remove_site_suffix (s : list ascii) : list ascii :=
  match site_suffix s with
  | (_, rest) :: _ => rest
  | [] => match s with
          | c :: s' => c :: remove_site_suffix s'
          | [] => []
          end
  end.

Definition nonempty (o : option (list ascii)) : option (list ascii) :=
  match o with
  | Some (c :: s) => Some (c :: s)
  | _ => None
  end.

(** [extract_title] (lines 23-41) *)
Definition extract_title (soup : Page) : list ascii :=
  let title :=
    match nonempty (og_title soup) with
    | Some t => strip t
    | None =>
        match nonempty (twitter_title soup) with
        | Some t => strip t
        | None => default (lit "Untitled") (h1 soup)
        end
    end in
  strip (remove_site_suffix title).

(** the loop of lines 60-77 *)
Fixpoint collect (anchors urls : list (list ascii)) : list (list ascii) :=
  match anchors with
  | [] => urls
  | href :: rest =>
      match href with
      | [] => collect rest urls
      | _ =>
          let href := if startswith (lit "/") href then BASE_URL ++ href else href in
          if negb (startswith BASE_URL href) then collect rest urls
          else if negb (contains (lit "/article/") href) then collect rest urls
          else if contains_any NON_NEWS_KEYWORDS (lower href) then collect rest urls
          else if bool_decide (href ∈ urls) then collect rest urls
          else
            let urls := urls ++ [href] in
            if MAX_ARTICLES <=? length urls then urls else collect rest urls
      end
  end.

(** [get_candidate_urls] (lines 43-79) *)
Definition get_candidate_urls : M (list (list ascii)) :=
  do html <- fetch_html LOCAL_NEWS_URL;
  let soup := soup_of html in
  let anchors := default (hrefs soup) (local_news_hrefs soup) in
  ret (collect anchors []).

Definition hard_stop_phrases : list (list ascii) :=
  map lit ["subscribe to wmur's youtube channel";
           "hearst television participates"]%string.

Definition skip_phrases : list (list ascii) :=
  map lit ["download the free wmur app"; "get the wmur app"; "copyright"]%string.

(** the loop of lines 114-122 *)
Fixpoint body_paragraphs (ps : list (list ascii)) : list (list ascii) :=
  match ps with
  | [] => []
  | t :: rest =>
      match t with
      | [] => body_paragraphs rest
      | _ =>
          let lowered := lower t in
          if contains_any hard_stop_phrases lowered then []
          else if contains_any skip_phrases lowered && contains (lit "wmur") lowered
          then body_paragraphs rest
          else t :: body_paragraphs rest
      end
  end.

(** [scrape_article] (lines 81-129) *)
Definition scrape_article (url : list ascii) (fallback_date : date) : M (option Article) :=
  do html <- fetch_html url;
  let soup := soup_of html in
  let title := extract_title soup in
  let title_lower := lower title in
  if contains (lit "wmur") title_lower || contains (lit "hearst television news") title_lower
  then ret None
  else
    do pub_date <-
      match DATE_PATTERN_search (page_text soup) with
      | Some m => lift (parse_us_date_string m)
      | None => ret None
      end;
    let pub_date := default fallback_date pub_date in
    ret (Some {| url := url; title := JStr title; date_of := Some pub_date;
                 paragraphs := body_paragraphs (p_texts soup) |}).

(** the loop of lines 140-148 *)
Fixpoint scrape_loop (target_date : date) (candidates : list (list ascii))
  (valid_articles : list Article) : M (list Article) :=
  match candidates with
  | [] => ret valid_articles
  | url :: rest =>
      do valid_articles <-
        try_except
          (do art <- scrape_article url target_date;
           ret match art with
               | Some a => if bool_decide (date_of a = Some target_date)
                           then valid_articles ++ [a] else valid_articles
               | None => valid_articles
               end)
          any_exception
          (fun e =>
             log_to "Scraper" ERROR
               (lit "[WMUR] Failed to scrape " ++ url ++ lit ": " ++ text e) ;;
             ret valid_articles);
      scrape_loop target_date rest valid_articles
  end.

(** [scrape] (lines 131-150) *)
Definition scrape (target_date : date) : M (list Article) :=
  do candidates <- get_candidate_urls;
  scrape_loop target_date candidates [].

End Wmur.

(* ===================================================================== *)
(** * The date in the path of a URL (wcax.py and vtdigger.py) *)
(* ===================================================================== *)

Module UrlDate.
Import Str Py Base.

(** [re.search(pattern, s)]: the first match at the leftmost start *)
Fixpoint search {A} (p : Re.parser A) (s : list ascii) : option A :=
  match p s with
  | (a, _) :: _ => Some a
  | [] => match s with
          | _ :: s' => search p s'
          | [] => None
          end
  end.

Definition two_digits : Re.parser (list ascii) := Re.cat Re.digit Re.digit.

(** the expression [/(\d{4})/(\d{2})/(\d{2})/] with its three groups *)
Definition pattern : Re.parser (list ascii * list ascii * list ascii) :=
  Re.bind (Re.exact (lit "/")) (fun _ =>
  Re.bind re_year (fun y =>
  Re.bind (Re.exact (lit "/")) (fun _ =>
  Re.bind two_digits (fun m =>
  Re.bind (Re.exact (lit "/")) (fun _ =>
  Re.bind two_digits (fun d =>
  Re.bind (Re.exact (lit "/")) (fun _ => Re.ret (y, m, d)))))))).

(** [date(int(y), int(m), int(d))] on the groups of a match; [None] when
    the expression does not match *)
Definition url_date (href : list ascii) : option (result date) :=
  match search pattern href with
  | None => None
  | Some (y, m, d) =>
      Some match py_int y, py_int m, py_int d with
           | Some yv, Some mv, Some dv => date_new yv mv dv
           | _, _, _ => value_error "invalid literal for int()"
           end
  end.

(** the loop of [get_urls_for_date], the same in both files but for the
    base URL *)
Section Listing.
Variable urljoin : list ascii -> list ascii -> list ascii.
Variable BASE_URL : list ascii.
Variable MAX_ARTICLES : nat.

Fixpoint collect (target_date : date) (anchors urls : list (list ascii))
  : list (list ascii) :=
  match anchors with
  | [] => urls
  | href :: rest =>
      match href with
      | [] => collect target_date rest urls
      | _ =>
          let href := if startswith (lit "/") href then urljoin BASE_URL href else href in
          if negb (startswith BASE_URL href) then collect target_date rest urls
          else
            match url_date href with
            | None => collect target_date rest urls
            | Some (Raise e) =>
                (* [except ValueError: continue]; nothing else is raised:
                   the groups are short runs of digits *)
                collect target_date rest urls
            | Some (Ok url_date) =>
                if negb (bool_decide (url_date = target_date))
                then collect target_date rest urls
                else if bool_decide (href ∈ urls) then collect target_date rest urls
                else
                  let urls := urls ++ [href] in
                  if MAX_ARTICLES <=? length urls then urls
                  else collect target_date rest urls
            end
      end
  end.

End Listing.

End UrlDate.

(* ===================================================================== *)
(** * scrapers/wcax.py *)
(* ===================================================================== *)

Module Wcax.
Import Str Py World Base.

Definition BASE_URL : list ascii := lit "https://www.wcax.com".
Definition NEWS_URL : list ascii := BASE_URL ++ lit "/news/".
Definition MAX_ARTICLES : nat := 60.

Definition LOCAL_CATEGORIES : list (list ascii) :=
  map lit ["vermont"; "new hampshire"; "local"; "vt"; "nh"; "news"; "crime";
           "education"; "health"; "politics"; "business"]%string.

Definition EXCLUDE_TITLES : list (list ascii) :=
  map lit ["programming note"; "this day in history"; "history"]%string.

(** [extract_category] (lines 60-70) *)
Definition extract_category (soup : Page) : list ascii :=
  match Wmur.nonempty (section_meta soup) with
  | Some c => strip c
  | None => default [] (category_link soup)
  end.

(** the loop of lines 100-104 *)
Fixpoint body_paragraphs (ps : list (list ascii)) : list (list ascii) :=
  match ps with
  | [] => []
  | t :: rest =>
      match t with
      | [] => body_paragraphs rest
      | _ =>
          if contains (lit "copyright") (lower t) && contains (lit "wcax") (lower t)
          then body_paragraphs rest
          else t :: body_paragraphs rest
      end
  end.

Section WithUrljoin.
Variable urljoin : list ascii -> list ascii -> list ascii.

(** [get_urls_for_date] (lines 25-58) *)
Definition get_urls_for_date (target_date : date) : M (list (list ascii)) :=
  do html <- fetch_html NEWS_URL;
  ret (UrlDate.collect urljoin BASE_URL MAX_ARTICLES target_date
         (hrefs (soup_of html)) []).

(** [scrape_article] (lines 72-111) *)
Definition scrape_article (url : list ascii) (fallback_date : date) : M (option Article) :=
  do html <- fetch_html url;
  let soup := soup_of html in
  let title := default (lit "Untitled") (h1 soup) in
  if contains_any EXCLUDE_TITLES (lower title) then ret None
  else
    let category := lower (extract_category soup) in
    if match category with [] => false | _ => true end
       && negb (contains_any LOCAL_CATEGORIES category)
    then ret None
    else
      let pub_date :=
        match UrlDate.url_date url with
        | Some (Ok d) => d
        | _ => fallback_date
        end in
      ret (Some {| url := url; title := JStr title; date_of := Some pub_date;
                   paragraphs := body_paragraphs (p_texts soup) |}).

(** the loop of lines 121-128 *)
Fixpoint scrape_loop (target_date : date) (urls : list (list ascii))
  (articles : list Article) : M (list Article) :=
  match urls with
  | [] => ret articles
  | u :: rest =>
      do articles <-
        try_except
          (do art <- scrape_article u target_date;
           ret match art with
               | Some a => articles ++ [a]
               | None => articles
               end)
          any_exception
          (fun e =>
             log_to "Scraper" ERROR
               (lit "[WCAX] Failed to scrape " ++ u ++ lit ": " ++ text e) ;;
             ret articles);
      scrape_loop target_date rest articles
  end.

(** [scrape] (lines 113-130) *)
Definition scrape (target_date : date) : M (list Article) :=
  do urls <- get_urls_for_date target_date;
  scrape_loop target_date urls [].

End WithUrljoin.
End Wcax.

(* ===================================================================== *)
(** * scrapers/vtdigger.py *)
(* ===================================================================== *)

Module Vtdigger.
Import Str Py World Base.

Definition BASE_URL : list ascii := lit "https://vtdigger.org".
Definition MAX_ARTICLES : nat := 60.

Definition hard_stop_phrases : list (list ascii) :=
  map lit ["have something to say? submit a commentary here";
           "vermont's newsletter"; "request a correction"]%string.

Definition skip_exact_phrases : list (list ascii) :=
  map lit ["vtdigger"; "news in pursuit of truth"]%string.

(** the loop of lines 107-141; [None] is the [return None] of the filters *)
Fixpoint body_paragraphs (first_paragraph_checked : bool) (ps : list (list ascii))
  : option (list (list ascii)) :=
  match ps with
  | [] => Some []
  | t :: rest =>
      match t with
      | [] => body_paragraphs first_paragraph_checked rest
      | _ =>
          let lowered := lower t in
          if negb first_paragraph_checked
             && (contains (lit "commentaries are opinion pieces contributed by readers and newsmakers") lowered
                 || startswith (lit "Born") t)
          then None
          else if contains (lit "young writers project") lowered
                  || contains (lit "giving tuesday") lowered
          then None
          else if contains_any hard_stop_phrases lowered then Some []
          else if bool_decide (lowered ∈ skip_exact_phrases)
          then body_paragraphs true rest
          else if contains (lit "reader donations") lowered
          then body_paragraphs true rest
          else cons t <$> body_paragraphs true rest
      end
  end.

Section WithUrljoin.
Variable urljoin : list ascii -> list ascii -> list ascii.

(** [get_urls_for_date] (lines 18-49) *)
Definition get_urls_for_date (target_date : date) : M (list (list ascii)) :=
  do html <- fetch_html BASE_URL;
  ret (UrlDate.collect urljoin BASE_URL MAX_ARTICLES target_date
         (hrefs (soup_of html)) []).

(** [scrape_article] (lines 51-148) *)
Definition scrape_article (url : list ascii) (fallback_date : date) : M (option Article) :=
  do html <- fetch_html url;
  let soup := soup_of html in
  let title := default (lit "Untitled") (h1 soup) in
  let clean_title := strip (lower title) in
  if bool_decide (clean_title ∈ map lit ["vtdigger"; "vtdiggers"]%string) then ret None
  else if contains (lit "vtdigger announces") clean_title
          || contains (lit "giving tuesday") clean_title
  then ret None
  else
    let pub_date : option date :=
      match UrlDate.url_date url with
      | Some (Ok d) => Some d
      | _ => None
      end in
    do pub_date <-
      match pub_date with
      | Some d => ret (Some d)
      | None =>
          match DATE_PATTERN_search (page_text soup) with
          | Some m => lift (parse_us_date_string m)
          | None => ret None
          end
      end;
    let pub_date := default fallback_date pub_date in
    match body_paragraphs false (p_texts soup) with
    | None => ret None
    | Some paragraphs =>
        ret (Some {| url := url; title := JStr title; date_of := Some pub_date;
                     paragraphs := paragraphs |})
    end.

(** the loop of lines 158-165 *)
Fixpoint scrape_loop (target_date : date) (urls : list (list ascii))
  (articles : list Article) : M (list Article) :=
  match urls with
  | [] => ret articles
  | u :: rest =>
      do articles <-
        try_except
          (do art <- scrape_article u target_date;
           ret match art with
               | Some a => articles ++ [a]
               | None => articles
               end)
          any_exception
          (fun e =>
             log_to "Scraper" ERROR
               (lit "[VTDigger] Failed to scrape " ++ u ++ lit ": " ++ text e) ;;
             ret articles);
      scrape_loop target_date rest articles
  end.

(** [scrape] (lines 150-167) *)
Definition scrape (target_date : date) : M (list Article) :=
  do urls <- get_urls_for_date target_date;
  scrape_loop target_date urls [].

End WithUrljoin.
End Vtdigger.

(* ===================================================================== *)
(** * scrapers/mykeenenow.py *)
(* ===================================================================== *)

Module Mykeenenow.
Import Str Py World Base.

Definition BASE_URL : list ascii := lit "https://mykeenenow.com".
Definition NEWS_URL : list ascii := BASE_URL ++ lit "/news/".
Definition MAX_ARTICLES : nat := 60.

(** the credit line of line 89: the word story, a space and the copyright
    sign *)
Definition story_credit : list ascii := lit "story " ++ [ascii_of_nat 169].

(** the loop of lines 86-90 *)
Fixpoint body_paragraphs (ps : list (list ascii)) : list (list ascii) :=
  match ps with
  | [] => []
  | t :: rest =>
      match t with
      | [] => body_paragraphs rest
      | _ =>
          if contains story_credit (lower t)
             && contains (lit "saga communications") (lower t)
          then body_paragraphs rest
          else t :: body_paragraphs rest
      end
  end.

Section WithUrljoin.
Variable urljoin : list ascii -> list ascii -> list ascii.

(** the first loop of [get_urls_for_date] (lines 28-39) *)
Fixpoint candidates_of (anchors candidates : list (list ascii)) : list (list ascii) :=
  match anchors with
  | [] => candidates
  | href :: rest =>
      match href with
      | [] => candidates_of rest candidates
      | _ =>
          let href := if startswith (lit "/") href then urljoin BASE_URL href else href in
          if negb (startswith BASE_URL href) then candidates_of rest candidates
          else if negb (contains (lit "/news/") href) then candidates_of rest candidates
          else if bool_decide (href ∈ candidates) then candidates_of rest candidates
          else candidates_of rest (candidates ++ [href])
      end
  end.

(** the second loop (lines 44-62): every candidate is fetched until
    [MAX_ARTICLES] of them have matched *)
Fixpoint date_check_loop (target_date : date) (candidates valid_urls : list (list ascii))
  : M (list (list ascii)) :=
  match candidates with
  | [] => ret valid_urls
  | u :: rest =>
      if MAX_ARTICLES <=? length valid_urls then ret valid_urls
      else
        do valid_urls <-
          try_except
            (do art_html <- fetch_html u;
             match DATE_PATTERN_search (page_text (soup_of art_html)) with
             | Some m =>
                 do d <- lift (parse_us_date_string m);
                 ret (if bool_decide (d = Some target_date)
                      then valid_urls ++ [u] else valid_urls)
             | None => ret valid_urls
             end)
            any_exception
            (fun e =>
               log_to "Scraper" WARNING
                 (lit "[MyKeeneNow] Failed to check date for " ++ u ++ lit ": " ++ text e) ;;
               ret valid_urls);
        date_check_loop target_date rest valid_urls
  end.

(** [get_urls_for_date] (lines 18-65) *)
Definition get_urls_for_date (target_date : date) : M (list (list ascii)) :=
  do html <- fetch_html NEWS_URL;
  let candidates := candidates_of (hrefs (soup_of html)) [] in
  date_check_loop target_date candidates [].

(** [scrape_article] (lines 67-98): the page is fetched a second time *)
Definition scrape_article (url : list ascii) (fallback_date : date) : M (option Article) :=
  do html <- fetch_html url;
  let soup := soup_of html in
  let title := default (lit "Untitled") (h1 soup) in
  do pub_date <-
    match DATE_PATTERN_search (page_text soup) with
    | Some m => lift (parse_us_date_string m)
    | None => ret None
    end;
  let pub_date := default fallback_date pub_date in
  ret (Some {| url := url; title := JStr title; date_of := Some pub_date;
               paragraphs := body_paragraphs (p_texts soup) |}).

(** the loop of lines 108-114 *)
Fixpoint scrape_loop (target_date : date) (urls : list (list ascii))
  (articles : list Article) : M (list Article) :=
  match urls with
  | [] => ret articles
  | u :: rest =>
      do articles <-
        try_except
          (do art <- scrape_article u target_date;
           ret match art with
               | Some a => articles ++ [a]
               | None => articles
               end)
          any_exception
          (fun e =>
             log_to "Scraper" ERROR
               (lit "[MyKeeneNow] Failed to scrape " ++ u ++ lit ": " ++ text e) ;;
             ret articles);
      scrape_loop target_date rest articles
  end.

(** [scrape] (lines 100-116) *)
Definition scrape (target_date : date) : M (list Article) :=
  do urls <- get_urls_for_date target_date;
  scrape_loop target_date urls [].

End WithUrljoin.
End Mykeenenow.

(* ===================================================================== *)
(** * scrapers/keenesentinel.py and scrapers/reformer.py *)
(* ===================================================================== *)

(** The two files are the same code but for the constants gathered in
    [config] (and the cookie test at the head of reformer's [scrape]). *)
Module Blox.
Import Str Py World Base.

Record config : Type := {
  log_tag : list ascii;
  SEARCH_API_URL : list ascii;
  query : list ascii;                 (* [params], encoded *)
  BASE_URL : list ascii;
  stops : list (list ascii);
  start_time_keys : list string       (* the keys tried on a nested start time *)
}.

Section Blox.
(** Library functions that stay abstract: [urllib.parse.urljoin], the
    texts [p.get_text(" ", strip=True)] of the [<p>] elements of
    [BeautifulSoup(raw_html, "lxml")], and [str(x)] of a value that is
    not a [str]. *)
Variable urljoin : list ascii -> list ascii -> list ascii.
Variable find_all_p : list ascii -> list (list ascii).
Variable py_repr : json -> list ascii.
Variable cfg : config.

(** [str(x)] *)
Definition py_str (v : json) : list ascii :=
  match v with
  | JStr s => s
  | _ => py_repr v
  end.

(** the loop of [clean_html_text] (lines 45-53) *)
Fixpoint keep_paragraphs (ps : list (list ascii)) : list (list ascii) :=
  match ps with
  | [] => []
  | t :: rest =>
      match t with
      | [] => keep_paragraphs rest
      | _ =>
          let lowered := lower t in
          if contains_any (stops cfg) lowered && (length lowered <? 50)
          then keep_paragraphs rest
          else t :: keep_paragraphs rest
      end
  end.

(** [clean_html_text] (lines 32-54); [BeautifulSoup] raises on a value
    that is neither text nor bytes *)
Definition clean_html_text (raw_html : json) : result (list (list ascii)) :=
  if negb (truthy raw_html) then Ok []
  else
    let raw_html :=
      match raw_html with
      | JArr items => JStr (concat (map py_str items))
      | v => v
      end in
    match raw_html with
    | JStr html => Ok (keep_paragraphs (find_all_p html))
    | _ => type_error "Incoming markup is of an invalid type"
    end.

(** [a.get(k1) or a.get(k2) or ...] on a [dict] *)
Fixpoint first_truthy (keys : list string) (fields : list (list ascii * json)) : json :=
  match keys with
  | [] => JNull
  | [k] => default JNull (lookup_field (lit k) fields)
  | k :: rest => py_or (default JNull (lookup_field (lit k) fields))
                       (first_truthy rest fields)
  end.

(** lines 83-89 *)
Definition start_time_of (start_time_obj : json) : json :=
  match start_time_obj with
  | JObj fields => first_truthy (start_time_keys cfg) fields
  | JStr s => JStr s
  | _ => JStr []
  end.

(** [y, m, d = map(int, pieces)] *)
Definition three_ints (pieces : list (list ascii)) : result (Z * Z * Z) :=
  match pieces with
  | [a; b; c] =>
      match py_int a, py_int b, py_int c with
      | Some y, Some m, Some d => Ok (y, m, d)
      | _, _, _ => value_error "invalid literal for int()"
      end
  | _ => value_error "wrong number of values to unpack"
  end.

(** the body of the [try] of lines 94-98 *)
Definition parse_start_time (start_time_str : json) : result date :=
  match start_time_str with
  | JStr s =>
      let dt_str := hd [] (split "T"%char s) in
      match three_ints (split "-"%char dt_str) with
      | Ok (y, m, d) => date_new y m d
      | Raise e => Raise e
      end
  | _ => attribute_error "object has no attribute 'split'"
  end.

(** [urljoin(BASE_URL, raw_url)]: a false [raw_url] gives the base, a true
    one that is not a [str] raises *)
Definition join_url (raw_url : json) : result (list ascii) :=
  if negb (truthy raw_url) then Ok (BASE_URL cfg)
  else match raw_url with
       | JStr u => Ok (urljoin (BASE_URL cfg) u)
       | _ => type_error "Cannot mix str and non-str arguments"
       end.

(** [title[:30]], evaluated for the message of line 119 *)
Definition slice30 (title : json) : result json :=
  match title with
  | JStr s => Ok (JStr (take 30 s))
  | JArr l => Ok (JArr (take 30 l))
  | _ => type_error "object is not subscriptable"
  end.

(** The body of the loop over the rows (lines 81-126): [Ok None] is
    [continue], [Ok (Some a)] the article appended. *)
Definition scrape_row (target_date : date) (row : json) : result (option Article) :=
  match get "starttime" row with
  | Raise e => Raise e
  | Ok start_time_obj =>
      let start_time_str := start_time_of start_time_obj in
      if negb (truthy start_time_str) then Ok None
      else
        match parse_start_time start_time_str with
        | Raise e => if is_value_or_attribute_error e then Ok None else Raise e
        | Ok pub_date =>
            if negb (bool_decide (pub_date = target_date)) then Ok None
            else
              match get_default "title" (JStr (lit "Untitled")) row,
                    get_default "url" (JStr []) row,
                    get "content" row, get "body" row with
              | Ok title, Ok raw_url, Ok content, Ok body =>
                  match join_url raw_url with
                  | Raise e => Raise e
                  | Ok url =>
                      let raw_body := py_or content body in
                      if negb (truthy raw_body) then Ok None
                      else
                        match clean_html_text raw_body with
                        | Raise e => Raise e
                        | Ok [] => Ok None
                        | Ok paragraphs =>
                            match slice30 title with
                            | Raise e => Raise e
                            | Ok _ =>
                                Ok (Some {| url := url; title := title;
                                            date_of := Some pub_date;
                                            paragraphs := paragraphs |})
                            end
                        end
                  end
              | Raise e, _, _, _ | _, Raise e, _, _
              | _, _, Raise e, _ | _, _, _, Raise e => Raise e
              end
        end
  end.

Fixpoint scrape_rows (target_date : date) (rows : list json) (valid_articles : list Article)
  : result (list Article) :=
  match rows with
  | [] => Ok valid_articles
  | row :: rest =>
      match scrape_row target_date row with
      | Raise e => Raise e
      | Ok None => scrape_rows target_date rest valid_articles
      | Ok (Some a) => scrape_rows target_date rest (valid_articles ++ [a])
      end
  end.

(** what [for row in rows] iterates over *)
Definition iterate (rows : json) : result (list json) :=
  match rows with
  | JArr items => Ok items
  | JStr s => Ok (map (fun c => JStr [c]) s)
  | JObj fields =>
      Ok (map JStr (remove_dups (map fst fields)))
  | _ => type_error "object is not iterable"
  end.

(** lines 76-128, on the decoded document *)
Definition scrape_data (target_date : date) (data : json) : result (list Article) :=
  match get_default "rows" (JArr []) data with
  | Raise e => Raise e
  | Ok rows =>
      match len rows with            (* the message of line 77 *)
      | Raise e => Raise e
      | Ok _ =>
          match iterate rows with
          | Raise e => Raise e
          | Ok items => scrape_rows target_date items []
          end
      end
  end.

(** lines 68-74: the request, inside [try ... except Exception] *)
Definition api_request : M (option json) :=
  try_except
    (do r <- requests_get (SEARCH_API_URL cfg ++ lit "?" ++ query cfg);
     raise_for_status (fst r) ;;
     match json_of (snd r) with
     | Some data => ret (Some data)
     | None => raise (Exn JSONDecodeError (lit "Expecting value"))
     end)
    any_exception
    (fun e =>
       log_to "Scraper" ERROR
         (log_tag cfg ++ lit " API Request Failed: " ++ text e) ;;
       ret None).

(** [scrape] (keenesentinel.py lines 56-128, reformer.py lines 64-137) *)
Definition scrape (target_date : date) : M (list Article) :=
  do data <- api_request;
  match data with
  | None => ret []
  | Some data => lift (scrape_data target_date data)
  end.

End Blox.
End Blox.

Module Keenesentinel.
Import Str Py World Base.

Definition cfg : Blox.config :=
  {| Blox.log_tag := lit "[KeeneSentinel]";
     Blox.SEARCH_API_URL := lit "https://www.keenesentinel.com/search/";
     Blox.query := lit "f=json&t=article&c%5B%5D=news%2Flocal&l=100&sort=starttime&sd=desc";
     Blox.BASE_URL := lit "https://www.keenesentinel.com";
     Blox.stops := map lit ["copyright"; "subscribe"; "sign up"; "print"; "email"]%string;
     Blox.start_time_keys := ["iso8601"; "value"; "iso"]%string |}.

Definition scrape urljoin find_all_p py_repr (target_date : date) : M (list Article) :=
  Blox.scrape urljoin find_all_p py_repr cfg target_date.

End Keenesentinel.

Module Reformer.
Import Str Py World Base.

Definition cfg : Blox.config :=
  {| Blox.log_tag := lit "[Reformer]";
     Blox.SEARCH_API_URL := lit "https://www.reformer.com/search/";
     Blox.query := lit "f=json&t=article&c%5B%5D=local-news&l=50&sort=starttime&sd=desc";
     Blox.BASE_URL := lit "https://www.reformer.com";
     Blox.stops := map lit ["copyright"; "subscribe"; "sign up"; "print"; "email";
                            "click here"]%string;
     Blox.start_time_keys := ["iso8601"; "value"]%string |}.

(** [USER_COOKIE] is a credential of the deployment and stays a parameter;
    [scrape] gives up at once on the placeholder text (lines 60-62). *)
Definition scrape (USER_COOKIE : list ascii) urljoin find_all_p py_repr
  (target_date : date) : M (list Article) :=
  if contains (lit "PASTE_YOUR") USER_COOKIE
  then log_to "Scraper" ERROR
         (lit "[Reformer] PLEASE PASTE YOUR COOKIE IN scraper/reformer.py") ;;
       ret []
  else Blox.scrape urljoin find_all_p py_repr cfg target_date.

End Reformer.

(* ===================================================================== *)
(** * The drivers: scrapers/__init__.py, app.py and the command line *)
(* ===================================================================== *)

Module Driver.
Import Str Py World Base.

(** The keys of [AVAILABLE_SCRAPERS], in the order of the dictionary. *)
Inductive site : Type :=
| wmur | wcax | vtdigger | mykeenenow | keenesentinel | reformer.

#[global] Instance site_eq_dec : EqDecision site.
Proof. solve_decision. Defined.

Definition AVAILABLE_SCRAPERS : list site :=
  [wmur; wcax; vtdigger; mykeenenow; keenesentinel; reformer].

Definition slug (s : site) : list ascii :=
  match s with
  | wmur => lit "wmur"
  | wcax => lit "wcax"
  | vtdigger => lit "vtdigger"
  | mykeenenow => lit "mykeenenow"
  | keenesentinel => lit "keenesentinel"
  | reformer => lit "reformer"
  end.

(** The library functions and the credential that the adapters take as
    parameters. *)
Record library : Type := {
  urljoin : list ascii -> list ascii -> list ascii;
  find_all_p : list ascii -> list (list ascii);
  py_repr : json -> list ascii;
  USER_COOKIE : list ascii
}.

(** [AVAILABLE_SCRAPERS[site_slug]] *)
Definition scrape_func (L : library) (s : site) : date -> M (list Article) :=
  match s with
  | wmur => Wmur.scrape
  | wcax => Wcax.scrape (urljoin L)
  | vtdigger => Vtdigger.scrape (urljoin L)
  | mykeenenow => Mykeenenow.scrape (urljoin L)
  | keenesentinel => Keenesentinel.scrape (urljoin L) (find_all_p L) (py_repr L)
  | reformer => Reformer.scrape (USER_COOKIE L) (urljoin L) (find_all_p L) (py_repr L)
  end.

(** the body of the [try] of both drivers *)
Definition scrape_and_save (L : library) (target_date : date) (s : site) : M unit :=
  do articles <- scrape_func L s target_date;
  save_articles (slug s) target_date articles.

(** app.py lines 213-217: [try: ... except: pass] *)
Definition scrape_manually_step (L : library) (selected_date : date) (s : site) : M unit :=
  try_except (scrape_and_save L selected_date s) any_exception (fun _ => ret tt).

Definition scrape_manually (L : library) (selected_date : date) : M unit :=
  for_each AVAILABLE_SCRAPERS (scrape_manually_step L selected_date).

(** The loop of [main] of the command line (the file kept as
    scraper copy 2.py, lines 96-111): [except Exception as e:
    logger.error(...); continue], with the logger named Main. *)
Definition main_step (L : library) (target_date : date) (s : site) : M unit :=
  try_except (scrape_and_save L target_date s) any_exception
    (fun e =>
       log_to "Main" ERROR
         (lit "CRITICAL ERROR scraping " ++ slug s ++ lit ": " ++ text e)).

Definition main_loop (L : library) (target_date : date) (sites_to_run : list site) : M unit :=
  for_each sites_to_run (main_step L target_date).

End Driver.

(* ===================================================================== *)
(** * The statements of the specification that are compared with the code *)
(* ===================================================================== *)

Module Spec.
Import Str Py World Base.

(** The article file as the specification words it: the title line, a
    blank line, the [Site:] line, the [Published:] line (when there is a
    date), the [URL:] line, a blank line, then each paragraph followed by a
    blank line. *)
Definition layout (t site_slug : list ascii) (a : Article) : list ascii :=
  t ++ [LF] ++ [LF]
  ++ lit "Site: " ++ upper site_slug ++ [LF]
  ++ match date_of a with
     | Some d => lit "Published: " ++ isoformat d ++ [LF]
     | None => []
     end
  ++ lit "URL: " ++ url a ++ [LF] ++ [LF]
  ++ concat (map (fun p => p ++ [LF] ++ [LF]) (paragraphs a)).

(** The stripped paragraphs that are not blank, which are those the
    serializer writes. *)
Definition written_paragraphs (a : Article) : list (list ascii) :=
  List.filter (fun p => match p with [] => false | _ => true end)
              (map strip (paragraphs a)).

(** The layout that the code produces when something is written after the
    header: the paragraphs are separated by a blank line and the text ends
    with one line feed. *)
Definition separated_layout (t site_slug : list ascii) (a : Article) : list ascii :=
  t ++ [LF] ++ [LF]
  ++ lit "Site: " ++ upper site_slug ++ [LF]
  ++ match date_of a with
     | Some d => lit "Published: " ++ isoformat d ++ [LF]
     | None => []
     end
  ++ lit "URL: " ++ url a ++ [LF] ++ [LF]
  ++ join [LF; LF] (written_paragraphs a) ++ [LF].

(** The pages fetched by the date check of mykeenenow, the listing page
    left out. *)
Definition pages_scanned (urljoin : list ascii -> list ascii -> list ascii)
  (target_date : date) (w : world) : nat :=
  length (requests (snd (Mykeenenow.get_urls_for_date urljoin target_date w)))
  - length (requests w) - 1.

(** A text that a line-oriented reader takes as one line with nothing to
    strip: no line boundary in it, no whitespace at either end. *)
Definition one_line (s : list ascii) : Prop :=
  Forall (fun c => is_linebreak c = false) s /\ strip s = s.

(** A line that the parser of the rewrite stage would take for one of its
    metadata lines. *)
Definition is_meta_line (line : list ascii) : bool :=
  let lowered := lower (strip line) in
  startswith (lit "site:") lowered || startswith (lit "published:") lowered
  || startswith (lit "url:") lowered.

(** The strings [<Month> <Day>, <Year>] of the date parser: the month
    abbreviated or in full (Sept and SEPT for September as well), the day
    with or without a leading zero, the year with four digits. *)
Definition abbreviated : list (list ascii) :=
  map lit ["Jan"; "Feb"; "Mar"; "Apr"; "May"; "Jun";
           "Jul"; "Aug"; "Sep"; "Oct"; "Nov"; "Dec"]%string.

Definition in_full : list (list ascii) :=
  map lit ["January"; "February"; "March"; "April"; "May"; "June"; "July";
           "August"; "September"; "October"; "November"; "December"]%string.

Definition month_spellings (m : Z) : list (list ascii) :=
  match abbreviated !! (Z.to_nat m - 1), in_full !! (Z.to_nat m - 1) with
  | Some a, Some f =>
      [a; f] ++ (if (m =? 9)%Z then [lit "Sept"; lit "SEPT"] else [])
  | _, _ => []
  end.

Definition day_spellings (d : Z) : list (list ascii) :=
  [str_of_Z d] ++ (if (d <? 10)%Z then [lit "0" ++ str_of_Z d] else []).

Definition year4 (y : Z) : list ascii :=
  [digit_char (y / 1000); digit_char (y / 100); digit_char (y / 10); digit_char y].

Definition us_date_string (name daytxt : list ascii) (y : Z) : list ascii :=
  name ++ lit " " ++ daytxt ++ lit ", " ++ year4 y.

(** What a text that the date parser accepts looks like, once Sept has
    been rewritten: a month name in any case, whitespace, the day in at
    most two characters, a comma, whitespace, four digits. *)
Definition accepted_form (fixed : list ascii) (dt : date) : Prop :=
  exists mon w1 dtxt w2 ytxt,
    fixed = mon ++ w1 ++ dtxt ++ [COMMA] ++ w2 ++ ytxt
    /\ (a_month !! (Z.to_nat (month dt) - 1) = Some (lower mon)
        \/ f_month !! (Z.to_nat (month dt) - 1) = Some (lower mon))
    /\ w1 <> [] /\ Forall (fun c => isspace c = true) w1
    /\ w2 <> [] /\ Forall (fun c => isspace c = true) w2
    /\ length dtxt <= 2 /\ py_int dtxt = Some (day dt)
    /\ length ytxt = 4 /\ Forall (fun c => isdigit c = true) ytxt
    /\ py_int ytxt = Some (year dt)
    /\ valid_date dt = true.

(** The invariant of the sanitizer: a whitespace character is a space and
    the character after it is not whitespace. *)
Fixpoint spaced (s : list ascii) : Prop :=
  match s with
  | c :: s' =>
      (isspace c = true -> c = " "%char /\ forall d, head s' = Some d -> isspace d = false)
      /\ spaced s'
  | [] => True
  end.

Definition tidy (s : list ascii) : Prop :=
  Forall (fun c => illegal c = false) s /\ spaced s
  /\ (forall c, head s = Some c -> isspace c = false)
  /\ (forall c, last s = Some c -> isspace c = false).

(** The expression of a format, cut after the month and after the day. *)
Definition year_stage {B} (k : list ascii -> Re.parser B) : Re.parser B :=
  Re.bind Re.ws_plus (fun _ => Re.bind re_year k).

Definition day_stage {B} (k : list ascii -> Re.parser B) : Re.parser B :=
  Re.bind Re.ws_plus (fun _ =>
  Re.bind re_day (fun d =>
  Re.bind (Re.exact (lit ",")) (fun _ => k d))).

(** the value of a run of digits read from the left *)
Definition digits_value (acc : Z) (s : list ascii) : Z :=
  foldl (fun a c => (10 * a + digit_val c)%Z) acc s.

(** the month name that is left once Sept has been rewritten *)
Definition normalized (name : list ascii) : list ascii :=
  if (length name =? 4) && (startswith (lit "Sept") name || startswith (lit "SEPT") name)
  then lit "Sep" else name.

(** The state of the parser of the rewrite stage after the lines of a
    text. *)
Definition feed (st : Rewrite.parse_state) (text : list ascii) : Rewrite.parse_state :=
  foldl Rewrite.parse_line st (splitlines text).

(** A text none of whose lines would be taken for a metadata line. *)
Definition harmless (text : list ascii) : Prop :=
  Forall (fun l => is_meta_line l = false) (splitlines text).

(** Writing an article to a file, then parsing the file. *)
Definition written_then_parsed (a : Article) (site_slug path : list ascii)
  : M (Rewrite.ArticleMetadata * list ascii) :=
  do text <- lift (article_text a site_slug);
  write_text path text ;;
  Rewrite.parse_article_file path.

(** the text up to the line feed that ends the URL line, and what follows *)
Definition file_text (t site_slug : list ascii) (a : Article) (body : list ascii)
  : list ascii :=
  t ++ LF :: LF :: (lit "Site: " ++ upper site_slug) ++ LF ::
  match date_of a with
  | Some d => (lit "Published: " ++ isoformat d) ++ LF :: (lit "URL: " ++ url a) ++ LF :: body
  | None => (lit "URL: " ++ url a) ++ LF :: body
  end.

Definition body_text (a : Article) : list ascii :=
  match written_paragraphs a with
  | [] => []
  | qs => LF :: join [LF; LF] qs ++ [LF]
  end.

(** The name the collision policy picks for a stem: [<stem>.txt] when it is
    free, else [<stem> (k).txt] for the least [k] from 2 on that is free. *)
Definition chosen (taken : list ascii -> bool) (stem name : list ascii) : Prop :=
  (taken (stem ++ lit ".txt") = false /\ name = stem ++ lit ".txt")
  \/ (taken (stem ++ lit ".txt") = true
      /\ exists k, 2 <= k
           /\ name = stem ++ lit " (" ++ str_of_Z (Z.of_nat k) ++ lit ").txt"
           /\ taken name = false
           /\ forall j, 2 <= j < k ->
                taken (stem ++ lit " (" ++ str_of_Z (Z.of_nat j) ++ lit ").txt") = true).

(** two worlds with the same files under the same root *)
Definition same_disk (w1 w2 : world) : Prop :=
  files w1 = files w2 /\ ROOT_DIR w1 = ROOT_DIR w2.

(** The request sent from a world fails: no answer, a status that
    [raise_for_status] refuses, or a body that is not JSON. *)
Definition request_fails (w : world) (url : list ascii) : Prop :=
  match net w (length (requests w)) url with
  | NoReply _ => True
  | Reply status body => 400 <= status < 600 \/ json_of body = None
  end.

(** The links of the page that answers the next request for [url]. *)
Definition links_served (w : world) (url : list ascii) : nat :=
  match net w (length (requests w)) url with
  | NoReply _ => 0
  | Reply _ body => length (hrefs (soup_of body))
  end.

(** [urls_<date>.json] of a batch: the path of the URL list *)
Definition url_list_path (root site_slug : list ascii) (target_date : date) : list ascii :=
  in_dir (output_dir root target_date site_slug)
         (site_slug ++ lit "_urls_" ++ isoformat target_date ++ lit ".json").

(** [a < b] on [str] *)
Definition str_lt (a b : list ascii) : Prop := str_ltb a b = true.

(** a URL that the listing loop of wmur keeps (lines 67-71) *)
Definition wmur_candidate (u : list ascii) : Prop :=
  startswith Wmur.BASE_URL u = true
  /\ contains (lit "/article/") u = true
  /\ contains_any Wmur.NON_NEWS_KEYWORDS (lower u) = false.

End Spec.

(* ===================================================================== *)
(** * Concrete worlds *)
(* ===================================================================== *)

Module Scenario.
Import Str Py World Base.

Definition blank_page : Page :=
  {| hrefs := []; local_news_hrefs := None; og_title := None;
     twitter_title := None; h1 := None; section_meta := None;
     category_link := None; page_text := []; p_texts := [] |}.

Definition html (p : Page) : response := Reply 200 {| soup_of := p; json_of := None |}.

Definition listing (links : list (list ascii)) : Page :=
  {| hrefs := links; local_news_hrefs := None; og_title := None;
     twitter_title := None; h1 := None; section_meta := None;
     category_link := None; page_text := []; p_texts := [] |}.

Definition story (headline text : string) (ps : list string) : Page :=
  {| hrefs := []; local_news_hrefs := None; og_title := None;
     twitter_title := None; h1 := Some (lit headline); section_meta := None;
     category_link := None; page_text := lit text; p_texts := map lit ps |}.

Definition fresh (network : nat -> list ascii -> response) : world :=
  {| net := network; requests := []; log := []; files := ∅;
     ROOT_DIR := lit "Stories" |}.

(** a stand-in for [urljoin] on hrefs that are absolute paths *)
Definition simple_urljoin (base href : list ascii) : list ascii := base ++ href.

Definition toy_library : Driver.library :=
  {| Driver.urljoin := simple_urljoin;
     Driver.find_all_p := fun html => [html];
     Driver.py_repr := fun _ => lit "<value>";
     Driver.USER_COOKIE := lit "session=1" |}.

Definition june_1 : date := Date 2025 6 1.

(** mykeenenow: the page of a story shows June 1 when it is fetched for
    the date check (the second request of the run) and June 2 when it is
    fetched again for extraction. *)
Definition changing_network (n : nat) (url : list ascii) : response :=
  if bool_decide (url = Mykeenenow.NEWS_URL) then html (listing [lit "/news/fair"])
  else if n =? 1 then html (story "County fair opens" "Posted June 1, 2025 by staff" ["The fair opened."])
  else html (story "County fair opens" "Updated June 2, 2025 by staff" ["The fair opened."]).

(** wmur: a page of the target date without any paragraph *)
Definition gallery_network (n : nat) (url : list ascii) : response :=
  if bool_decide (url = Wmur.LOCAL_NEWS_URL)
  then html (listing [lit "/article/parade-photos/123"])
  else html (story "Parade photos" "Updated: 5:00 PM EDT Jun 1, 2025" []).

(** no site answers *)
Definition dead_network (n : nat) (url : list ascii) : response :=
  NoReply (lit "Connection refused").

(** mykeenenow: sixty-one links of the listing, none of a page with a date *)
Definition many_links : list (list ascii) :=
  map (fun i => lit "/news/" ++ str_of_Z (Z.of_nat i)) (seq 1 61).

Definition undated_network (n : nat) (url : list ascii) : response :=
  if bool_decide (url = Mykeenenow.NEWS_URL) then html (listing many_links)
  else html (story "Notice" "No date here" ["Text."]).

(** the search API answers with a JSON array instead of an object *)
Definition array_network (n : nat) (url : list ascii) : response :=
  Reply 200 {| soup_of := blank_page; json_of := Some (JArr []) |}.

Definition fire_article : Article :=
  {| url := lit "https://www.wmur.com/article/fire/1";
     title := JStr (lit "Fire: crews respond downtown");
     date_of := Some june_1;
     paragraphs := [lit "Crews responded at noon."] |}.

Definition meeting_article : Article :=
  {| url := lit "https://www.wmur.com/article/meeting/2";
     title := JStr (lit "Town Meeting Update");
     date_of := Some june_1;
     paragraphs := [lit "The meeting ran late."; lit "A vote follows."] |}.

(** a second story whose title gives the file name of [meeting_article] *)
Definition meeting_followup : Article :=
  {| url := lit "https://www.wmur.com/article/meeting/3";
     title := JStr (lit "Town Meeting: Update");
     date_of := Some june_1;
     paragraphs := [lit "The vote passed."] |}.

(** an archive that already holds a file under the name of
    [meeting_article] *)
Definition archived : world :=
  {| net := dead_network; requests := []; log := [];
     files := {[ lit "Stories/2025-06-01/wmur/Original/Town Meeting Update.txt"
                 := lit "kept" ]};
     ROOT_DIR := lit "Stories" |}.

(** an article as the JSON adapters can return it, the title of the row
    being a list *)
Definition listed_title_article : Article :=
  {| url := lit "https://www.keenesentinel.com/news/local/a.html";
     title := JArr [JStr (lit "Board"); JStr (lit "meets")];
     date_of := Some june_1;
     paragraphs := [lit "The board met."] |}.

(** wmur: a listing with a story, the same link twice, a forecast page, a
    link to another site and a promotion of the station *)
Definition station_network (n : nat) (url : list ascii) : response :=
  if bool_decide (url = Wmur.LOCAL_NEWS_URL)
  then html (listing [lit "/article/fire-downtown/1";
                      lit "/article/fire-downtown/1";
                      lit "/article/forecast-today/2";
                      lit "https://example.com/article/x/3";
                      lit "/article/help-us/4"])
  else if bool_decide (url = Wmur.BASE_URL ++ lit "/article/help-us/4")
  then html (story "Help WMUR recognize a teacher" "Jun 1, 2025" ["Nominate now."])
  else html (story "Fire downtown - WMUR" "Updated: 5:00 PM EDT Jun 1, 2025"
               ["Crews responded."; ""; "Subscribe to WMUR's YouTube channel"; "More"]).

(** wcax: a listing with a story of June 1 (linked twice) and one of
    May 31 *)
Definition dated_network (n : nat) (url : list ascii) : response :=
  if bool_decide (url = Wcax.NEWS_URL)
  then html (listing [lit "/2025/06/01/fire/"; lit "/2025/05/31/flood/";
                      lit "/2025/06/01/fire/"])
  else html (story "Fire downtown" "Published: Jun. 1, 2025" ["Crews responded."]).

(** the search API answers with three rows: a story of June 1, a story of
    May 31, and a story of June 1 without a body *)
Definition api_row (start title href body : string) : json :=
  JObj [(lit "starttime", JObj [(lit "iso8601", JStr (lit start))]);
        (lit "title", JStr (lit title));
        (lit "url", JStr (lit href));
        (lit "content", JStr (lit body))].

Definition api_network (n : nat) (url : list ascii) : response :=
  Reply 200
    {| soup_of := blank_page;
       json_of :=
         Some (JObj [(lit "rows",
                      JArr [api_row "2025-06-01T08:00:00-04:00" "Board meets"
                                    "/news/local/a.html" "The board met.";
                            api_row "2025-05-31T08:00:00-04:00" "Road closed"
                                    "/news/local/b.html" "The road closed.";
                            api_row "2025-06-01T09:00:00-04:00" "Photo"
                                    "/news/local/c.html" ""])]) |}.

End Scenario.

(* ===================================================================== *)
(** * Facts: the filename sanitizer *)
(* ===================================================================== *)

Module Sanitizer.
Import Str Py World Base Spec.

(** [lstrip] drops a prefix of whitespace, [rstrip] a suffix. *)
Lemma lstrip_suffix s : exists t, s = t ++ lstrip s /\ Forall (fun c => isspace c = true) t.
Proof.
  induction s as [|c s IH]; simpl.
  - by exists [].
  - destruct (isspace c) eqn:E.
    + destruct IH as (t & Ht & Hf). exists (c :: t). split; [simpl; by rewrite <- Ht | by constructor].
    + by exists [].
Qed.

Lemma rstrip_prefix s : exists t, s = rstrip s ++ t /\ Forall (fun c => isspace c = true) t.
Proof.
  induction s as [|c s IH]; simpl.
  - by exists [].
  - destruct IH as (t & Ht & Hf). destruct (rstrip s) as [|r rs] eqn:Er.
    + destruct (isspace c) eqn:E.
      * exists (c :: t). simpl in Ht. subst s. split; [done|by constructor].
      * exists t. simpl in *. by subst.
    + exists t. split; [|done]. simpl in *. by f_equal.
Qed.

Lemma lstrip_head s c : head (lstrip s) = Some c -> isspace c = false.
Proof.
  induction s as [|a s IH]; simpl; [done|].
  destruct (isspace a) eqn:E; [done|]. simpl. by intros [= <-].
Qed.

Lemma rstrip_last s c : last (rstrip s) = Some c -> isspace c = false.
Proof.
  revert c. induction s as [|a s IH]; simpl; [done|]. intros c.
  destruct (rstrip s) as [|r rs] eqn:Er.
  - destruct (isspace a) eqn:E; [done|]. simpl. by intros [= <-].
  - rewrite last_cons. destruct (last (r :: rs)) eqn:El.
    + intros [= <-]. by apply IH.
    + exfalso. by rewrite last_None in El.
Qed.

Lemma rstrip_head s c : head s = Some c -> isspace c = false -> head (rstrip s) = Some c.
Proof.
  destruct s as [|a s]; simpl; [done|]. intros [= ->] E.
  destruct (rstrip s); [by rewrite E|done].
Qed.

Lemma spaced_app_l s t : spaced (s ++ t) -> spaced s.
Proof.
  induction s as [|c s IH]; simpl; [done|]. intros [H1 H2]. split; [|auto].
  intros E. destruct (H1 E) as [-> H]. split; [done|]. intros d Hd. apply H.
  destruct s; simpl in *; [done|done].
Qed.

Lemma spaced_app_r s t : spaced (s ++ t) -> spaced t.
Proof. induction s as [|c s IH]; simpl; [done|]. intros [_ H2]. auto. Qed.

Lemma collapse_go_spaced b s :
  spaced (collapse_go b s) /\
  (b = true -> forall d, head (collapse_go b s) = Some d -> isspace d = false).
Proof.
  revert b. induction s as [|c s IH]; intros b; simpl; [done|].
  destruct (isspace c) eqn:E.
  - destruct (IH true) as [H1 H2]. destruct b.
    + split; [done|]. intros _. by apply H2.
    + split; [|done]. simpl. split; [|done]. intros _. split; [done|]. by apply H2.
  - destruct (IH false) as [H1 H2]. split.
    + simpl. split; [|done]. intros E'. congruence.
    + intros _ d [= <-]. done.
Qed.

Lemma spaced_lookup s i c d :
  spaced s -> s !! i = Some c -> s !! S i = Some d -> isspace c = true -> isspace d = false.
Proof.
  revert i. induction s as [|a s IH]; intros i; [done|]. simpl. intros [H1 H2].
  destruct i as [|i]; simpl.
  - intros [= ->] Hd E. destruct (H1 E) as [_ H]. apply H. by destruct s; simplify_eq/=.
  - apply IH. done.
Qed.

Lemma spaced_elem s c : spaced s -> c ∈ s -> isspace c = true -> c = " "%char.
Proof.
  induction s as [|a s IH]; simpl; [by intros _ ?%elem_of_nil|].
  intros [H1 H2] [->|?]%elem_of_cons E; [by apply H1|auto].
Qed.

Lemma untitled_ok :
  Forall (fun c => illegal c = false /\ isspace c = false) (lit "untitled").
Proof. repeat constructor. Qed.

Lemma strip_illegal_ok s : Forall (fun c => illegal c = false) (strip_illegal s).
Proof.
  unfold strip_illegal. induction s as [|c s IH]; simpl; [done|].
  destruct (illegal c) eqn:E; simpl; [done|by constructor].
Qed.

Lemma collapse_go_elem b s c : c ∈ collapse_go b s -> c ∈ s \/ c = " "%char.
Proof.
  revert b. induction s as [|a s IH]; intros b; simpl; [by intros ?%elem_of_nil|].
  destruct (isspace a).
  - destruct b.
    + intros [?| ->]%IH; [left; by right|by right].
    + intros [->|[?| ->]%IH]%elem_of_cons; [by right|left; by right|by right].
  - intros [->|[?| ->]%IH]%elem_of_cons; [left; by left|left; by right|by right].
Qed.

Lemma head_app_nonnil {A} (s t : list A) : s <> [] -> head (s ++ t) = head s.
Proof. by destruct s. Qed.

Lemma rstrip_tidy s :
  Forall (fun c => illegal c = false) s -> spaced s ->
  (forall c, head s = Some c -> isspace c = false) -> tidy (rstrip s).
Proof.
  intros Hi Hs Hh. destruct (rstrip_prefix s) as (t & Ht & _).
  rewrite Ht in Hi, Hs, Hh. repeat split.
  - by apply Forall_app in Hi as [? _].
  - by apply spaced_app_l in Hs.
  - intros c Hc. apply Hh. rewrite head_app_nonnil; [done|]. by destruct (rstrip s).
  - apply rstrip_last.
Qed.

Lemma sanitized_tidy title : tidy (strip (collapse_ws (strip_illegal title))).
Proof.
  unfold strip. set (x := collapse_ws (strip_illegal title)).
  assert (Hx : Forall (fun c => illegal c = false) x).
  { apply Forall_forall. intros c [Hc| ->]%collapse_go_elem; [|done].
    by eapply Forall_forall in Hc; [|apply strip_illegal_ok]. }
  assert (Sx : spaced x) by apply (collapse_go_spaced false).
  destruct (lstrip_suffix x) as (t & Ht & _). rewrite Ht in Hx, Sx.
  apply rstrip_tidy.
  - by apply Forall_app in Hx as [_ ?].
  - by apply spaced_app_r in Sx.
  - apply lstrip_head.
Qed.

Lemma untitled_tidy : tidy (lit "untitled").
Proof.
  unfold tidy. split; [repeat constructor|]. split.
  - cbn. intuition discriminate.
  - split; intros c [= <-]; done.
Qed.

Lemma rstrip_length s : length (rstrip s) <= length s.
Proof.
  induction s as [|c s IH]; simpl; [done|].
  destruct (rstrip s); [destruct (isspace c)|]; simpl in *; lia.
Qed.

Lemma clean_title_tidy title :
  tidy (clean_title title) /\ 0 < length (clean_title title) <= 150.
Proof.
  unfold clean_title.
  set (a := strip (collapse_ws (strip_illegal title))).
  set (b := match a with [] => lit "untitled" | _ => a end).
  assert (Hb : tidy b /\ b <> []).
  { subst b. pose proof (sanitized_tidy title) as Ha. fold a in Ha.
    destruct a; [split; [apply untitled_tidy|done]|done]. }
  destruct Hb as [(Hi & Hs & Hh & Hl) Hne].
  destruct (150 <? length b) eqn:E.
  - apply Nat.ltb_lt in E.
    assert (Ht : exists t, b = take 150 b ++ t) by (exists (drop 150 b); by rewrite take_drop).
    destruct Ht as (t & Ht).
    assert (Hhd : head (take 150 b) = head b) by (by destruct b).
    assert (T : tidy (rstrip (take 150 b))).
    { apply rstrip_tidy.
      - rewrite Ht in Hi. by apply Forall_app in Hi as [? _].
      - rewrite Ht in Hs. by apply spaced_app_l in Hs.
      - intros c. rewrite Hhd. apply Hh. }
    split; [done|]. split.
    + destruct b as [|c b]; [done|]. 
      assert (head (rstrip (take 150 (c :: b))) = Some c) as Hc.
      { apply rstrip_head; [done|]. by apply Hh. }
      destruct (rstrip (take 150 (c :: b))); [done|simpl; lia].
    + etrans; [apply rstrip_length|]. rewrite length_take. lia.
  - apply Nat.ltb_ge in E. split; [done|]. split; [|done].
    destruct b; [done|simpl; lia].
Qed.

(** C6: for every title, [title_to_filename] returns a stem followed by
    [.txt]; the stem holds none of the nine forbidden characters, every
    whitespace character of it is a single space that is followed by a
    character which is not whitespace, it neither starts nor ends with
    whitespace, it has between 1 and 150 characters, and it is [untitled]
    when the title sanitizes to nothing (the empty title included). *)
Theorem title_to_filename_safe (title : list ascii) :
  exists stem,
    title_to_filename title = stem ++ lit ".txt"
    /\ (forall c, c ∈ stem -> illegal c = false)
    /\ (forall c, c ∈ stem -> isspace c = true -> c = " "%char)
    /\ (forall i c d, stem !! i = Some c -> stem !! S i = Some d ->
                      isspace c = true -> isspace d = false)
    /\ (forall c, head stem = Some c -> isspace c = false)
    /\ (forall c, last stem = Some c -> isspace c = false)
    /\ 0 < length stem <= 150
    /\ (strip (collapse_ws (strip_illegal title)) = [] -> stem = lit "untitled").
Proof.
  assert (G : forall s, tidy s -> 0 < length s <= 150 ->
     (forall c, c ∈ s -> illegal c = false)
    /\ (forall c, c ∈ s -> isspace c = true -> c = " "%char)
    /\ (forall i c d, s !! i = Some c -> s !! S i = Some d ->
                      isspace c = true -> isspace d = false)
    /\ (forall c, head s = Some c -> isspace c = false)
    /\ (forall c, last s = Some c -> isspace c = false)
    /\ 0 < length s <= 150).
  { intros s (Hi & Hs & Hh & Hl) Hlen. repeat split; try done; try lia.
    - intros c Hc. by eapply Forall_forall in Hi.
    - intros c. by apply spaced_elem.
    - intros i c d. by apply spaced_lookup. }
  destruct title as [|a title].
  - exists (lit "untitled"). split; [done|].
    destruct (G (lit "untitled") untitled_tidy) as (?&?&?&?&?&?); [cbn; lia|]. done.
  - exists (clean_title (a :: title)). split; [done|].
    destruct (clean_title_tidy (a :: title)) as [T L].
    destruct (G _ T L) as (?&?&?&?&?&?). repeat split; try done; try lia.
    unfold clean_title. intros ->. done.
Qed.

End Sanitizer.

(* ===================================================================== *)
(** * Facts: the date parser *)
(* ===================================================================== *)

Module DateParser.
Import Str Py World Base Spec.

(** ** Digits *)

Lemma digit_char_cases n :
  digit_char n ∈ ["0"; "1"; "2"; "3"; "4"; "5"; "6"; "7"; "8"; "9"]%char.
Proof.
  unfold digit_char.
  assert (H : (0 <= n mod 10 < 10)%Z) by (apply Z.mod_pos_bound; lia).
  destruct (Z.to_nat (n mod 10)) as [|[|[|[|[|[|[|[|[|[|k]]]]]]]]]] eqn:E;
    try (cbn; repeat constructor). lia.
Qed.

Lemma digit_char_isdigit n : isdigit (digit_char n) = true.
Proof.
  pose proof (digit_char_cases n) as H.
  repeat (apply elem_of_cons in H as [-> | H]; [reflexivity|]).
  by apply elem_of_nil in H.
Qed.

Lemma digit_char_val n : digit_val (digit_char n) = (n mod 10)%Z.
Proof.
  unfold digit_char, digit_val, code.
  assert (H : (0 <= n mod 10 < 10)%Z) by (apply Z.mod_pos_bound; lia).
  rewrite nat_ascii_embedding by lia. lia.
Qed.

Lemma isdigit_not_space c : isdigit c = true -> isspace c = false.
Proof.
  unfold isdigit, isspace. intros H.
  apply andb_true_iff in H as [H1 H2].
  apply Nat.leb_le in H1, H2.
  repeat match goal with
  | |- context [?a <=? ?b] => destruct (Nat.leb_spec a b); try lia
  | |- context [?a =? ?b] => destruct (Nat.eqb_spec a b); try lia
  end; reflexivity.
Qed.

Lemma isdigit_cases c :
  isdigit c = true ->
  c ∈ ["0"; "1"; "2"; "3"; "4"; "5"; "6"; "7"; "8"; "9"]%char.
Proof.
  intros H. unfold isdigit in H. apply andb_true_iff in H as [H1 H2].
  apply Nat.leb_le in H1, H2.
  rewrite <- (ascii_nat_embedding c). unfold code in *.
  destruct (nat_of_ascii c) as [|n]; [lia|].
  do 47 (destruct n as [|n]; [lia|]).
  do 10 (destruct n as [|n]; [cbn; repeat constructor|]). lia.
Qed.


(** ** Evaluation on the canonical spellings *)

Lemma replace_none c old new s :
  Forall (fun x => Ascii.eqb c x = false) s -> replace_go (c :: old) new 0 s = s.
Proof.
  induction 1 as [|x s Hx _ IH]; [reflexivity|].
  simpl. rewrite Hx. simpl. by rewrite IH.
Qed.


Lemma bind_eval {A B} (p : Re.parser A) (k : A -> Re.parser B) s l :
  p s = l -> Re.bind p k s = flat_map (fun ar => k (fst ar) (snd ar)) l.
Proof. by intros <-. Qed.

Lemma format_regex_stages names :
  format_regex names =
  Re.bind (seq_to_re names) (fun mon =>
    day_stage (fun d => year_stage (fun y => Re.ret (mon, d, y)))).
Proof. reflexivity. Qed.

Lemma year_stage_eval {B} (k : list ascii -> Re.parser B) c1 c2 c3 c4 :
  isdigit c1 = true -> isdigit c2 = true -> isdigit c3 = true -> isdigit c4 = true ->
  year_stage k (SP :: [c1; c2; c3; c4]) = k [c1; c2; c3; c4] [].
Proof.
  intros D1 D2 D3 D4. pose proof (isdigit_not_space _ D1) as S1.
  unfold year_stage.
  rewrite (bind_eval _ _ _ [([SP], [c1; c2; c3; c4])]).
  2:{ simpl. rewrite S1. reflexivity. }
  simpl. rewrite app_nil_r.
  rewrite (bind_eval _ _ _ [([c1; c2; c3; c4], [])]).
  2:{ unfold re_year, Re.cat, Re.digit, Re.bind, Re.char, Re.ret. simpl.
      rewrite D1. simpl. rewrite D2. simpl. rewrite D3. simpl. rewrite D4.
      reflexivity. }
  simpl. apply app_nil_r.
Qed.

Lemma day_stage_no_space {B} (k : list ascii -> Re.parser B) c r :
  isspace c = false -> day_stage k (c :: r) = [].
Proof. intros H. unfold day_stage, Re.bind. simpl. by rewrite H. Qed.

(** the texts of the days 1 to 31 *)
Lemma day_in_range d : (1 <= d <= 31)%Z ->
  d ∈ (Z.of_nat <$> seq 1 31).
Proof.
  intros H. apply list_elem_of_fmap. exists (Z.to_nat d). split; [lia|].
  apply elem_of_seq. lia.
Qed.

Ltac run_re :=
  repeat (erewrite bind_eval by (vm_compute; reflexivity);
          cbn [flat_map fst snd app]);
  rewrite ?app_nil_r.

Lemma day_stage_eval {B} (k : list ascii -> Re.parser B) d daytxt rest :
  (1 <= d <= 31)%Z -> daytxt ∈ day_spellings d ->
  day_stage k (SP :: daytxt ++ COMMA :: rest) = k daytxt rest
  /\ py_int daytxt = Some d
  /\ Forall (fun x => Ascii.eqb "S" x = false) daytxt.
Proof.
  intros Hd%day_in_range Ht. vm_compute in Hd.
  repeat (apply elem_of_cons in Hd as [-> | Hd];
    [ vm_compute in Ht;
      repeat (apply elem_of_cons in Ht as [-> | Ht];
        [ split; [|split; [reflexivity|repeat constructor]];
          unfold day_stage; run_re; reflexivity |]);
      by apply elem_of_nil in Ht |]).
  by apply elem_of_nil in Hd.
Qed.


(** ** [int] on a run of digits *)

Lemma digits_go_digits acc b s :
  Forall (fun c => isdigit c = true) s -> s <> [] \/ b = true ->
  digits_go acc b s = Some (digits_value acc s).
Proof.
  intros H. revert acc b. induction H as [|c s Hc _ IH]; intros acc b Hb.
  - destruct Hb as [?| ->]; [done|reflexivity].
  - simpl. rewrite Hc. apply IH. by right.
Qed.

Lemma lstrip_id s : (forall c, head s = Some c -> isspace c = false) -> lstrip s = s.
Proof. destruct s as [|c s]; [done|]. intros H. simpl. by rewrite (H c). Qed.

Lemma rstrip_id s : (forall c, last s = Some c -> isspace c = false) -> rstrip s = s.
Proof.
  induction s as [|c s IH]; [done|]. intros H. simpl.
  destruct s as [|d s].
  - simpl. by rewrite (H c).
  - rewrite IH; [done|]. intros x Hx. apply H. by rewrite last_cons, Hx.
Qed.

Lemma strip_no_space s :
  Forall (fun c => isspace c = false) s -> strip s = s.
Proof.
  intros H. unfold strip. rewrite lstrip_id.
  - apply rstrip_id. intros c Hc. apply last_Some_elem_of in Hc.
    by eapply Forall_forall in H.
  - intros c Hc. destruct s; simplify_eq/=. by apply Forall_cons in H as [? _].
Qed.

Lemma py_int_digits s :
  s <> [] -> Forall (fun c => isdigit c = true) s ->
  py_int s = Some (digits_value 0 s).
Proof.
  intros Hne H. unfold py_int. rewrite strip_no_space.
  2:{ eapply Forall_impl; [exact H|]. apply isdigit_not_space. }
  destruct s as [|c r]; [done|].
  assert (Hc : isdigit c = true) by (by apply Forall_cons in H as [? _]).
  apply isdigit_cases in Hc.
  assert (E : Ascii.eqb c "+" = false /\ Ascii.eqb c "-" = false).
  { repeat (apply elem_of_cons in Hc as [-> | Hc]; [by split|]).
    by apply elem_of_nil in Hc. }
  destruct E as [-> ->]. apply digits_go_digits; [done|by left].
Qed.

Lemma year4_digits y : Forall (fun c => isdigit c = true) (year4 y).
Proof. repeat constructor; apply digit_char_isdigit. Qed.

Lemma py_int_year4 y : (0 <= y <= 9999)%Z -> py_int (year4 y) = Some y.
Proof.
  intros Hy. rewrite py_int_digits; [|done|apply year4_digits].
  f_equal. unfold digits_value, year4. simpl. rewrite !digit_char_val.
  Z.div_mod_to_equations. lia.
Qed.

(** ** The month *)

Lemma month_in_range m : (1 <= m <= 12)%Z -> m ∈ (Z.of_nat <$> seq 1 12).
Proof.
  intros H. apply list_elem_of_fmap. exists (Z.to_nat m). split; [lia|].
  apply elem_of_seq. lia.
Qed.

Ltac each_month Hm :=
  apply month_in_range in Hm; vm_compute in Hm;
  repeat (apply elem_of_cons in Hm as [-> | Hm]; [|]);
  [..| by apply elem_of_nil in Hm].

(** An abbreviation is matched by the first format. *)
Lemma abbreviated_stage {B} (k : list ascii -> Re.parser B) m name rest :
  (1 <= m <= 12)%Z -> abbreviated !! (Z.to_nat m - 1) = Some name ->
  Re.bind (seq_to_re a_month) k (name ++ SP :: rest) = k name (SP :: rest)
  /\ index_of (lower name) a_month = Some (Z.to_nat m - 1).
Proof.
  intros Hm Hn. each_month Hm; vm_compute in Hn; injection Hn as <-;
    (split; [run_re; reflexivity | reflexivity]).
Qed.

(** A name in full is matched by the second format. *)
Lemma in_full_stage {B} (k : list ascii -> Re.parser B) m name rest :
  (1 <= m <= 12)%Z -> in_full !! (Z.to_nat m - 1) = Some name ->
  Re.bind (seq_to_re f_month) k (name ++ SP :: rest) = k name (SP :: rest)
  /\ index_of (lower name) f_month = Some (Z.to_nat m - 1).
Proof.
  intros Hm Hn. each_month Hm; vm_compute in Hn; injection Hn as <-;
    (split; [run_re; reflexivity | reflexivity]).
Qed.

(** A name in full is refused by the first format, May apart, which is
    its own abbreviation. *)
Lemma in_full_not_abbreviated {B} (k : list ascii -> list ascii -> Re.parser B)
  m name rest :
  (1 <= m <= 12)%Z -> m <> 5%Z -> in_full !! (Z.to_nat m - 1) = Some name ->
  Re.bind (seq_to_re a_month) (fun mon => day_stage (k mon)) (name ++ SP :: rest) = [].
Proof.
  intros Hm H5 Hn. each_month Hm; try done; vm_compute in Hn; injection Hn as <-;
    run_re; by rewrite day_stage_no_space.
Qed.


(** ** The strings of the format are parsed *)

Lemma valid_ymd_bounds y m d :
  valid_ymd y m d = true ->
  (1 <= y <= 9999)%Z /\ (1 <= m <= 12)%Z /\ (1 <= d <= 31)%Z.
Proof.
  unfold valid_ymd. rewrite !andb_true_iff, !Z.leb_le.
  intros [[[[[? ?] ?] ?] ?] Hd].
  assert (days_in_month y m <= 31)%Z.
  { unfold days_in_month. repeat case_match; lia. }
  lia.
Qed.

Lemma date_new_valid y m d :
  valid_ymd y m d = true -> date_new y m d = Ok (Date y m d).
Proof.
  intros H. pose proof (valid_ymd_bounds _ _ _ H) as (Hy & Hm & Hd).
  unfold date_new. rewrite H.
  assert (fits_c_int y && fits_c_int m && fits_c_int d = true) as ->; [|done].
  unfold fits_c_int. rewrite !andb_true_iff, !Z.leb_le. lia.
Qed.

Lemma digit_not_S c : isdigit c = true -> Ascii.eqb "S" c = false.
Proof.
  intros H%isdigit_cases.
  repeat (apply elem_of_cons in H as [-> | H]; [done|]).
  by apply elem_of_nil in H.
Qed.

(** [fix_sept] turns Sept and SEPT into Sep and leaves the rest alone. *)
Lemma fix_sept_spelling m name rest :
  (1 <= m <= 12)%Z -> name ∈ month_spellings m ->
  Forall (fun x => Ascii.eqb "S" x = false) rest ->
  fix_sept (name ++ SP :: rest) = normalized name ++ SP :: rest
  /\ (abbreviated !! (Z.to_nat m - 1) = Some (normalized name)
      \/ in_full !! (Z.to_nat m - 1) = Some (normalized name)).
Proof.
  intros Hm Hn Hrest.
  each_month Hm; vm_compute in Hn;
    repeat (apply elem_of_cons in Hn as [-> | Hn];
      [ split;
        [ unfold fix_sept, replace; simpl;
          rewrite (replace_none _ _ _ rest) by assumption; simpl;
          rewrite ?(replace_none _ _ _ rest) by assumption; reflexivity
        | first [ left; reflexivity | right; reflexivity ] ] |]);
    by apply elem_of_nil in Hn.
Qed.

Lemma strptime_eval names k_index name daytxt y m d :
  valid_ymd y m d = true ->
  daytxt ∈ day_spellings d ->
  (forall B (k : list ascii -> Re.parser B) rest,
      Re.bind (seq_to_re names) k (name ++ SP :: rest) = k name (SP :: rest)) ->
  index_of (lower name) names = Some k_index ->
  Z.of_nat (S k_index) = m ->
  strptime names (name ++ SP :: daytxt ++ COMMA :: SP :: year4 y) = Ok (Date y m d).
Proof.
  intros Hv Hday Hmon Hidx Hk.
  pose proof (valid_ymd_bounds _ _ _ Hv) as (Hy & Hm & Hd).
  unfold strptime. rewrite format_regex_stages, Hmon.
  destruct (day_stage_eval
              (fun d0 => year_stage (fun y0 => Re.ret (name, d0, y0)))
              d daytxt (SP :: year4 y) Hd Hday) as (-> & Hint & _).
  unfold year4 at 1. rewrite year_stage_eval by apply digit_char_isdigit.
  unfold Re.ret. fold (year4 y).
  rewrite Hidx, Hint, py_int_year4 by lia. rewrite Hk.
  by apply date_new_valid.
Qed.

Lemma parse_canonical y m d name daytxt :
  valid_ymd y m d = true ->
  name ∈ month_spellings m -> daytxt ∈ day_spellings d ->
  parse_us_date_string (us_date_string name daytxt y) = Ok (Some (Date y m d)).
Proof.
  intros Hv Hn Hday.
  pose proof (valid_ymd_bounds _ _ _ Hv) as (Hy & Hm & Hd).
  assert (Hrest : Forall (fun x => Ascii.eqb "S" x = false)
                         (daytxt ++ COMMA :: SP :: year4 y)).
  { apply Forall_app. split.
    - by destruct (day_stage_eval (fun _ : list ascii => @Re.ret unit tt)
                     d daytxt [] Hd Hday) as (_ & _ & ?).
    - repeat constructor; apply digit_not_S, digit_char_isdigit. }
  destruct (fix_sept_spelling m name _ Hm Hn Hrest) as (Hfix & Hname).
  set (name' := normalized name) in *. clearbody name'.
  unfold parse_us_date_string.
  change (us_date_string name daytxt y)
    with (name ++ SP :: daytxt ++ COMMA :: SP :: year4 y).
  rewrite Hfix. simpl try_formats.
  assert (Hm' : Z.of_nat (S (Z.to_nat m - 1)) = m) by lia.
  assert (Habbr : forall a, abbreviated !! (Z.to_nat m - 1) = Some a ->
     strptime a_month (a ++ SP :: daytxt ++ COMMA :: SP :: year4 y) = Ok (Date y m d)).
  { intros a Ha. eapply strptime_eval; try done.
    - intros B k rest. by apply (abbreviated_stage k m a rest Hm Ha).
    - by apply (abbreviated_stage (fun _ : list ascii => @Re.ret unit tt) m a [] Hm Ha). }
  destruct Hname as [Ha | Hf].
  - by rewrite (Habbr _ Ha).
  - destruct (decide (m = 5%Z)) as [-> | H5].
    + vm_compute in Hf. injection Hf as <-. erewrite Habbr; [done|reflexivity].
    + unfold strptime at 1. rewrite format_regex_stages.
      rewrite (in_full_not_abbreviated _ m name' _ Hm H5 Hf).
      simpl.
      erewrite strptime_eval; try done.
      * intros B k rest. by apply (in_full_stage k m name' rest Hm Hf).
      * by apply (in_full_stage (fun _ : list ascii => @Re.ret unit tt) m name' [] Hm Hf).
Qed.


(** ** What a match of the expression looks like *)

Lemma in_bind {A B} (p : Re.parser A) (k : A -> Re.parser B) s b r :
  In (b, r) (Re.bind p k s) <->
  exists a r', In (a, r') (p s) /\ In (b, r) (k a r').
Proof.
  unfold Re.bind. rewrite in_flat_map. split.
  - intros ([a r'] & ? & ?). eauto.
  - intros (a & r' & ? & ?). by exists (a, r').
Qed.

Lemma in_ret {A} (a b : A) s r : In (b, r) (Re.ret a s) <-> b = a /\ r = s.
Proof. unfold Re.ret. simpl. split; [intros [[= <- <-]|[]]; done|intros [-> ->]; by left]. Qed.

Lemma in_alt {A} (p q : Re.parser A) s x :
  In x (Re.alt p q s) <-> In x (p s) \/ In x (q s).
Proof. unfold Re.alt. apply in_app_iff. Qed.

Lemma in_char f s c r : In (c, r) (Re.char f s) <-> s = c :: r /\ f c = true.
Proof.
  unfold Re.char. destruct s as [|x s]; simpl.
  - split; [done|by intros [? _]].
  - destruct (f x) eqn:E; simpl.
    + split; [intros [[= <- <-]|[]]; done|intros [[= -> ->] _]; by left].
    + split; [done|]. intros [[= -> ->] ?]. congruence.
Qed.

Lemma in_cat (p q : Re.parser (list ascii)) s m r :
  In (m, r) (Re.cat p q s) <->
  exists a b r', In (a, r') (p s) /\ In (b, r) (q r') /\ m = a ++ b.
Proof.
  unfold Re.cat. rewrite in_bind. split.
  - intros (a & r' & Ha & Hb). apply in_bind in Hb as (b & r'' & Hb & Hr).
    apply in_ret in Hr as [-> ->]. eauto 10.
  - intros (a & b & r' & Ha & Hb & ->). exists a, r'. split; [done|].
    apply in_bind. exists b, r. split; [done|]. by apply in_ret.
Qed.

Lemma in_literal eq pat s m r :
  In (m, r) (Re.literal eq pat s) ->
  s = m ++ r /\ Forall2 (fun a c => eq a c = true) pat m.
Proof.
  revert s m r. induction pat as [|a pat IH]; intros s m r; simpl.
  - intros [-> ->]%in_ret. by split.
  - intros (c & r' & [-> Hc]%in_char & H)%in_bind.
    apply in_bind in H as (cs & r'' & Hcs & [-> ->]%in_ret).
    apply IH in Hcs as [-> Hcs]. split; [done|by constructor].
Qed.

Lemma in_ws_plus s w r :
  In (w, r) (Re.ws_plus s) ->
  s = w ++ r /\ w <> [] /\ Forall (fun c => isspace c = true) w.
Proof.
  revert w. induction s as [|c s IH]; intros w; simpl; [done|].
  destruct (isspace c) eqn:E; [|done].
  rewrite in_app_iff, in_map_iff. intros [([w' r'] & [= <- <-] & H)|[[= <- <-]|[]]].
  - apply IH in H as (-> & _ & Hw). split; [done|]. split; [done|by constructor].
  - split; [done|]. split; [done|by repeat constructor].
Qed.

Lemma in_digit s m r :
  In (m, r) (Re.digit s) -> exists c, m = [c] /\ s = c :: r /\ isdigit c = true.
Proof.
  unfold Re.digit. intros (c & r' & [-> Hc]%in_char & [-> ->]%in_ret)%in_bind. eauto.
Qed.

Lemma in_in_range lo hi s m r :
  In (m, r) (Re.in_range lo hi s) ->
  exists c, m = [c] /\ s = c :: r /\ code lo <= code c <= code hi.
Proof.
  unfold Re.in_range. intros (c & r' & [-> Hc]%in_char & [-> ->]%in_ret)%in_bind.
  apply andb_true_iff in Hc as [?%Nat.leb_le ?%Nat.leb_le]. eauto.
Qed.

Lemma in_exact pat s m r : In (m, r) (Re.exact pat s) -> m = pat /\ s = pat ++ r.
Proof.
  intros [-> H]%in_literal.
  assert (m = pat) as ->; [|done].
  clear -H. induction H as [|a c pat m Hac _ IH]; [done|].
  apply Ascii.eqb_eq in Hac. by subst.
Qed.

Lemma in_nocase pat s m r :
  In (m, r) (Re.nocase pat s) -> s = m ++ r /\ lower m = pat.
Proof.
  intros [-> H]%in_literal. split; [done|].
  induction H as [|a c pat m Hac _ IH]; [done|].
  apply Ascii.eqb_eq in Hac. simpl. by subst.
Qed.

Lemma in_first_of {A} (ps : list (Re.parser A)) s x :
  In x (Re.first_of ps s) -> exists p, In p ps /\ In x (p s).
Proof.
  induction ps as [|p ps IH]; simpl; [done|].
  intros [H|H]%in_alt; [eauto|]. destruct (IH H) as (q & ? & ?). eauto.
Qed.

Lemma in_insert_by_length x y l : In y (insert_by_length x l) -> y = x \/ In y l.
Proof.
  induction l as [|z l IH]; simpl.
  - intros [<-|[]]. by left.
  - destruct (length x <? length z); simpl.
    + intros [<-|H]; [right; by left|]. destruct (IH H); [by left|right; by right].
    + intros [<-|[<-|H]]; [by left|right; by left|right; by right].
Qed.

Lemma in_longest_first names y : In y (longest_first names) -> In y names.
Proof.
  induction names as [|x names IH]; simpl; [done|].
  intros [->|?]%in_insert_by_length; auto.
Qed.

Lemma in_seq_to_re names s mon r :
  In (mon, r) (seq_to_re names s) -> s = mon ++ r /\ In (lower mon) names.
Proof.
  unfold seq_to_re. intros (p & Hp & H)%in_first_of.
  apply in_map_iff in Hp as (pat & <- & Hpat).
  apply in_nocase in H as [-> <-]. split; [done|]. by apply in_longest_first.
Qed.

Lemma digit_val_bound c : isdigit c = true -> (0 <= digit_val c <= 9)%Z.
Proof.
  unfold isdigit, digit_val. intros [?%Nat.leb_le ?%Nat.leb_le]%andb_true_iff. lia.
Qed.

Lemma in_re_year s y r :
  In (y, r) (re_year s) ->
  s = y ++ r /\ length y = 4 /\ Forall (fun c => isdigit c = true) y
  /\ exists v, py_int y = Some v /\ (0 <= v <= 9999)%Z.
Proof.
  unfold re_year. intros (a & b & r1 & Ha & H & ->)%in_cat.
  apply in_cat in H as (b1 & b2 & r2 & Hb & H & ->).
  apply in_cat in H as (c1 & c2 & r3 & Hc & Hd & ->).
  apply in_digit in Ha as (x1 & -> & -> & D1).
  apply in_digit in Hb as (x2 & -> & -> & D2).
  apply in_digit in Hc as (x3 & -> & -> & D3).
  apply in_digit in Hd as (x4 & -> & -> & D4).
  split; [done|]. split; [done|]. split; [by repeat constructor|].
  eexists. split; [apply py_int_digits; [done|by repeat constructor]|].
  unfold digits_value. simpl.
  apply digit_val_bound in D1, D2, D3, D4. lia.
Qed.

Lemma range_is_digit c lo hi :
  48 <= code lo -> code hi <= 57 -> code lo <= code c <= code hi -> isdigit c = true.
Proof.
  intros. unfold isdigit. apply andb_true_iff. split; apply Nat.leb_le; lia.
Qed.

Ltac solve_int :=
  lazymatch goal with
  | |- exists v, py_int ?s = Some v /\ _ =>
      let r := eval vm_compute in (py_int s) in
      lazymatch r with
      | Some ?z => exists z; split; [vm_compute; reflexivity | lia]
      end
  end.

Lemma in_re_day s d r :
  In (d, r) (re_day s) ->
  s = d ++ r /\ length d <= 2 /\ exists v, py_int d = Some v /\ (1 <= v <= 31)%Z.
Proof.
  unfold re_day. intros (p & Hp & H)%in_first_of. simpl in Hp.
  destruct Hp as [<-|[<-|[<-|[<-|[<-|[]]]]]].
  - apply in_cat in H as (a & b & r1 & [-> ->]%in_exact & Hb & ->).
    apply in_in_range in Hb as (c & -> & -> & Hc).
    split; [done|]. split; [simpl; lia|].
    pose proof (range_is_digit c "0" "1" ltac:(vm_compute; lia) ltac:(vm_compute; lia) Hc) as D%isdigit_cases.
    repeat (apply elem_of_cons in D as [-> | D];
            [first [by (vm_compute in Hc; lia) | by solve_int]|]).
    by apply elem_of_nil in D.
  - apply in_cat in H as (a & b & r1 & Ha & Hb & ->).
    apply in_in_range in Ha as (c & -> & -> & Hc).
    apply in_digit in Hb as (c' & -> & -> & D').
    split; [done|]. split; [simpl; lia|].
    pose proof (range_is_digit c "1" "2" ltac:(vm_compute; lia) ltac:(vm_compute; lia) Hc) as D%isdigit_cases.
    apply isdigit_cases in D'.
    repeat (apply elem_of_cons in D as [-> | D];
      [ first [ by (vm_compute in Hc; lia)
              | repeat (apply elem_of_cons in D' as [-> | D'];
                        [by solve_int|]);
                by apply elem_of_nil in D' ] |]).
    by apply elem_of_nil in D.
  - apply in_cat in H as (a & b & r1 & [-> ->]%in_exact & Hb & ->).
    apply in_in_range in Hb as (c & -> & -> & Hc).
    split; [done|]. split; [simpl; lia|].
    pose proof (range_is_digit c "1" "9" ltac:(vm_compute; lia) ltac:(vm_compute; lia) Hc) as D%isdigit_cases.
    repeat (apply elem_of_cons in D as [-> | D];
            [first [by (vm_compute in Hc; lia) | by solve_int]|]).
    by apply elem_of_nil in D.
  - apply in_in_range in H as (c & -> & -> & Hc).
    split; [done|]. split; [simpl; lia|].
    pose proof (range_is_digit c "1" "9" ltac:(vm_compute; lia) ltac:(vm_compute; lia) Hc) as D%isdigit_cases.
    repeat (apply elem_of_cons in D as [-> | D];
            [first [by (vm_compute in Hc; lia) | by solve_int]|]).
    by apply elem_of_nil in D.
  - apply in_cat in H as (a & b & r1 & [-> ->]%in_exact & Hb & ->).
    apply in_in_range in Hb as (c & -> & -> & Hc).
    split; [done|]. split; [simpl; lia|].
    pose proof (range_is_digit c "1" "9" ltac:(vm_compute; lia) ltac:(vm_compute; lia) Hc) as D%isdigit_cases.
    repeat (apply elem_of_cons in D as [-> | D];
            [first [by (vm_compute in Hc; lia) | by solve_int]|]).
    by apply elem_of_nil in D.
Qed.


Lemma in_format_regex names s mon d y r :
  In ((mon, d, y), r) (format_regex names s) ->
  exists w1 w2,
    s = mon ++ w1 ++ d ++ [COMMA] ++ w2 ++ y ++ r
    /\ In (lower mon) names
    /\ w1 <> [] /\ Forall (fun c => isspace c = true) w1
    /\ w2 <> [] /\ Forall (fun c => isspace c = true) w2
    /\ length d <= 2 /\ (exists v, py_int d = Some v /\ (1 <= v <= 31)%Z)
    /\ length y = 4 /\ Forall (fun c => isdigit c = true) y
    /\ (exists v, py_int y = Some v /\ (0 <= v <= 9999)%Z).
Proof.
  unfold format_regex.
  intros (mon' & r1 & [-> Hmon]%in_seq_to_re & H)%in_bind.
  apply in_bind in H as (w1 & r2 & (-> & Hw1 & Fw1)%in_ws_plus & H).
  apply in_bind in H as (d' & r3 & (-> & Hd & Hdv)%in_re_day & H).
  apply in_bind in H as (c & r4 & [-> ->]%in_exact & H).
  apply in_bind in H as (w2 & r5 & (-> & Hw2 & Fw2)%in_ws_plus & H).
  apply in_bind in H as (y' & r6 & (-> & Hy & Fy & Hyv)%in_re_year & H).
  apply in_ret in H as [[= -> -> ->] ->].
  exists w1, w2. split_and!; try done.
Qed.

Lemma index_of_lookup x names i : index_of x names = Some i -> names !! i = Some x.
Proof.
  revert i. induction names as [|n names IH]; intros i; simpl; [done|].
  case_bool_decide as E.
  - intros [= <-]. by subst.
  - destruct (index_of x names) as [j|]; simpl; [|done].
    intros [= <-]. by apply IH.
Qed.

Lemma date_new_ok y m d dt :
  date_new y m d = Ok dt -> dt = Date y m d /\ valid_ymd y m d = true.
Proof.
  unfold date_new, value_error. repeat case_match; try done. by intros [= <-].
Qed.

Lemma date_new_raise y m d e :
  fits_c_int y = true -> fits_c_int m = true -> fits_c_int d = true ->
  date_new y m d = Raise e -> is_value_error e = true.
Proof.
  intros Hy Hm Hd. unfold date_new, value_error. rewrite Hy, Hm, Hd. simpl.
  case_match; [done|]. by intros [= <-].
Qed.

(** [strptime] returns a date only for a text of the format. *)
Lemma strptime_ok names s dt :
  strptime names s = Ok dt ->
  exists mon w1 d w2 y,
    s = mon ++ w1 ++ d ++ [COMMA] ++ w2 ++ y
    /\ names !! (Z.to_nat (month dt) - 1) = Some (lower mon)
    /\ w1 <> [] /\ Forall (fun c => isspace c = true) w1
    /\ w2 <> [] /\ Forall (fun c => isspace c = true) w2
    /\ length d <= 2 /\ py_int d = Some (day dt)
    /\ length y = 4 /\ Forall (fun c => isdigit c = true) y
    /\ py_int y = Some (year dt)
    /\ valid_date dt = true.
Proof.
  unfold strptime.
  destruct (format_regex names s) as [|[[[mon d] y] rest] l] eqn:E; [done|].
  destruct rest; [|done].
  assert (Hin : In ((mon, d, y), []) (format_regex names s)) by (rewrite E; by left).
  apply in_format_regex in Hin
    as (w1 & w2 & -> & _ & ? & ? & ? & ? & ? & _ & ? & ? & _).
  destruct (index_of (lower mon) names) as [i|] eqn:Hi; [|done].
  destruct (py_int d) as [dv|] eqn:Hdv; [|done].
  destruct (py_int y) as [yv|] eqn:Hyv; [|done].
  intros [-> Hv]%date_new_ok.
  exists mon, w1, d, w2, y. rewrite app_nil_r. simpl.
  replace (Z.to_nat (Z.of_nat (S i)) - 1) with i by lia.
  split_and!; try done. by apply index_of_lookup.
Qed.

(** [strptime] raises nothing but [ValueError]. *)
Lemma strptime_raise names s e :
  length names <= 12 -> strptime names s = Raise e -> is_value_error e = true.
Proof.
  intros Hlen. unfold strptime.
  destruct (format_regex names s) as [|[[[mon d] y] rest] l] eqn:E; [by intros [= <-]|].
  destruct rest; [|by intros [= <-]].
  assert (Hin : In ((mon, d, y), []) (format_regex names s)) by (rewrite E; by left).
  apply in_format_regex in Hin
    as (w1 & w2 & -> & _ & _ & _ & _ & _ & _ & (dv & Hdv & ?) & _ & _ & (yv & Hyv & ?)).
  destruct (index_of (lower mon) names) as [i|] eqn:Hi; [|by intros [= <-]].
  rewrite Hdv, Hyv.
  apply index_of_lookup, lookup_lt_Some in Hi.
  apply date_new_raise; unfold fits_c_int; apply andb_true_iff;
    split; apply Z.leb_le; lia.
Qed.

(** C7: the date parser returns the calendar date of every string
    [<Month> <Day>, <Year>] (the month abbreviated or in full, Sept and
    SEPT included, the day with or without a leading zero, a year of four
    digits) that names a date of the calendar; it returns a date only for
    a text that, once Sept is rewritten, is a month name, whitespace, a
    day, a comma, whitespace and four digits; and on every string it
    returns, a date or [None], without raising. *)
Theorem parse_us_date_string_correct :
  (forall y m d name daytxt,
      valid_ymd y m d = true ->
      name ∈ month_spellings m -> daytxt ∈ day_spellings d ->
      parse_us_date_string (us_date_string name daytxt y) = Ok (Some (Date y m d)))
  /\ (forall s dt,
         parse_us_date_string s = Ok (Some dt) -> accepted_form (fix_sept s) dt)
  /\ (forall s, exists o, parse_us_date_string s = Ok o).
Proof.
  split; [exact parse_canonical|]. split.
  - intros s dt. unfold parse_us_date_string. simpl.
    destruct (strptime a_month (fix_sept s)) as [d1|e1] eqn:E1.
    + intros [= ->]. apply strptime_ok in E1
        as (mon & w1 & d & w2 & y & ? & ? & ? & ? & ? & ? & ? & ? & ? & ? & ? & ?).
      exists mon, w1, d, w2, y. split_and!; try done. by left.
    + destruct (is_value_error e1); [|done].
      destruct (strptime f_month (fix_sept s)) as [d2|e2] eqn:E2.
      * intros [= ->]. apply strptime_ok in E2
          as (mon & w1 & d & w2 & y & ? & ? & ? & ? & ? & ? & ? & ? & ? & ? & ? & ?).
        exists mon, w1, d, w2, y. split_and!; try done. by right.
      * by destruct (is_value_error e2).
  - intros s. unfold parse_us_date_string. simpl.
    destruct (strptime a_month (fix_sept s)) as [d1|e1] eqn:E1; [eauto|].
    rewrite (strptime_raise a_month _ _ ltac:(vm_compute; lia) E1).
    destruct (strptime f_month (fix_sept s)) as [d2|e2] eqn:E2; [eauto|].
    rewrite (strptime_raise f_month _ _ ltac:(vm_compute; lia) E2). eauto.
Qed.

Lemma parse_us_date_string_witness :
  parse_us_date_string (lit "Sept 5, 2025") = Ok (Some (Date 2025 9 5)).
Proof.
  apply (proj1 parse_us_date_string_correct 2025%Z 9%Z 5%Z (lit "Sept") (lit "5")).
  - reflexivity.
  - vm_compute. repeat constructor.
  - vm_compute. repeat constructor.
Defined.

End DateParser.

(* ===================================================================== *)
(** * Facts: the text serializer *)
(* ===================================================================== *)

Module Serializer.
Import Str Py World Base Spec.

Lemma rstrip_app_space s c : isspace c = true -> rstrip (s ++ [c]) = rstrip s.
Proof.
  intros Hc. induction s as [|x s IH]; simpl.
  - by rewrite Hc.
  - by rewrite IH.
Qed.

Lemma join_cons sep p rest :
  rest <> [] -> join sep (p :: rest) = p ++ sep ++ join sep rest.
Proof. by destruct rest. Qed.

Lemma join_app sep l1 l2 :
  l1 <> [] -> l2 <> [] -> join sep (l1 ++ l2) = join sep l1 ++ sep ++ join sep l2.
Proof.
  intros H1 H2. induction l1 as [|p l1 IH]; [done|].
  destruct l1 as [|q l1].
  - simpl. by destruct l2.
  - change ((p :: q :: l1) ++ l2) with (p :: ((q :: l1) ++ l2)).
    rewrite !join_cons by done. rewrite IH by done. by rewrite <- !app_assoc.
Qed.

(** the lines of the body and the paragraphs that are written *)
Lemma paragraph_lines_written ps :
  paragraph_lines ps =
  flat_map (fun q => [q; []])
    (List.filter (fun p => match p with [] => false | _ => true end) (map strip ps)).
Proof.
  unfold paragraph_lines. induction ps as [|p ps IH]; [done|].
  simpl. destruct (strip p); simpl; by rewrite IH.
Qed.

Lemma join_body qs :
  qs <> [] ->
  join [LF] (flat_map (fun q => [q; []]) qs) = join [LF; LF] qs ++ [LF].
Proof.
  induction qs as [|q qs IH]; [done|]. intros _.
  destruct qs as [|q' qs].
  - simpl. by rewrite ?app_nil_r.
  - change (flat_map (fun q => [q; []]) (q :: q' :: qs))
      with ([q; []] ++ flat_map (fun q => [q; []]) (q' :: qs)).
    rewrite join_app; [|done|done]. rewrite IH by done.
    rewrite join_cons by done. simpl. by rewrite <- !app_assoc.
Qed.

Lemma last_join sep qs c :
  Forall (fun q => q <> []) qs ->
  last (join sep qs) = Some c -> exists q, last qs = Some q /\ last q = Some c.
Proof.
  induction 1 as [|q qs Hq Hqs IH]; [done|].
  destruct qs as [|q' qs].
  - simpl. eauto.
  - rewrite join_cons by done. rewrite !last_app.
    destruct (last (join sep (q' :: qs))) as [x|] eqn:E.
    + intros [= <-]. destruct (IH eq_refl) as (q0 & ? & ?).
      exists q0. by rewrite last_cons_cons.
    + exfalso. apply last_None in E.
      apply Forall_cons in Hqs as [Hq' _].
      destruct q'; [done|]. by destruct qs.
Qed.

Lemma written_last_not_space a q c :
  last (written_paragraphs a) = Some q -> last q = Some c -> isspace c = false.
Proof.
  intros Hq Hc. apply last_Some_elem_of in Hq.
  unfold written_paragraphs in Hq. apply list_elem_of_In, filter_In in Hq as [Hq _].
  apply in_map_iff in Hq as (p & <- & _). unfold strip in Hc.
  by apply Sanitizer.rstrip_last in Hc.
Qed.

Lemma written_nonempty a : Forall (fun q => q <> []) (written_paragraphs a).
Proof.
  apply Forall_forall. intros q Hq.
  apply list_elem_of_In, filter_In in Hq as [_ Hq]. by destruct q.
Qed.

(** the layout of a text with at least one paragraph *)
Lemma article_text_separated (a : Article) (site_slug t : list ascii) :
  title_or_untitled a = JStr t ->
  written_paragraphs a <> [] ->
  article_text a site_slug = Ok (separated_layout t site_slug a).
Proof.
  intros Ht Hne. unfold article_text. rewrite Ht. f_equal.
  unfold article_lines, separated_layout. rewrite paragraph_lines_written.
  fold (written_paragraphs a).
  pose proof (written_nonempty a) as F.
  pose proof (written_last_not_space a) as L.
  set (qs := written_paragraphs a) in *. clearbody qs.
  assert (Hbody : flat_map (fun q => [q; []]) qs <> []) by (by destruct qs).
  rewrite !(app_assoc _ _ (flat_map _ qs)).
  rewrite join_app; [|done|done].
  rewrite join_body by done.
  rewrite !app_assoc. rewrite rstrip_app_space by done.
  rewrite DateParser.rstrip_id.
  - do 2 f_equal.
    destruct (date_of a); cbn [app]; rewrite !join_cons by done; cbn [join];
      rewrite <- ?app_assoc; cbn [app]; reflexivity.
  - intros c Hc.
    assert (Hl : last (join [LF; LF] qs) = Some c).
    { rewrite last_app in Hc.
      destruct (last (join [LF; LF] qs)) eqn:El; [done|].
      apply last_None in El. destruct qs as [|q qs]; [done|].
      apply Forall_cons in F as [Fq _].
      destruct q; [done|]. by destruct qs. }
    apply last_join in Hl as (q & Hq & Hqc); [|done].
    by eapply L.
Qed.

(** C3, amended: for every article with a title that is a string and with
    at least one paragraph that is not blank, the text written is the
    title line, a blank line, the Site line, the Published line when the
    article has a date, the URL line, a blank line, then the stripped
    paragraphs that are not blank, separated by one blank line, the last
    one followed by a single line feed. *)
Theorem article_text_layout (a : Article) (site_slug t : list ascii) :
  title_or_untitled a = JStr t ->
  written_paragraphs a <> [] ->
  article_text a site_slug = Ok (separated_layout t site_slug a).
Proof. apply article_text_separated. Qed.

Lemma article_text_layout_witness :
  article_text Scenario.meeting_article (lit "wmur")
  = Ok (separated_layout (lit "Town Meeting Update") (lit "wmur") Scenario.meeting_article).
Proof.
  apply article_text_layout.
  - reflexivity.
  - vm_compute. discriminate.
Defined.

(** The layout of the specification is not what is written: the last
    paragraph is followed by one line feed, not by a blank line. *)
Lemma article_text_no_trailing_blank :
  article_text Scenario.meeting_article (lit "wmur")
  <> Ok (layout (lit "Town Meeting Update") (lit "wmur") Scenario.meeting_article).
Proof. vm_compute. intros [=]. Qed.

End Serializer.

(* ===================================================================== *)
(** * Facts: writing an article and parsing it back *)
(* ===================================================================== *)

Module RoundTrip.
Import Str Py World Base Spec Rewrite.

(** ** Lines *)

Lemma splitlines_nonempty s : s <> [] -> splitlines s <> [].
Proof.
  destruct s as [|c s]; [done|]. intros _. simpl.
  destruct (is_linebreak c); [done|]. by destruct (splitlines s).
Qed.

Lemma splitlines_lf rest : splitlines (LF :: rest) = [] :: splitlines rest.
Proof. simpl. by destruct rest. Qed.

Lemma splitlines_break c s :
  is_linebreak c = true -> Ascii.eqb c CR = false ->
  splitlines (c :: s) = [] :: splitlines s.
Proof. intros H1 H2. simpl. rewrite H1, H2. by destruct s. Qed.

Lemma splitlines_app_lf_aux n : forall s rest,
  length s <= n -> s <> [] ->
  (forall c, last s = Some c -> is_linebreak c = false) ->
  splitlines (s ++ LF :: rest) = splitlines s ++ splitlines rest.
Proof.
  induction n as [|n IH]; intros s rest Hn Hne Hlast.
  { destruct s; [done|simpl in Hn; lia]. }
  destruct s as [|c s]; [done|].
  destruct s as [|d s].
  - assert (Hc : is_linebreak c = false) by (by apply Hlast).
    change ([c] ++ LF :: rest) with (c :: LF :: rest).
    change (splitlines (c :: LF :: rest))
      with (if is_linebreak c then
              [] :: (if Ascii.eqb c CR && Ascii.eqb LF LF
                     then splitlines rest else splitlines (LF :: rest))
            else match splitlines (LF :: rest) with
                 | [] => [[c]]
                 | l :: ls => (c :: l) :: ls
                 end).
    rewrite Hc, splitlines_lf. simpl. by rewrite Hc.
  - assert (Hlast' : forall x, last (d :: s) = Some x -> is_linebreak x = false).
    { intros x Hx. apply Hlast. by rewrite last_cons, Hx. }
    assert (IH1 : splitlines ((d :: s) ++ LF :: rest)
                  = splitlines (d :: s) ++ splitlines rest).
    { apply IH; [simpl in *; lia|done|done]. }
    change ((c :: d :: s) ++ LF :: rest) with (c :: (d :: s) ++ LF :: rest).
    destruct (is_linebreak c) eqn:Hc.
    + change (splitlines (c :: (d :: s) ++ LF :: rest))
        with (if is_linebreak c then
                [] :: (if Ascii.eqb c CR && Ascii.eqb d LF
                       then splitlines (s ++ LF :: rest)
                       else splitlines ((d :: s) ++ LF :: rest))
              else match splitlines ((d :: s) ++ LF :: rest) with
                   | [] => [[c]]
                   | l :: ls => (c :: l) :: ls
                   end).
      change (splitlines (c :: d :: s))
        with (if is_linebreak c then
                [] :: (if Ascii.eqb c CR && Ascii.eqb d LF
                       then splitlines s else splitlines (d :: s))
              else match splitlines (d :: s) with
                   | [] => [[c]]
                   | l :: ls => (c :: l) :: ls
                   end).
      rewrite Hc. destruct (Ascii.eqb c CR && Ascii.eqb d LF) eqn:E.
      * assert (s <> []) as Hs.
        { intros ->. apply andb_true_iff in E as [_ ->%Ascii.eqb_eq].
          by specialize (Hlast' LF eq_refl). }
        rewrite IH; [done|simpl in *; lia|done|].
        intros x Hx. apply Hlast'. rewrite last_cons, Hx. done.
      * by rewrite IH1.
    + change (splitlines (c :: (d :: s) ++ LF :: rest))
        with (if is_linebreak c then
                [] :: (if Ascii.eqb c CR && Ascii.eqb d LF
                       then splitlines (s ++ LF :: rest)
                       else splitlines ((d :: s) ++ LF :: rest))
              else match splitlines ((d :: s) ++ LF :: rest) with
                   | [] => [[c]]
                   | l :: ls => (c :: l) :: ls
                   end).
      change (splitlines (c :: d :: s))
        with (if is_linebreak c then
                [] :: (if Ascii.eqb c CR && Ascii.eqb d LF
                       then splitlines s else splitlines (d :: s))
              else match splitlines (d :: s) with
                   | [] => [[c]]
                   | l :: ls => (c :: l) :: ls
                   end).
      rewrite Hc, IH1.
      pose proof (splitlines_nonempty (d :: s) ltac:(done)).
      by destruct (splitlines (d :: s)).
Qed.

Lemma splitlines_app_lf s rest :
  s <> [] -> (forall c, last s = Some c -> is_linebreak c = false) ->
  splitlines (s ++ LF :: rest) = splitlines s ++ splitlines rest.
Proof. intros. by eapply splitlines_app_lf_aux. Qed.

Lemma splitlines_one_line s :
  s <> [] -> Forall (fun c => is_linebreak c = false) s -> splitlines s = [s].
Proof.
  intros Hne H. induction H as [|c s Hc Hs IH]; [done|].
  simpl. rewrite Hc. destruct s as [|d s]; [done|]. by rewrite IH.
Qed.


(** Reading in text mode does not change the lines. *)
Lemma splitlines_universal_aux n : forall s,
  length s <= n -> splitlines (universal_newlines s) = splitlines s.
Proof.
  induction n as [|n IH]; intros s Hn.
  { destruct s; [done|simpl in Hn; lia]. }
  destruct s as [|c s]; [done|].
  destruct (Ascii.eqb c CR) eqn:Ec.
  - apply Ascii.eqb_eq in Ec as ->.
    destruct s as [|d s]; [done|].
    change (universal_newlines (CR :: d :: s))
      with (LF :: (if Ascii.eqb d LF then universal_newlines s
                   else universal_newlines (d :: s))).
    rewrite splitlines_lf.
    change (splitlines (CR :: d :: s))
      with ([] :: (if Ascii.eqb CR CR && Ascii.eqb d LF
                   then splitlines s else splitlines (d :: s))).
    simpl Ascii.eqb at 2. simpl andb.
    destruct (Ascii.eqb d LF); rewrite IH; simpl in *; try done; lia.
  - assert (E : universal_newlines (c :: s) = c :: universal_newlines s).
    { simpl. by rewrite Ec. }
    rewrite E. destruct (is_linebreak c) eqn:Hc.
    + rewrite !splitlines_break by done. rewrite IH; [done|simpl in *; lia].
    + simpl. rewrite Hc. rewrite IH; [done|simpl in *; lia].
Qed.

Lemma splitlines_universal s : splitlines (universal_newlines s) = splitlines s.
Proof. by eapply splitlines_universal_aux. Qed.

(** ** [rstrip] and [strip] on a text with a known end *)

Lemma rstrip_cons c s :
  isspace c = false \/ rstrip s <> [] -> rstrip (c :: s) = c :: rstrip s.
Proof.
  intros H. simpl. destruct (rstrip s) eqn:E; [|done].
  destruct H as [-> | ?]; done.
Qed.

Lemma rstrip_app_keep a b :
  (forall c, last a = Some c -> isspace c = false) ->
  rstrip (a ++ b) = a ++ rstrip b.
Proof.
  induction a as [|c a IH]; [done|]. intros H.
  destruct a as [|d a].
  - simpl app. apply rstrip_cons. left. by apply H.
  - change ((c :: d :: a) ++ b) with (c :: (d :: a) ++ b).
    rewrite rstrip_cons.
    + rewrite IH; [done|]. intros x Hx. apply H. by rewrite last_cons, Hx.
    + right. rewrite IH.
      * done.
      * intros x Hx. apply H. by rewrite last_cons, Hx.
Qed.

Lemma strip_last s c : last (strip s) = Some c -> isspace c = false.
Proof. apply Sanitizer.rstrip_last. Qed.

Lemma stripped_ends s :
  strip s = s ->
  (forall c, head s = Some c -> isspace c = false)
  /\ (forall c, last s = Some c -> isspace c = false).
Proof.
  intros H. split.
  - intros c Hc. unfold strip in H.
    destruct (Sanitizer.rstrip_prefix (lstrip s)) as (t & Ht & _).
    rewrite H in Ht. apply (Sanitizer.lstrip_head s). rewrite Ht.
    by destruct s.
  - intros c Hc. rewrite <- H in Hc. by apply strip_last in Hc.
Qed.

Lemma strip_id s :
  (forall c, head s = Some c -> isspace c = false) ->
  (forall c, last s = Some c -> isspace c = false) -> strip s = s.
Proof.
  intros Hh Hl. unfold strip. rewrite DateParser.lstrip_id by done.
  by apply DateParser.rstrip_id.
Qed.

(** a key, a space and a value that is stripped already *)
Lemma strip_keyed key v :
  key <> [] -> Forall (fun c => isspace c = false) key ->
  strip v = v -> v <> [] ->
  strip (key ++ SP :: v) = key ++ SP :: v.
Proof.
  intros Hk Fk Hv Hne. apply stripped_ends in Hv as [_ Hl].
  apply strip_id.
  - intros c Hc. destruct key as [|k key]; [done|].
    simpl in Hc. injection Hc as <-. by apply Forall_cons in Fk as [? _].
  - intros c Hc. apply Hl. rewrite last_app, last_cons in Hc.
    destruct (last v) eqn:E; [done|]. by apply last_None in E.
Qed.


(** ** One line of the parser *)

Lemma linebreak_is_space c : is_linebreak c = true -> isspace c = true.
Proof.
  unfold is_linebreak, isspace. generalize (code c). intros n.
  rewrite !orb_true_iff, !andb_true_iff, !Nat.leb_le, !Nat.eqb_eq. lia.
Qed.

Lemma not_space_not_linebreak c : isspace c = false -> is_linebreak c = false.
Proof.
  intros H. destruct (is_linebreak c) eqn:E; [|done].
  apply linebreak_is_space in E. congruence.
Qed.

Lemma parse_line_blank st l : strip l = [] -> parse_line st l = st.
Proof. intros H. unfold parse_line. by rewrite H. Qed.

Lemma parse_line_title st t :
  st_title st = None -> t <> [] -> strip t = t -> contains [COLON] t = false ->
  parse_line st t =
  {| st_title := Some t; st_url := st_url st; st_pub_date := st_pub_date st;
     st_site_name := st_site_name st; st_body := st_body st |}.
Proof.
  intros Hn Hne Hs Hc. unfold parse_line. rewrite Hs, Hn, Hc. simpl.
  by destruct t.
Qed.

Lemma parse_line_keeps_title st t l :
  st_title st = Some t -> st_title (parse_line st l) = Some t.
Proof.
  intros H. unfold parse_line. destruct (strip l) as [|c r]; [done|].
  rewrite H. rewrite bool_decide_eq_false_2 by done. cbn [andb].
  by repeat (destruct (startswith _ (lower (c :: r))); [done|]).
Qed.

Lemma parse_line_harmless st t l :
  st_title st = Some t -> is_meta_line l = false ->
  st_url (parse_line st l) = st_url st
  /\ st_pub_date (parse_line st l) = st_pub_date st.
Proof.
  intros H Hm. unfold parse_line, is_meta_line in *.
  destruct (strip l) as [|c r]; [done|].
  rewrite H. rewrite bool_decide_eq_false_2 by done. cbn [andb].
  apply orb_false_iff in Hm as [[H1 H2]%orb_false_iff H3].
  by rewrite H1, H2, H3.
Qed.

Lemma parse_line_site st t l :
  st_title st = Some t -> strip l <> [] ->
  startswith (lit "site:") (lower (strip l)) = true ->
  st_url (parse_line st l) = st_url st
  /\ st_pub_date (parse_line st l) = st_pub_date st.
Proof.
  intros H Hne Hs. unfold parse_line.
  destruct (strip l) as [|c r]; [done|].
  rewrite H. rewrite bool_decide_eq_false_2 by done. cbn [andb].
  by rewrite Hs.
Qed.

Lemma strip_space_value v : strip v = v -> strip (SP :: v) = v.
Proof. done. Qed.

Lemma parse_line_published st t v :
  st_title st = Some t -> strip v = v -> v <> [] ->
  st_url (parse_line st (lit "Published: " ++ v)) = st_url st
  /\ st_pub_date (parse_line st (lit "Published: " ++ v)) = Some v.
Proof.
  intros H Hv Hne. unfold parse_line.
  change (lit "Published: " ++ v) with (lit "Published:" ++ SP :: v).
  rewrite strip_keyed; [|done|by repeat constructor|done|done].
  rewrite H. simpl. unfold field_value, split1_last. simpl.
  by rewrite strip_space_value.
Qed.

Lemma parse_line_url st t v :
  st_title st = Some t -> strip v = v -> v <> [] ->
  st_url (parse_line st (lit "URL: " ++ v)) = Some v
  /\ st_pub_date (parse_line st (lit "URL: " ++ v)) = st_pub_date st.
Proof.
  intros H Hv Hne. unfold parse_line.
  change (lit "URL: " ++ v) with (lit "URL:" ++ SP :: v).
  rewrite strip_keyed; [|done|by repeat constructor|done|done].
  rewrite H. simpl. unfold field_value, split1_last. simpl.
  by rewrite strip_space_value.
Qed.

(** ** Feeding a text to the parser *)

Lemma feed_nil st : feed st [] = st.
Proof. done. Qed.

Lemma feed_lf st rest : feed st (LF :: rest) = feed st rest.
Proof. unfold feed. by rewrite splitlines_lf. Qed.

Lemma feed_line st s rest :
  s <> [] -> Forall (fun c => is_linebreak c = false) s ->
  feed st (s ++ LF :: rest) = feed (parse_line st s) rest.
Proof.
  intros Hne H. unfold feed. rewrite splitlines_app_lf.
  - by rewrite splitlines_one_line.
  - done.
  - intros c Hc. apply last_Some_elem_of in Hc. by eapply Forall_forall in H.
Qed.

Lemma feed_harmless st t text :
  st_title st = Some t -> harmless text ->
  st_title (feed st text) = Some t
  /\ st_url (feed st text) = st_url st
  /\ st_pub_date (feed st text) = st_pub_date st.
Proof.
  unfold harmless, feed. generalize (splitlines text). intros ls.
  revert st. induction ls as [|l ls IH]; intros st Ht H; [done|].
  apply Forall_cons in H as [Hl Hls]. simpl.
  destruct (parse_line_harmless st t l Ht Hl) as [<- <-].
  apply IH; [|done]. by apply parse_line_keeps_title.
Qed.


(** ** The text that is written *)

Lemma written_stripped a q :
  q ∈ written_paragraphs a ->
  q <> [] /\ (forall c, last q = Some c -> isspace c = false).
Proof.
  intros Hq. apply list_elem_of_In, filter_In in Hq as [Hq Hne].
  split; [by destruct q|].
  apply in_map_iff in Hq as (p & <- & _). apply strip_last.
Qed.

Lemma article_text_file_text a site_slug t :
  title_or_untitled a = JStr t ->
  url a <> [] -> strip (url a) = url a ->
  article_text a site_slug = Ok (file_text t site_slug a (body_text a)).
Proof.
  intros Ht Hne Hu. unfold body_text.
  destruct (written_paragraphs a) as [|q qs] eqn:E.
  - unfold article_text. rewrite Ht. f_equal.
    unfold article_lines. rewrite Serializer.paragraph_lines_written.
    fold (written_paragraphs a). rewrite E. simpl flat_map. rewrite !app_nil_r.
    apply stripped_ends in Hu as [_ Hl].
    assert (Hlast : forall c, last (lit "URL: " ++ url a) = Some c -> isspace c = false).
    { intros c Hc. apply Hl. rewrite last_app in Hc.
      destruct (last (url a)) eqn:El; [done|]. by apply last_None in El. }
    unfold file_text.
    destruct (date_of a) as [d|]; cbn [app]; rewrite !Serializer.join_cons by done;
      cbn [join]; rewrite !app_nil_r.
    + replace (t ++ [LF] ++ [] ++ [LF] ++ (lit "Site: " ++ upper site_slug) ++ [LF]
               ++ (lit "Published: " ++ isoformat d) ++ [LF]
               ++ (lit "URL: " ++ url a) ++ [LF])
        with ((t ++ [LF] ++ [] ++ [LF] ++ (lit "Site: " ++ upper site_slug) ++ [LF]
               ++ (lit "Published: " ++ isoformat d) ++ [LF]
               ++ (lit "URL: " ++ url a)) ++ [LF])
        by (by rewrite <- !app_assoc).
      rewrite Serializer.rstrip_app_space by done.
      rewrite DateParser.rstrip_id.
      * rewrite <- !app_assoc. reflexivity.
      * intros c Hc. apply Hlast. rewrite !last_app in Hc.
        rewrite last_app. by destruct (last (url a)).
    + replace (t ++ [LF] ++ [] ++ [LF] ++ (lit "Site: " ++ upper site_slug) ++ [LF]
               ++ (lit "URL: " ++ url a) ++ [LF])
        with ((t ++ [LF] ++ [] ++ [LF] ++ (lit "Site: " ++ upper site_slug) ++ [LF]
               ++ (lit "URL: " ++ url a)) ++ [LF])
        by (by rewrite <- !app_assoc).
      rewrite Serializer.rstrip_app_space by done.
      rewrite DateParser.rstrip_id.
      * rewrite <- !app_assoc. reflexivity.
      * intros c Hc. apply Hlast. rewrite !last_app in Hc.
        rewrite last_app. by destruct (last (url a)).
  - rewrite (Serializer.article_text_separated a site_slug t Ht) by (by rewrite E).
    f_equal. unfold separated_layout, file_text. rewrite E.
    destruct (date_of a); rewrite <- ?app_assoc; reflexivity.
Qed.


Lemma harmless_nil : harmless [].
Proof. constructor. Qed.

Lemma harmless_lf rest : harmless rest -> harmless (LF :: rest).
Proof. unfold harmless. rewrite splitlines_lf. by constructor. Qed.

Lemma harmless_app_lf q rest :
  q <> [] -> (forall c, last q = Some c -> isspace c = false) ->
  harmless q -> harmless rest -> harmless (q ++ LF :: rest).
Proof.
  intros Hne Hl Hq Hr. unfold harmless. rewrite splitlines_app_lf.
  - by apply Forall_app.
  - done.
  - intros c Hc. by apply not_space_not_linebreak, Hl.
Qed.

Lemma harmless_joined qs :
  Forall (fun q => q <> [] /\ (forall c, last q = Some c -> isspace c = false)
                   /\ harmless q) qs ->
  qs <> [] -> harmless (join [LF; LF] qs ++ [LF]).
Proof.
  induction 1 as [|q qs (Hne & Hl & Hq) Hqs IH]; [done|]. intros _.
  destruct qs as [|q' qs].
  - simpl. apply harmless_app_lf; try done. apply harmless_nil.
  - rewrite Serializer.join_cons by done. rewrite <- !app_assoc.
    apply harmless_app_lf; try done. apply harmless_lf. by apply IH.
Qed.

Lemma harmless_body a :
  Forall harmless (written_paragraphs a) -> harmless (body_text a).
Proof.
  intros H. unfold body_text.
  destruct (written_paragraphs a) as [|q qs] eqn:E; [apply harmless_nil|].
  apply harmless_lf, harmless_joined; [|done].
  apply Forall_forall. intros x Hx.
  assert (Hx' : x ∈ written_paragraphs a) by (by rewrite E).
  destruct (written_stripped a x Hx') as [? ?]. split_and!; try done.
  by eapply Forall_forall in H.
Qed.

(** ** The fields that come back *)

Lemma isoformat_not_space d : Forall (fun c => isspace c = false) (isoformat d).
Proof.
  unfold isoformat.
  repeat constructor; apply DateParser.isdigit_not_space, DateParser.digit_char_isdigit.
Qed.

Lemma no_linebreak_app a b :
  Forall (fun c => is_linebreak c = false) a ->
  Forall (fun c => is_linebreak c = false) b ->
  Forall (fun c => is_linebreak c = false) (a ++ b).
Proof. intros. by apply Forall_app. Qed.

Lemma feed_file_text t site_slug a body :
  t <> [] -> one_line t -> contains [COLON] t = false ->
  url a <> [] -> one_line (url a) ->
  Forall (fun c => is_linebreak c = false) (upper site_slug) ->
  harmless body ->
  let st := feed initial (file_text t site_slug a body) in
  st_title st = Some t /\ st_url st = Some (url a)
  /\ st_pub_date st = isoformat <$> date_of a.
Proof.
  intros Hne [Ft St] Hc Hune [Fu Su] Fs Hb. unfold file_text.
  rewrite feed_line by done.
  rewrite parse_line_title by done. rewrite feed_lf.
  set (st1 := {| st_title := Some t; st_url := st_url initial;
                 st_pub_date := st_pub_date initial;
                 st_site_name := st_site_name initial;
                 st_body := st_body initial |}).
  assert (Hsite : strip (lit "Site: " ++ upper site_slug)
                  = lit "Site:" ++ rstrip (SP :: upper site_slug)).
  { unfold strip. change (lit "Site: " ++ upper site_slug)
      with (lit "Site:" ++ SP :: upper site_slug).
    simpl lstrip. by apply (rstrip_app_keep (lit "Site:")); intros c [= <-]. }
  rewrite feed_line; [|done|apply no_linebreak_app; [by repeat constructor|done]].
  destruct (parse_line_site st1 t (lit "Site: " ++ upper site_slug) eq_refl)
    as [Hu1 Hp1]; [by rewrite Hsite|by rewrite Hsite|].
  pose proof (parse_line_keeps_title st1 t (lit "Site: " ++ upper site_slug) eq_refl) as Ht1.
  set (st2 := parse_line st1 (lit "Site: " ++ upper site_slug)) in *.
  assert (Hnl : forall key v, Forall (fun c => is_linebreak c = false) (lit key) ->
            Forall (fun c => isspace c = false) v ->
            Forall (fun c => is_linebreak c = false) (lit key ++ v)).
  { intros key v Hk Hv. apply no_linebreak_app; [done|].
    eapply Forall_impl; [exact Hv|]. apply not_space_not_linebreak. }
  destruct (date_of a) as [d|]; simpl fmap.
  - rewrite feed_line; [|done|apply Hnl; [by repeat constructor|apply isoformat_not_space]].
    destruct (parse_line_published st2 t (isoformat d) Ht1) as [Hu2 Hp2];
      [by apply DateParser.strip_no_space, isoformat_not_space|done|].
    pose proof (parse_line_keeps_title st2 t (lit "Published: " ++ isoformat d) Ht1) as Ht2.
    set (st3 := parse_line st2 (lit "Published: " ++ isoformat d)) in *.
    rewrite feed_line; [|done|apply no_linebreak_app; [by repeat constructor|done]].
    destruct (parse_line_url st3 t (url a) Ht2 Su Hune) as [Hu3 Hp3].
    pose proof (parse_line_keeps_title st3 t (lit "URL: " ++ url a) Ht2) as Ht3.
    destruct (feed_harmless _ t body Ht3 Hb) as (-> & -> & ->).
    split_and!; [done|done|]. by rewrite Hp3, Hp2.
  - rewrite feed_line; [|done|apply no_linebreak_app; [by repeat constructor|done]].
    destruct (parse_line_url st2 t (url a) Ht1 Su Hune) as [Hu3 Hp3].
    pose proof (parse_line_keeps_title st2 t (lit "URL: " ++ url a) Ht1) as Ht3.
    destruct (feed_harmless _ t body Ht3 Hb) as (-> & -> & ->).
    split_and!; [done|done|]. by rewrite Hp3, Hp1.
Qed.

(** C4, amended: an article whose title is a string that is not empty,
    fills one line, has no whitespace at its ends and holds no colon,
    whose URL is not empty, fills one line and has no whitespace at its
    ends, written for a site slug without a line boundary and with no line
    of a paragraph that starts like a Site, Published or URL line, is
    parsed back from its file with the same title, the same URL and the
    ISO text of its date (none when it has no date). *)
Theorem round_trip (a : Article) (site_slug path t : list ascii) (w : world) :
  title a = JStr t -> t <> [] -> one_line t -> contains [COLON] t = false ->
  url a <> [] -> one_line (url a) ->
  Forall (fun c => is_linebreak c = false) (upper site_slug) ->
  Forall harmless (written_paragraphs a) ->
  exists meta body w',
    written_then_parsed a site_slug path w = (Ok (meta, body), w')
    /\ meta_title meta = Some t
    /\ meta_url meta = Some (url a)
    /\ published_date meta = isoformat <$> date_of a.
Proof.
  intros Ht Hne Ht1 Hc Hune Hu1 Hs Hps.
  assert (Htitle : title_or_untitled a = JStr t).
  { unfold title_or_untitled, py_or. rewrite Ht. simpl. by destruct t. }
  pose proof (article_text_file_text a site_slug t Htitle Hune (proj2 Hu1)) as Htext.
  set (text := file_text t site_slug a (body_text a)) in *.
  destruct (feed_file_text t site_slug a (body_text a) Hne Ht1 Hc Hune Hu1 Hs
              (harmless_body a Hps)) as (H1 & H2 & H3).
  fold text in H1, H2, H3.
  unfold written_then_parsed, bind, lift, write_text, parse_article_file,
    bind, try_except, read_file, ret.
  rewrite Htext. simpl. rewrite lookup_insert_eq. simpl.
  eexists _, _, _. split; [reflexivity|].
  unfold parse_text. simpl. unfold parse_lines.
  rewrite splitlines_universal. fold (feed initial text). done.
Qed.

Lemma round_trip_witness :
  exists meta body w',
    written_then_parsed Scenario.meeting_article (lit "wmur")
      (lit "Stories/2025-06-01/wmur/Original/Town Meeting Update.txt")
      (Scenario.fresh Scenario.dead_network) = (Ok (meta, body), w')
    /\ meta_title meta = Some (lit "Town Meeting Update")
    /\ meta_url meta = Some (url Scenario.meeting_article)
    /\ published_date meta = isoformat <$> date_of Scenario.meeting_article.
Proof.
  apply round_trip.
  - reflexivity.
  - done.
  - split; [by repeat constructor|reflexivity].
  - reflexivity.
  - done.
  - split; [by repeat constructor|reflexivity].
  - by repeat constructor.
  - by repeat constructor.
Defined.

(** The round trip fails as soon as the title holds a colon: the title
    that comes back is the first later line without one. *)
Lemma round_trip_loses_title_with_colon :
  exists meta body w',
    written_then_parsed Scenario.fire_article (lit "wmur")
      (lit "Stories/2025-06-01/wmur/Original/Fire crews respond downtown.txt")
      (Scenario.fresh Scenario.dead_network) = (Ok (meta, body), w')
    /\ title Scenario.fire_article = JStr (lit "Fire: crews respond downtown")
    /\ meta_title meta = Some (lit "Crews responded at noon.")
    /\ meta_title meta <> Some (lit "Fire: crews respond downtown").
Proof.
  destruct (written_then_parsed _ _ _ _) as [r w'] eqn:E.
  assert (H : match r with
              | Ok (m, _) => meta_title m
              | Raise _ => None
              end = Some (lit "Crews responded at noon.")).
  { apply (f_equal fst) in E. simpl in E. rewrite <- E. vm_compute. reflexivity. }
  destruct r as [[meta body]|e]; [|done].
  exists meta, body, w'. split; [done|]. split; [reflexivity|]. split; [done|].
  rewrite H. intros [=].
Qed.

End RoundTrip.

Module Collision.
Import Str Py World Base Spec.

Lemma lit_inj s1 s2 : lit s1 = lit s2 -> s1 = s2.
Proof.
  unfold lit. intros H.
  rewrite <- (string_of_list_ascii_of_string s1), <- (string_of_list_ascii_of_string s2).
  by rewrite H.
Qed.

Lemma numbered_inj base ext i j : numbered base ext i = numbered base ext j -> i = j.
Proof.
  unfold numbered, str_of_Z. intros H.
  apply app_inv_head, app_inv_head, app_inv_tail in H.
  apply lit_inj, (inj pretty) in H. lia.
Qed.

Lemma in_dir_inj dir n1 n2 : in_dir dir n1 = in_dir dir n2 -> n1 = n2.
Proof. unfold in_dir. intros H. by apply app_inv_head, app_inv_head in H. Qed.

(** ** The search for a free name *)

Lemma probe_spec taken base ext i fuel name :
  probe taken base ext i fuel = Some name ->
  exists k, i <= k /\ name = numbered base ext k /\ taken name = false
            /\ forall j, i <= j < k -> taken (numbered base ext j) = true.
Proof.
  revert i. induction fuel as [|fuel IH]; intros i H; [done|]. simpl in H.
  destruct (taken (numbered base ext i)) eqn:E.
  - destruct (IH _ H) as (k & Hk & -> & Hf & Hb).
    exists k. split_and!; [lia|done|done|].
    intros j Hj. destruct (decide (j = i)) as [->|]; [done|]. apply Hb. lia.
  - injection H as <-. exists i. split_and!; [lia|done|done|]. intros j Hj. lia.
Qed.

Lemma probe_none taken base ext i fuel :
  probe taken base ext i fuel = None ->
  forall j, i <= j < i + fuel -> taken (numbered base ext j) = true.
Proof.
  revert i. induction fuel as [|fuel IH]; intros i H j Hj; [lia|]. simpl in H.
  destruct (taken (numbered base ext i)) eqn:E; [|done].
  destruct (decide (j = i)) as [->|]; [done|]. apply (IH _ H). lia.
Qed.

Lemma probe_enough (fs : gmap (list ascii) (list ascii)) dir base ext i :
  is_Some (probe (taken_in fs dir) base ext i (S (size fs))).
Proof.
  destruct (probe _ _ _ _ _) eqn:E; [by eexists|]. exfalso.
  pose proof (probe_none _ _ _ _ _ E) as H.
  set (l := (fun j => in_dir dir (numbered base ext j)) <$> seq i (S (size fs))).
  assert (Hnd : NoDup l).
  { apply NoDup_fmap_2_strong; [|apply NoDup_seq].
    intros x y _ _ Hxy. by apply in_dir_inj, numbered_inj in Hxy. }
  assert (Hsub : l ⊆+ (map_to_list fs).*1).
  { apply NoDup_submseteq; [done|]. intros p Hp.
    apply list_elem_of_fmap in Hp as (j & -> & Hj). apply elem_of_seq in Hj.
    specialize (H j ltac:(lia)). unfold taken_in in H.
    apply bool_decide_eq_true in H as [t Ht].
    apply list_elem_of_fmap. exists (in_dir dir (numbered base ext j), t).
    split; [done|]. by apply elem_of_map_to_list. }
  apply submseteq_length in Hsub.
  unfold l in Hsub. rewrite !length_fmap, length_seq, length_map_to_list in Hsub. lia.
Qed.

(** ** Stem and suffix of a sanitized name *)

Lemma rfind_dot_txt a : rfind_dot (a ++ lit ".txt") = Some (length a).
Proof.
  induction a as [|c a IH]; [done|].
  change (rfind_dot ((c :: a) ++ lit ".txt"))
    with (match rfind_dot (a ++ lit ".txt") with
          | Some i => Some (S i)
          | None => if Ascii.eqb c DOT then Some 0 else None
          end).
  by rewrite IH.
Qed.

Lemma has_suffix_txt a : a <> [] -> has_suffix (a ++ lit ".txt") (length a) = true.
Proof.
  intros H. unfold has_suffix. rewrite length_app. destruct a as [|c a]; [done|].
  apply andb_true_iff. split; apply Nat.ltb_lt; simpl; lia.
Qed.

Lemma stem_txt a : a <> [] -> path_stem (a ++ lit ".txt") = a.
Proof.
  intros H. unfold path_stem. rewrite rfind_dot_txt, has_suffix_txt by done.
  by rewrite take_app_length.
Qed.

Lemma suffix_txt a : a <> [] -> path_suffix (a ++ lit ".txt") = lit ".txt".
Proof.
  intros H. unfold path_suffix. rewrite rfind_dot_txt, has_suffix_txt by done.
  by rewrite drop_app_length.
Qed.

Lemma title_to_filename_stem t : title_to_filename t = clean_title t ++ lit ".txt".
Proof. by destruct t. Qed.

Lemma clean_title_nonempty t : clean_title t <> [].
Proof.
  destruct (Sanitizer.clean_title_tidy t) as [_ [H _]].
  intros E. rewrite E in H. simpl in H. lia.
Qed.

Lemma filename_of_str t : filename_of (JStr t) = Ok (title_to_filename t).
Proof. unfold filename_of. by destruct t. Qed.

Lemma free_name_chosen taken fuel stem name :
  stem <> [] ->
  free_name taken fuel (stem ++ lit ".txt") = Some name -> chosen taken stem name.
Proof.
  intros Hne. unfold free_name, chosen.
  destruct (taken (stem ++ lit ".txt")) eqn:E.
  - rewrite stem_txt, suffix_txt by done. intros H. right. split; [done|].
    apply probe_spec in H as (k & Hk & -> & Hf & Hb). by exists k.
  - intros [= <-]. by left.
Qed.

Lemma free_name_enough (fs : gmap (list ascii) (list ascii)) dir filename :
  is_Some (free_name (taken_in fs dir) (S (size fs)) filename).
Proof.
  unfold free_name. destruct (taken_in fs dir filename); [|by eexists].
  apply probe_enough.
Qed.

(** ** One article *)

Lemma save_article_chosen site_slug dir a t w :
  title_or_untitled a = JStr t ->
  exists name text,
    chosen (taken_in (files w) dir) (clean_title t) name
    /\ article_text a site_slug = Ok text
    /\ save_article site_slug dir a w = write_text (in_dir dir name) text w.
Proof.
  intros Ht. unfold save_article, bind, lift, get_world.
  rewrite Ht, filename_of_str. simpl.
  destruct (free_name_enough (files w) dir (title_to_filename t)) as [name Hn].
  rewrite Hn. exists name. unfold article_text. rewrite Ht. eexists.
  split_and!; [|done|done].
  rewrite title_to_filename_stem in Hn.
  eapply free_name_chosen; [apply clean_title_nonempty|done].
Qed.

(** ** Names of articles and the name of the URL list *)

Lemma chosen_txt taken stem name :
  chosen taken stem name -> exists x, name = x ++ lit ".txt".
Proof.
  intros [[_ ->]|[_ (k & _ & -> & _)]]; [by eexists|].
  exists (stem ++ lit " (" ++ str_of_Z (Z.of_nat k) ++ lit ")").
  by rewrite <- !app_assoc.
Qed.

Lemma txt_not_json dir x y : in_dir dir (x ++ lit ".txt") <> in_dir dir (y ++ lit ".json").
Proof.
  intros H%in_dir_inj. apply (f_equal last) in H.
  by rewrite !last_app in H.
Qed.

Lemma chosen_agree taken1 taken2 stem name :
  (forall x, taken1 (x ++ lit ".txt") = taken2 (x ++ lit ".txt")) ->
  chosen taken1 stem name -> chosen taken2 stem name.
Proof.
  intros Hag [[H ->]|[H (k & Hk & -> & Hf & Hb)]].
  - left. by rewrite <- Hag.
  - right. rewrite <- Hag. split; [done|]. exists k.
    assert (Hn : forall j, stem ++ lit " (" ++ str_of_Z (Z.of_nat j) ++ lit ").txt"
                 = (stem ++ lit " (" ++ str_of_Z (Z.of_nat j) ++ lit ")") ++ lit ".txt")
      by (intros j; by rewrite <- !app_assoc).
    split_and!; [done|done| |].
    + rewrite Hn in *. by rewrite <- Hag.
    + intros j Hj. rewrite Hn, <- Hag, <- Hn. by apply Hb.
Qed.

Lemma taken_in_insert_ne fs dir p text name :
  p <> in_dir dir name -> taken_in (<[p := text]> fs) dir name = taken_in fs dir name.
Proof. intros H. unfold taken_in. by rewrite lookup_insert_ne. Qed.

Lemma taken_in_false fs dir name : taken_in fs dir name = false <-> fs !! in_dir dir name = None.
Proof.
  unfold taken_in. rewrite bool_decide_eq_false, <- eq_None_not_Some. done.
Qed.

Lemma taken_in_true fs dir name : taken_in fs dir name = true <-> is_Some (fs !! in_dir dir name).
Proof. unfold taken_in. by rewrite bool_decide_eq_true. Qed.

Lemma chosen_free fs dir stem name :
  chosen (taken_in fs dir) stem name -> fs !! in_dir dir name = None.
Proof.
  intros [[H ->]|[_ (k & _ & -> & H & _)]]; by apply taken_in_false.
Qed.

(** ** Two articles of one batch with the same file name *)

Lemma save_articles_two site_slug target_date a1 a2 t1 t2 w :
  title_or_untitled a1 = JStr t1 -> title_or_untitled a2 = JStr t2 ->
  title_to_filename t1 = title_to_filename t2 ->
  let dir := output_dir (ROOT_DIR w) target_date site_slug in
  let stem := clean_title t1 in
  exists n1 n2 text1 text2 w',
    save_articles site_slug target_date [a1; a2] w = (Ok tt, w')
    /\ article_text a1 site_slug = Ok text1
    /\ article_text a2 site_slug = Ok text2
    /\ chosen (taken_in (files w) dir) stem n1
    /\ chosen (taken_in (<[in_dir dir n1 := text1]> (files w)) dir) stem n2
    /\ n1 <> n2
    /\ files w' !! in_dir dir n1 = Some text1
    /\ files w' !! in_dir dir n2 = Some text2.
Proof.
  intros H1 H2 Hf dir stem.
  assert (Hstem : clean_title t2 = stem).
  { rewrite !title_to_filename_stem in Hf. by apply app_inv_tail in Hf. }
  unfold save_articles. unfold bind at 1. unfold get_world. fold dir.
  set (manifest := in_dir dir _). set (urls := json_dumps _).
  unfold bind at 1. unfold write_text at 1. cbn [for_each].
  set (w0 := {| net := net w; requests := requests w; log := log w;
                files := <[manifest := urls]> (files w); ROOT_DIR := ROOT_DIR w |}).
  destruct (save_article_chosen site_slug dir a1 t1 w0 H1) as (n1 & text1 & C1 & T1 & S1).
  unfold bind at 1. rewrite S1. unfold write_text at 1.
  set (w1 := {| net := net w0; requests := requests w0; log := log w0;
                files := <[in_dir dir n1 := text1]> (files w0); ROOT_DIR := ROOT_DIR w0 |}).
  destruct (save_article_chosen site_slug dir a2 t2 w1 H2) as (n2 & text2 & C2 & T2 & S2).
  unfold bind at 1. rewrite S2. unfold write_text at 1. unfold ret.
  rewrite Hstem in C2.
  assert (Hm : forall x, manifest <> in_dir dir (x ++ lit ".txt")).
  { intros x E. unfold manifest in E.
    apply (txt_not_json dir x (site_slug ++ lit "_urls_" ++ isoformat target_date)).
    by rewrite <- !app_assoc. }
  exists n1, n2, text1, text2. eexists. split; [reflexivity|]. simpl files.
  assert (Hne : n1 <> n2).
  { intros <-. apply chosen_free in C2. simpl in C2. by rewrite lookup_insert_eq in C2. }
  split_and!; try done.
  - eapply chosen_agree; [|exact C1]. intros x. simpl.
    by apply taken_in_insert_ne.
  - eapply chosen_agree; [|exact C2]. intros x. simpl.
    unfold taken_in.
    destruct (decide (in_dir dir n1 = in_dir dir (x ++ lit ".txt"))) as [E|E].
    + by rewrite E, !lookup_insert_eq.
    + by rewrite !lookup_insert_ne by (done || apply Hm).
  - rewrite lookup_insert_ne by (by intros E%in_dir_inj).
    by rewrite lookup_insert_eq.
  - by rewrite lookup_insert_eq.
Qed.

Lemma plain_not_numbered stem k :
  stem ++ lit ".txt" <> stem ++ lit " (" ++ str_of_Z (Z.of_nat k) ++ lit ").txt".
Proof. by intros H%app_inv_head. Qed.

Lemma chosen_in_fresh_dir fs dir stem text1 n1 n2 :
  fs !! in_dir dir (stem ++ lit ".txt") = None ->
  fs !! in_dir dir (stem ++ lit " (2).txt") = None ->
  chosen (taken_in fs dir) stem n1 ->
  chosen (taken_in (<[in_dir dir n1 := text1]> fs) dir) stem n2 ->
  n1 = stem ++ lit ".txt" /\ n2 = stem ++ lit " (2).txt".
Proof.
  intros F1 F2 C1 C2.
  assert (n1 = stem ++ lit ".txt") as ->.
  { destruct C1 as [[_ ->]|[H _]]; [done|].
    apply taken_in_true in H as [? H]. congruence. }
  split; [done|].
  destruct C2 as [[H _]|[_ (k & Hk & -> & _ & Hb)]].
  { apply taken_in_false in H. by rewrite lookup_insert_eq in H. }
  destruct (decide (k = 2)) as [->|Hk2]; [done|].
  specialize (Hb 2 ltac:(lia)). apply taken_in_true in Hb as [x Hb].
  rewrite lookup_insert_ne in Hb.
  - change (str_of_Z (Z.of_nat 2)) with (lit "2") in Hb.
    change (stem ++ lit " (" ++ lit "2" ++ lit ").txt")
      with (stem ++ lit " (2).txt") in Hb. congruence.
  - intros E%in_dir_inj. by apply plain_not_numbered in E.
Qed.

(** ** What the outcome depends on *)

Lemma save_article_same_disk site_slug dir a w1 w2 :
  same_disk w1 w2 ->
  fst (save_article site_slug dir a w1) = fst (save_article site_slug dir a w2)
  /\ same_disk (snd (save_article site_slug dir a w1))
               (snd (save_article site_slug dir a w2)).
Proof.
  intros [Hf Hr]. unfold save_article, bind, lift, get_world.
  destruct (filename_of (title_or_untitled a)) as [f|e]; [|done].
  rewrite Hf. destruct (free_name _ _ f) as [name|]; [|done].
  destruct (article_text a site_slug) as [text|e]; [|done].
  unfold write_text, same_disk. simpl. by rewrite Hf, Hr.
Qed.

Lemma for_each_same_disk site_slug dir articles w1 w2 :
  same_disk w1 w2 ->
  fst (for_each articles (save_article site_slug dir) w1)
  = fst (for_each articles (save_article site_slug dir) w2)
  /\ same_disk (snd (for_each articles (save_article site_slug dir) w1))
               (snd (for_each articles (save_article site_slug dir) w2)).
Proof.
  revert w1 w2. induction articles as [|a rest IH]; intros w1 w2 H; [done|].
  cbn [for_each]. unfold bind.
  destruct (save_article_same_disk site_slug dir a w1 w2 H) as [Hr Hd].
  destruct (save_article site_slug dir a w1) as [[[]|e1] w1'],
           (save_article site_slug dir a w2) as [[[]|e2] w2']; simpl in *;
    try done.
  by apply IH.
Qed.

Lemma save_articles_same_disk site_slug target_date articles w1 w2 :
  same_disk w1 w2 ->
  fst (save_articles site_slug target_date articles w1)
  = fst (save_articles site_slug target_date articles w2)
  /\ same_disk (snd (save_articles site_slug target_date articles w1))
               (snd (save_articles site_slug target_date articles w2)).
Proof.
  intros H. unfold save_articles. destruct articles as [|a rest]; [done|].
  destruct H as [Hf Hr]. unfold bind, get_world, write_text. rewrite Hr.
  apply for_each_same_disk. split; simpl; by rewrite ?Hf.
Qed.

(** C5: the archive writer saves an article under [<stem>.txt] when that
    name is free in the output directory and else under [<stem> (k).txt]
    for the least [k] from 2 on that is free, [<stem>] being the sanitized
    title; two articles of one batch with the same sanitized file name are
    written to two distinct files, named [<stem>.txt] and [<stem> (2).txt]
    when the directory held neither before; and the result and the files
    left behind depend only on the files and the root directory found and
    on the articles in their order. *)
Theorem collision_policy :
  (forall site_slug dir a t w,
      title_or_untitled a = JStr t ->
      exists name text,
        chosen (taken_in (files w) dir) (clean_title t) name
        /\ article_text a site_slug = Ok text
        /\ save_article site_slug dir a w = write_text (in_dir dir name) text w)
  /\ (forall site_slug target_date a1 a2 t1 t2 w,
         title_or_untitled a1 = JStr t1 -> title_or_untitled a2 = JStr t2 ->
         title_to_filename t1 = title_to_filename t2 ->
         let dir := output_dir (ROOT_DIR w) target_date site_slug in
         let stem := clean_title t1 in
         exists n1 n2 text1 text2 w',
           save_articles site_slug target_date [a1; a2] w = (Ok tt, w')
           /\ article_text a1 site_slug = Ok text1
           /\ article_text a2 site_slug = Ok text2
           /\ chosen (taken_in (files w) dir) stem n1
           /\ chosen (taken_in (<[in_dir dir n1 := text1]> (files w)) dir) stem n2
           /\ n1 <> n2
           /\ files w' !! in_dir dir n1 = Some text1
           /\ files w' !! in_dir dir n2 = Some text2
           /\ (files w !! in_dir dir (stem ++ lit ".txt") = None ->
               files w !! in_dir dir (stem ++ lit " (2).txt") = None ->
               n1 = stem ++ lit ".txt" /\ n2 = stem ++ lit " (2).txt"))
  /\ (forall site_slug target_date articles w1 w2,
         same_disk w1 w2 ->
         fst (save_articles site_slug target_date articles w1)
         = fst (save_articles site_slug target_date articles w2)
         /\ same_disk (snd (save_articles site_slug target_date articles w1))
                      (snd (save_articles site_slug target_date articles w2))).
Proof.
  split_and!.
  - apply save_article_chosen.
  - intros site_slug target_date a1 a2 t1 t2 w H1 H2 Hf dir stem.
    destruct (save_articles_two site_slug target_date a1 a2 t1 t2 w H1 H2 Hf)
      as (n1 & n2 & text1 & text2 & w' & ? & ? & ? & C1 & C2 & ? & ? & ?).
    exists n1, n2, text1, text2, w'. split_and!; try done.
    intros F1 F2. by eapply chosen_in_fresh_dir.
  - apply save_articles_same_disk.
Qed.

Lemma collision_policy_witness :
  exists w',
    save_articles (lit "wmur") Scenario.june_1
      [Scenario.meeting_article; Scenario.meeting_followup]
      (Scenario.fresh Scenario.dead_network) = (Ok tt, w')
    /\ is_Some (files w' !! lit "Stories/2025-06-01/wmur/Original/Town Meeting Update.txt")
    /\ is_Some (files w' !! lit "Stories/2025-06-01/wmur/Original/Town Meeting Update (2).txt").
Proof.
  destruct (proj1 (proj2 collision_policy) (lit "wmur") Scenario.june_1
              Scenario.meeting_article Scenario.meeting_followup
              (lit "Town Meeting Update") (lit "Town Meeting: Update")
              (Scenario.fresh Scenario.dead_network) eq_refl eq_refl eq_refl)
    as (n1 & n2 & text1 & text2 & w' & Hs & _ & _ & _ & _ & _ & L1 & L2 & Hn).
  destruct (Hn eq_refl eq_refl) as [-> ->].
  exists w'. split; [exact Hs|]. split; [by eexists|by eexists].
Defined.

End Collision.

Module Effects.
Import Str Py World Base Spec.

(** ** The fetcher sends one request and touches no file *)

Lemma fetch_html_requests url w :
  requests (snd (fetch_html url w)) = requests w ++ [url].
Proof.
  unfold fetch_html, try_except, bind, requests_get, raise_for_status.
  destruct (net w (length (requests w)) url) as [reason|status body]; [done|].
  cbn [fst snd]. destruct ((400 <=? status) && (status <? 600)); reflexivity.
Qed.

Lemma fetch_html_files url w : files (snd (fetch_html url w)) = files w.
Proof.
  unfold fetch_html, try_except, bind, requests_get, raise_for_status.
  destruct (net w (length (requests w)) url) as [reason|status body]; [done|].
  cbn [fst snd]. destruct ((400 <=? status) && (status <? 600)); reflexivity.
Qed.

Lemma fetch_html_ok url w html w1 :
  fetch_html url w = (Ok html, w1) ->
  exists status, net w (length (requests w)) url = Reply status html.
Proof.
  unfold fetch_html, try_except, bind, requests_get, raise_for_status.
  destruct (net w (length (requests w)) url) as [reason|status body]; [done|].
  cbn [fst snd]. destruct ((400 <=? status) && (status <? 600)); [done|].
  intros [= <- _]. by exists status.
Qed.

End Effects.

Module Adapters.
Import Str Py World Base Spec Effects.

(** ** The cap on the URLs of a listing *)

Lemma wmur_collect_bound anchors urls :
  length urls < Wmur.MAX_ARTICLES ->
  length (Wmur.collect anchors urls) <= Wmur.MAX_ARTICLES.
Proof.
  revert urls. induction anchors as [|href rest IH]; intros urls H; [simpl; lia|].
  cbn [Wmur.collect]. destruct href as [|c href]; [by apply IH|]. cbv zeta.
  generalize (if startswith (lit "/") (c :: href)
              then Wmur.BASE_URL ++ c :: href else c :: href).
  intros h.
  destruct (negb (startswith _ _)); [by apply IH|].
  destruct (negb (contains _ _)); [by apply IH|].
  destruct (contains_any _ _); [by apply IH|].
  destruct (bool_decide _); [by apply IH|].
  destruct (_ <=? _) eqn:E.
  - rewrite length_app. simpl. unfold Wmur.MAX_ARTICLES in *. lia.
  - apply IH. by apply Nat.leb_gt in E.
Qed.

Section Listing.
Variable urljoin : list ascii -> list ascii -> list ascii.
Variable BASE_URL : list ascii.
Variable MAX_ARTICLES : nat.

Lemma url_collect_bound target_date anchors urls :
  length urls < MAX_ARTICLES ->
  length (UrlDate.collect urljoin BASE_URL MAX_ARTICLES target_date anchors urls)
  <= MAX_ARTICLES.
Proof.
  revert urls. induction anchors as [|href rest IH]; intros urls H; [simpl; lia|].
  cbn [UrlDate.collect]. destruct href as [|c href]; [by apply IH|]. cbv zeta.
  generalize (if startswith (lit "/") (c :: href)
              then urljoin BASE_URL (c :: href) else c :: href).
  intros h.
  destruct (negb (startswith _ _)); [by apply IH|].
  destruct (UrlDate.url_date h) as [[d|e]|]; [|by apply IH..].
  destruct (negb (bool_decide _)); [by apply IH|].
  destruct (bool_decide _); [by apply IH|].
  destruct (_ <=? _) eqn:E.
  - rewrite length_app. simpl. lia.
  - apply IH. by apply Nat.leb_gt in E.
Qed.

End Listing.

Lemma wmur_candidates_bound w urls w' :
  Wmur.get_candidate_urls w = (Ok urls, w') -> length urls <= 60.
Proof.
  unfold Wmur.get_candidate_urls, bind, ret.
  destruct (fetch_html Wmur.LOCAL_NEWS_URL w) as [[html|e] w1]; [|done].
  intros [= <- _]. apply wmur_collect_bound. unfold Wmur.MAX_ARTICLES. simpl. lia.
Qed.

Lemma wcax_urls_bound urljoin d w urls w' :
  Wcax.get_urls_for_date urljoin d w = (Ok urls, w') -> length urls <= 60.
Proof.
  unfold Wcax.get_urls_for_date, bind, ret.
  destruct (fetch_html Wcax.NEWS_URL w) as [[html|e] w1]; [|done].
  intros [= <- _]. apply url_collect_bound. unfold Wcax.MAX_ARTICLES. simpl. lia.
Qed.

Lemma vtdigger_urls_bound urljoin d w urls w' :
  Vtdigger.get_urls_for_date urljoin d w = (Ok urls, w') -> length urls <= 60.
Proof.
  unfold Vtdigger.get_urls_for_date, bind, ret.
  destruct (fetch_html Vtdigger.BASE_URL w) as [[html|e] w1]; [|done].
  intros [= <- _]. apply url_collect_bound. unfold Vtdigger.MAX_ARTICLES. simpl. lia.
Qed.

(** ** The date check of mykeenenow *)

(** One turn of the loop: it does not raise, it keeps the list or adds the
    URL, and it sends one request. *)
Lemma date_check_turn (target_date : date) (u : list ascii) (valid_urls : list (list ascii)) w :
  exists v w1,
    try_except
      (do art_html <- fetch_html u;
       match DATE_PATTERN_search (page_text (soup_of art_html)) with
       | Some m =>
           do d <- lift (parse_us_date_string m);
           ret (if bool_decide (d = Some target_date)
                then valid_urls ++ [u] else valid_urls)
       | None => ret valid_urls
       end)
      any_exception
      (fun e =>
         log_to "Scraper" WARNING
           (lit "[MyKeeneNow] Failed to check date for " ++ u ++ lit ": " ++ text e) ;;
         ret valid_urls) w = (Ok v, w1)
    /\ (v = valid_urls \/ v = valid_urls ++ [u])
    /\ requests w1 = requests w ++ [u].
Proof.
  pose proof (fetch_html_requests u w) as Hr.
  unfold try_except, bind at 1.
  destruct (fetch_html u w) as [[html|e] w1]; simpl in Hr.
  - destruct (DATE_PATTERN_search _) as [m|].
    + unfold bind, lift, ret.
      destruct (parse_us_date_string m) as [d|e].
      * eexists _, _. split; [done|]. split; [|done].
        destruct (bool_decide _); auto.
      * unfold any_exception, log_to. eexists _, _. split; [done|]. by split; [left|].
    + unfold ret. eexists _, _. split; [done|]. by split; [left|].
  - unfold any_exception, bind, log_to, ret.
    eexists _, _. split; [done|]. by split; [left|].
Qed.

Lemma date_check_loop_spec target_date candidates valid_urls w :
  length valid_urls <= 60 ->
  exists urls w',
    Mykeenenow.date_check_loop target_date candidates valid_urls w = (Ok urls, w')
    /\ length urls <= 60
    /\ length (requests w') <= length (requests w) + length candidates.
Proof.
  revert valid_urls w. induction candidates as [|u rest IH]; intros valid_urls w H.
  { eexists _, _. split; [done|]. simpl. split; lia. }
  cbn [Mykeenenow.date_check_loop].
  destruct (_ <=? _) eqn:E.
  { eexists _, _. split; [done|]. simpl. split; lia. }
  apply Nat.leb_gt in E. unfold Mykeenenow.MAX_ARTICLES in E.
  unfold bind at 1.
  destruct (date_check_turn target_date u valid_urls w) as (v & w1 & -> & Hv & Hr).
  destruct (IH v w1) as (urls & w' & -> & Hl & Hq).
  { destruct Hv as [->| ->]; [lia|]. rewrite length_app. simpl. lia. }
  eexists _, _. split; [done|]. split; [done|].
  rewrite Hr, length_app in Hq. simpl in *. lia.
Qed.

Lemma mykeenenow_urls_bound urljoin d w urls w' :
  Mykeenenow.get_urls_for_date urljoin d w = (Ok urls, w') -> length urls <= 60.
Proof.
  unfold Mykeenenow.get_urls_for_date, bind.
  destruct (fetch_html Mykeenenow.NEWS_URL w) as [[html|e] w1]; [|done].
  destruct (date_check_loop_spec d
              (Mykeenenow.candidates_of urljoin (hrefs (soup_of html)) []) [] w1)
    as (urls' & w2 & -> & Hl & _); [simpl; lia|].
  by intros [= <- _].
Qed.

(** ** The pages that wmur fetches *)

Lemma wmur_scrape_article_requests url d w :
  requests (snd (Wmur.scrape_article url d w)) = requests w ++ [url].
Proof.
  pose proof (fetch_html_requests url w) as Hr.
  unfold Wmur.scrape_article, bind at 1.
  destruct (fetch_html url w) as [[html|e] w1]; simpl in Hr; [|done]. cbv zeta.
  destruct (_ || _); [done|]. unfold bind, lift, ret.
  destruct (DATE_PATTERN_search _); [|done].
  by destruct (parse_us_date_string _).
Qed.

(** One turn of the loop of [scrape]: it does not raise, it sends one
    request, and what it adds is an article of the target date. *)
Lemma wmur_turn target_date url valid_articles w :
  exists v w1,
    try_except
      (do art <- Wmur.scrape_article url target_date;
       ret match art with
           | Some a => if bool_decide (date_of a = Some target_date)
                       then valid_articles ++ [a] else valid_articles
           | None => valid_articles
           end)
      any_exception
      (fun e =>
         log_to "Scraper" ERROR
           (lit "[WMUR] Failed to scrape " ++ url ++ lit ": " ++ text e) ;;
         ret valid_articles) w = (Ok v, w1)
    /\ requests w1 = requests w ++ [url]
    /\ (v = valid_articles
        \/ exists a, v = valid_articles ++ [a] /\ date_of a = Some target_date).
Proof.
  pose proof (wmur_scrape_article_requests url target_date w) as Hr.
  unfold try_except, bind at 1.
  destruct (Wmur.scrape_article url target_date w) as [[[a|]|e] w1]; simpl in Hr.
  - unfold ret. eexists _, _. split; [done|]. split; [done|].
    case_bool_decide; [right; by exists a|by left].
  - unfold ret. eexists _, _. split; [done|]. split; [done|]. by left.
  - unfold any_exception, bind, log_to, ret.
    eexists _, _. split; [done|]. split; [done|]. by left.
Qed.

Lemma wmur_scrape_loop_spec target_date candidates valid_articles w :
  exists articles w',
    Wmur.scrape_loop target_date candidates valid_articles w = (Ok articles, w')
    /\ requests w' = requests w ++ candidates
    /\ (Forall (fun a => date_of a = Some target_date) valid_articles ->
        Forall (fun a => date_of a = Some target_date) articles).
Proof.
  revert valid_articles w. induction candidates as [|url rest IH]; intros acc w.
  { eexists _, _. split; [done|]. simpl. by rewrite app_nil_r. }
  cbn [Wmur.scrape_loop]. unfold bind at 1.
  destruct (wmur_turn target_date url acc w) as (v & w1 & -> & Hr & Hv).
  destruct (IH v w1) as (articles & w' & -> & Hq & Hall).
  eexists _, _. split; [done|]. split.
  - rewrite Hq, Hr, <- app_assoc. done.
  - intros Hacc. apply Hall. destruct Hv as [->|(a & -> & Ha)]; [done|].
    apply Forall_app. split; [done|]. by constructor.
Qed.

Lemma wmur_scrape_requests target_date w :
  length (requests (snd (Wmur.scrape target_date w))) <= length (requests w) + 1 + 60.
Proof.
  unfold Wmur.scrape, bind.
  pose proof (wmur_candidates_bound w) as Hb.
  assert (Hr : requests (snd (Wmur.get_candidate_urls w))
               = requests w ++ [Wmur.LOCAL_NEWS_URL]).
  { unfold Wmur.get_candidate_urls, bind, ret.
    pose proof (fetch_html_requests Wmur.LOCAL_NEWS_URL w) as H.
    by destruct (fetch_html Wmur.LOCAL_NEWS_URL w) as [[html|e] w1]. }
  destruct (Wmur.get_candidate_urls w) as [[candidates|e] w1]; simpl in Hr.
  - specialize (Hb candidates w1 eq_refl).
    destruct (wmur_scrape_loop_spec target_date candidates [] w1)
      as (articles & w' & -> & Hq & _).
    simpl. rewrite Hq, Hr, !length_app. simpl. lia.
  - simpl. rewrite Hr, length_app. simpl. lia.
Qed.

(** ** The pages that the date check of mykeenenow fetches *)

Lemma candidates_of_length urljoin anchors candidates :
  length (Mykeenenow.candidates_of urljoin anchors candidates)
  <= length candidates + length anchors.
Proof.
  revert candidates. induction anchors as [|href rest IH]; intros candidates;
    [simpl; lia|].
  cbn [Mykeenenow.candidates_of]. destruct href as [|c href].
  { specialize (IH candidates). simpl. lia. }
  cbv zeta.
  generalize (if startswith (lit "/") (c :: href)
              then urljoin Mykeenenow.BASE_URL (c :: href) else c :: href).
  intros h. pose proof (IH candidates). pose proof (IH (candidates ++ [h])) as H2.
  rewrite length_app in H2. cbn [length] in *.
  destruct (negb (startswith _ _)); [lia|].
  destruct (negb (contains _ _)); [lia|].
  destruct (bool_decide _); lia.
Qed.

Lemma mykeenenow_pages_scanned urljoin target_date w :
  pages_scanned urljoin target_date w <= links_served w Mykeenenow.NEWS_URL.
Proof.
  unfold pages_scanned, links_served, Mykeenenow.get_urls_for_date, bind.
  pose proof (fetch_html_requests Mykeenenow.NEWS_URL w) as Hr.
  pose proof (fetch_html_ok Mykeenenow.NEWS_URL w) as Hok.
  destruct (fetch_html Mykeenenow.NEWS_URL w) as [[html|e] w1]; simpl in Hr.
  - destruct (Hok html w1 eq_refl) as [status ->].
    destruct (date_check_loop_spec target_date
                (Mykeenenow.candidates_of urljoin (hrefs (soup_of html)) []) [] w1)
      as (urls & w' & -> & _ & Hq); [simpl; lia|].
    pose proof (candidates_of_length urljoin (hrefs (soup_of html)) []) as Hc.
    rewrite Hr, length_app in Hq. simpl in *. lia.
  - simpl. rewrite Hr, length_app. simpl. lia.
Qed.

(** C9, amended: the URL discovery of each of the four HTML adapters
    returns at most 60 URLs, and a run of wmur fetches at most 60 candidate
    pages after its listing; the date check of mykeenenow stops when 60
    pages have matched and can fetch as many pages as the listing has
    links. *)
Theorem discovery_capped :
  (forall w urls w',
      Wmur.get_candidate_urls w = (Ok urls, w') -> length urls <= 60)
  /\ (forall urljoin d w urls w',
         Wcax.get_urls_for_date urljoin d w = (Ok urls, w') -> length urls <= 60)
  /\ (forall urljoin d w urls w',
         Vtdigger.get_urls_for_date urljoin d w = (Ok urls, w') -> length urls <= 60)
  /\ (forall urljoin d w urls w',
         Mykeenenow.get_urls_for_date urljoin d w = (Ok urls, w') -> length urls <= 60)
  /\ (forall d w,
         length (requests (snd (Wmur.scrape d w))) <= length (requests w) + 1 + 60)
  /\ (forall urljoin d w,
         pages_scanned urljoin d w <= links_served w Mykeenenow.NEWS_URL).
Proof.
  split_and!.
  - apply wmur_candidates_bound.
  - apply wcax_urls_bound.
  - apply vtdigger_urls_bound.
  - apply mykeenenow_urls_bound.
  - apply wmur_scrape_requests.
  - apply mykeenenow_pages_scanned.
Qed.

Lemma discovery_capped_witness :
  exists urls w',
    Wmur.get_candidate_urls (Scenario.fresh Scenario.gallery_network) = (Ok urls, w')
    /\ length urls <= 60.
Proof.
  eexists _, _. split; [vm_compute; reflexivity|].
  eapply (proj1 discovery_capped (Scenario.fresh Scenario.gallery_network)).
  vm_compute. reflexivity.
Defined.

(** The date check of mykeenenow fetches all 61 pages of a listing with 61
    links when none of them shows the date. *)
Lemma mykeenenow_scans_past_the_cap :
  pages_scanned Scenario.simple_urljoin Scenario.june_1
    (Scenario.fresh Scenario.undated_network) = 61
  /\ ~ (pages_scanned Scenario.simple_urljoin Scenario.june_1
          (Scenario.fresh Scenario.undated_network) <= 60).
Proof.
  assert (H : pages_scanned Scenario.simple_urljoin Scenario.june_1
                (Scenario.fresh Scenario.undated_network) = 61)
    by (vm_compute; reflexivity).
  split; [done|]. rewrite H. lia.
Qed.

(** ** The date and the paragraphs of what is returned *)

(** C1 at its failing input: the story shows June 1 when mykeenenow checks
    its date and June 2 when the page is fetched again for extraction; the
    article comes back with June 2 for the target date June 1. *)
Lemma mykeenenow_returns_other_date :
  exists a w',
    Mykeenenow.scrape Scenario.simple_urljoin Scenario.june_1
      (Scenario.fresh Scenario.changing_network) = (Ok [a], w')
    /\ date_of a = Some (Date 2025 6 2)
    /\ date_of a <> Some Scenario.june_1.
Proof.
  eexists _, _. split; [vm_compute; reflexivity|]. split; [reflexivity|]. intros [=].
Qed.

(** C2 at its failing input: a page of the target date without a
    paragraph; wmur returns its article with no paragraph. *)
Lemma wmur_returns_empty_article :
  exists a w',
    Wmur.scrape Scenario.june_1 (Scenario.fresh Scenario.gallery_network) = (Ok [a], w')
    /\ date_of a = Some Scenario.june_1
    /\ paragraphs a = [].
Proof.
  eexists _, _. split; [vm_compute; reflexivity|]. split; reflexivity.
Qed.

(** ** The request of the two JSON adapters *)

Lemma api_request_fails cfg w :
  request_fails w (Blox.SEARCH_API_URL cfg ++ lit "?" ++ Blox.query cfg) ->
  exists w', Blox.api_request cfg w = (Ok None, w').
Proof.
  unfold request_fails, Blox.api_request, try_except, bind, requests_get,
    raise_for_status.
  destruct (net w _ _) as [reason|status body].
  - intros _. unfold any_exception, log_to, ret. by eexists.
  - cbn [fst snd]. intros [H|H].
    + replace ((400 <=? status) && (status <? 600)) with true.
      * unfold raise, any_exception, log_to, ret. by eexists.
      * symmetry. apply andb_true_iff. split; [apply Nat.leb_le|apply Nat.ltb_lt]; lia.
    + destruct ((400 <=? status) && (status <? 600)).
      * unfold raise, any_exception, log_to, ret. by eexists.
      * unfold ret at 1. rewrite H. unfold raise, any_exception, log_to, ret. by eexists.
Qed.

Lemma blox_scrape_fails urljoin find_all_p py_repr cfg d w :
  request_fails w (Blox.SEARCH_API_URL cfg ++ lit "?" ++ Blox.query cfg) ->
  exists w', Blox.scrape urljoin find_all_p py_repr cfg d w = (Ok [], w').
Proof.
  intros H. destruct (api_request_fails cfg w H) as [w' Hw].
  unfold Blox.scrape, bind. rewrite Hw. by eexists.
Qed.

(** C10, amended: when the search request of keenesentinel or reformer
    fails (no answer, a status from 400 to 599, or a body that is not
    JSON), [scrape] returns the empty list and does not raise. *)
Theorem api_failure_gives_empty_list :
  (forall urljoin find_all_p py_repr d w,
      request_fails w (Blox.SEARCH_API_URL Keenesentinel.cfg ++ lit "?"
                       ++ Blox.query Keenesentinel.cfg) ->
      exists w', Keenesentinel.scrape urljoin find_all_p py_repr d w = (Ok [], w'))
  /\ (forall cookie urljoin find_all_p py_repr d w,
         request_fails w (Blox.SEARCH_API_URL Reformer.cfg ++ lit "?"
                          ++ Blox.query Reformer.cfg) ->
         exists w', Reformer.scrape cookie urljoin find_all_p py_repr d w = (Ok [], w')).
Proof.
  split.
  - intros. by apply blox_scrape_fails.
  - intros cookie urljoin find_all_p py_repr d w H. unfold Reformer.scrape.
    destruct (contains _ cookie); [by eexists|]. by apply blox_scrape_fails.
Qed.

Lemma api_failure_gives_empty_list_witness :
  exists w',
    Keenesentinel.scrape Scenario.simple_urljoin (fun html => [html])
      (fun _ => lit "<value>") Scenario.june_1
      (Scenario.fresh Scenario.dead_network) = (Ok [], w').
Proof.
  apply (proj1 api_failure_gives_empty_list). exact I.
Defined.

(** An answer of status 200 whose JSON is an array: [data.get] raises
    outside the [try] and [scrape] raises with it. *)
Lemma json_array_makes_scrape_raise :
  exists e w',
    Keenesentinel.scrape Scenario.simple_urljoin (fun html => [html])
      (fun _ => lit "<value>") Scenario.june_1
      (Scenario.fresh Scenario.array_network) = (Raise e, w')
    /\ kind e = AttributeError.
Proof. eexists _, _. split; [vm_compute; reflexivity|reflexivity]. Qed.

End Adapters.

Module Drivers.
Import Str Py World Base Spec Driver.

(** The handler of app.py returns at once: a site never makes the
    manual run raise, and the driver adds no record to the log. *)
Lemma scrape_manually_step_silent L d s w :
  (exists w', scrape_manually_step L d s w = (Ok tt, w'))
  /\ snd (scrape_manually_step L d s w) = snd (scrape_and_save L d s w).
Proof.
  unfold scrape_manually_step, try_except.
  destruct (scrape_and_save L d s w) as [[[]|e] w1]; split; try done; by eexists.
Qed.

(** C8 on the code: whatever a site does, the step of the manual run of
    app.py returns normally and leaves the world as the adapter and the
    writer left it, so the driver itself logs nothing. When no site
    answers, the manual run returns, writes no file, and the six records of
    the log are those of the fetcher and of the two JSON adapters, all of
    the logger Scraper; the loop of the command line adds a record of the
    logger Main for each of the four HTML sites. *)
Theorem manual_run_swallows_failures :
  (forall L d s w,
      (exists w', scrape_manually_step L d s w = (Ok tt, w'))
      /\ snd (scrape_manually_step L d s w) = snd (scrape_and_save L d s w))
  /\ (exists w',
        scrape_manually Scenario.toy_library Scenario.june_1
          (Scenario.fresh Scenario.dead_network) = (Ok tt, w')
        /\ files w' = ∅
        /\ length (log w') = 6
        /\ Forall (fun r => logger_name r = lit "Scraper") (log w'))
  /\ (exists w',
        main_loop Scenario.toy_library Scenario.june_1 AVAILABLE_SCRAPERS
          (Scenario.fresh Scenario.dead_network) = (Ok tt, w')
        /\ length (List.filter (fun r => bool_decide (logger_name r = lit "Main"))
                               (log w')) = 4).
Proof.
  split; [apply scrape_manually_step_silent|]. split.
  - eexists. split; [vm_compute; reflexivity|]. split; [reflexivity|].
    split; [reflexivity|]. by repeat constructor.
  - eexists. split; [vm_compute; reflexivity|]. vm_compute. reflexivity.
Qed.

End Drivers.

Module Archive.
Import Str Py World Base Spec.

(** ** A free name is free *)

Lemma free_name_free taken fuel filename name :
  free_name taken fuel filename = Some name -> taken name = false.
Proof.
  unfold free_name. destruct (taken filename) eqn:E.
  - intros H. by apply Collision.probe_spec in H as (k & _ & -> & H & _).
  - by intros [= <-].
Qed.

(** What saving one article does to the world: nothing when it raises,
    one write to a path that held no file when it returns. *)
Lemma save_article_effect site_slug dir a w :
  (exists e, save_article site_slug dir a w = (Raise e, w))
  \/ (exists name text,
        files w !! in_dir dir name = None
        /\ save_article site_slug dir a w = write_text (in_dir dir name) text w).
Proof.
  unfold save_article, bind, lift, get_world.
  destruct (filename_of (title_or_untitled a)) as [f|e]; [|left; by eexists].
  destruct (free_name _ _ f) as [name|] eqn:E; [|left; by eexists].
  destruct (article_text a site_slug) as [text|e]; [|left; by eexists].
  right. exists name, text. split; [|done].
  apply free_name_free in E. by apply Collision.taken_in_false.
Qed.

Lemma for_each_save_effect site_slug dir articles w :
  files w ⊆ files (snd (for_each articles (save_article site_slug dir) w))
  /\ (fst (for_each articles (save_article site_slug dir) w) = Ok tt ->
      size (files (snd (for_each articles (save_article site_slug dir) w)))
      = size (files w) + length articles).
Proof.
  revert w. induction articles as [|a rest IH]; intros w.
  { simpl. split; [done|]. intros _. lia. }
  cbn [for_each]. unfold bind.
  destruct (save_article_effect site_slug dir a w) as [[e ->]|(name & text & Hfree & ->)].
  { split; [done|]. by intros [=]. }
  unfold write_text at 1 2 3.
  set (w1 := {| net := net w; requests := requests w; log := log w;
                files := <[in_dir dir name := text]> (files w);
                ROOT_DIR := ROOT_DIR w |}).
  destruct (IH w1) as [Hsub Hsize]. split.
  - etrans; [|exact Hsub]. simpl. by apply insert_subseteq.
  - intros Hok. rewrite (Hsize Hok). simpl.
    rewrite map_size_insert_None by done. simpl. lia.
Qed.

(** ** The order of [sorted] on strings *)

Lemma code_inj c d : code c = code d -> c = d.
Proof.
  unfold code. intros H.
  by rewrite <- (ascii_nat_embedding c), <- (ascii_nat_embedding d), H.
Qed.

Lemma str_ltb_irrefl a : str_ltb a a = false.
Proof.
  induction a as [|c a IH]; [done|]. simpl.
  by rewrite Nat.ltb_irrefl.
Qed.

Lemma str_ltb_trans a b c : str_lt a b -> str_lt b c -> str_lt a c.
Proof.
  unfold str_lt. revert b c. induction a as [|x a IH]; intros [|y b] [|z c]; try done.
  simpl. destruct (code x <? code y) eqn:Exy.
  - apply Nat.ltb_lt in Exy. intros _.
    destruct (code y <? code z) eqn:Eyz.
    + apply Nat.ltb_lt in Eyz. intros _.
      replace (code x <? code z) with true; [done|]. symmetry. apply Nat.ltb_lt. lia.
    + destruct (code z <? code y) eqn:Ezy; [done|].
      apply Nat.ltb_ge in Eyz, Ezy. intros _.
      replace (code x <? code z) with true; [done|]. symmetry. apply Nat.ltb_lt. lia.
  - destruct (code y <? code x) eqn:Eyx; [done|].
    apply Nat.ltb_ge in Exy, Eyx. intros Hab.
    destruct (code y <? code z) eqn:Eyz.
    + apply Nat.ltb_lt in Eyz. intros _.
      replace (code x <? code z) with true; [done|]. symmetry. apply Nat.ltb_lt. lia.
    + destruct (code z <? code y) eqn:Ezy; [done|].
      apply Nat.ltb_ge in Eyz, Ezy. intros Hbc.
      replace (code x <? code z) with false by (symmetry; apply Nat.ltb_ge; lia).
      replace (code z <? code x) with false by (symmetry; apply Nat.ltb_ge; lia).
      by eapply IH.
Qed.

Lemma str_ltb_total a b : str_ltb a b = false -> str_ltb b a = false -> a = b.
Proof.
  revert b. induction a as [|x a IH]; intros [|y b]; try done.
  simpl. destruct (code x <? code y) eqn:Exy; [done|].
  destruct (code y <? code x) eqn:Eyx; [done|].
  apply Nat.ltb_ge in Exy, Eyx. intros H1 H2.
  f_equal; [apply code_inj; lia|by apply IH].
Qed.

(** ** [sorted({...})] *)

Lemma insert_sorted_elem x l z : z ∈ insert_sorted x l <-> z = x \/ z ∈ l.
Proof.
  induction l as [|y l IH]; simpl.
  { rewrite list_elem_of_singleton, elem_of_nil. tauto. }
  destruct (str_ltb x y) eqn:E1.
  { by rewrite elem_of_cons. }
  destruct (str_ltb y x) eqn:E2.
  { rewrite !elem_of_cons, IH. tauto. }
  rewrite (str_ltb_total x y E1 E2). rewrite elem_of_cons. tauto.
Qed.

Lemma insert_sorted_sorted x l :
  StronglySorted str_lt l -> StronglySorted str_lt (insert_sorted x l).
Proof.
  induction 1 as [|y l Hl IH Hy]; simpl.
  { by repeat constructor. }
  destruct (str_ltb x y) eqn:E1.
  { constructor; [by constructor|]. constructor; [done|].
    eapply Forall_impl; [exact Hy|]. intros z Hz. by eapply str_ltb_trans. }
  destruct (str_ltb y x) eqn:E2; [|by constructor].
  constructor; [done|]. apply Forall_forall. intros z Hz.
  apply insert_sorted_elem in Hz as [->|Hz]; [done|].
  by eapply Forall_forall in Hy.
Qed.

Lemma sorted_set_elem l z : z ∈ sorted_set l <-> z ∈ l.
Proof.
  unfold sorted_set. induction l as [|x l IH]; simpl; [done|].
  rewrite insert_sorted_elem, elem_of_cons, IH. tauto.
Qed.

Lemma sorted_set_sorted l : StronglySorted str_lt (sorted_set l).
Proof.
  unfold sorted_set. induction l as [|x l IH]; simpl; [constructor|].
  by apply insert_sorted_sorted.
Qed.

(** ** The batch *)

Lemma save_articles_unfold site_slug target_date a rest w :
  save_articles site_slug target_date (a :: rest) w
  = for_each (a :: rest)
      (save_article site_slug (output_dir (ROOT_DIR w) target_date site_slug))
      {| net := net w; requests := requests w; log := log w;
         files := <[url_list_path (ROOT_DIR w) site_slug target_date
                    := json_dumps
                         (sorted_set
                            (List.filter (fun u => match u with [] => false | _ => true end)
                                         (map url (a :: rest))))]> (files w);
         ROOT_DIR := ROOT_DIR w |}.
Proof. reflexivity. Qed.

(** Every file found in the archive, the URL list apart, is still there
    with the same content after a batch was saved, whether the call
    returned or raised: no article is written over an existing file. *)
Theorem save_articles_keeps_existing_files site_slug target_date articles w p t :
  files w !! p = Some t ->
  p <> url_list_path (ROOT_DIR w) site_slug target_date ->
  files (snd (save_articles site_slug target_date articles w)) !! p = Some t.
Proof.
  intros Hp Hne. destruct articles as [|a rest]; [done|].
  rewrite save_articles_unfold.
  eapply lookup_weaken; [|apply for_each_save_effect].
  simpl. by rewrite lookup_insert_ne.
Qed.

Lemma save_articles_keeps_existing_files_witness :
  files (snd (save_articles (lit "wmur") Scenario.june_1 [Scenario.meeting_article]
                Scenario.archived))
    !! lit "Stories/2025-06-01/wmur/Original/Town Meeting Update.txt"
  = Some (lit "kept").
Proof.
  apply save_articles_keeps_existing_files.
  - reflexivity.
  - intros [=].
Defined.

(** When a batch that is not empty has been saved, the archive holds one
    more file for each article of the batch, the URL list not counted. *)
Theorem save_articles_one_file_per_article site_slug target_date articles w w' :
  save_articles site_slug target_date articles w = (Ok tt, w') ->
  size (delete (url_list_path (ROOT_DIR w) site_slug target_date) (files w'))
  = size (delete (url_list_path (ROOT_DIR w) site_slug target_date) (files w))
    + length articles.
Proof.
  destruct articles as [|a rest].
  { intros [= <-]. simpl. lia. }
  rewrite save_articles_unfold. intros H.
  set (dir := output_dir (ROOT_DIR w) target_date site_slug) in *.
  set (w0 := {| net := net w |}) in *.
  destruct (for_each_save_effect site_slug dir (a :: rest) w0) as [Hsub Hsize].
  rewrite H in Hsub, Hsize. simpl fst in Hsize. simpl snd in *.
  specialize (Hsize eq_refl).
  set (m := url_list_path (ROOT_DIR w) site_slug target_date) in *.
  assert (Hm : is_Some (files w' !! m)).
  { eexists. eapply lookup_weaken; [|exact Hsub]. simpl. apply lookup_insert_eq. }
  destruct Hm as [x Hm].
  assert (S1 : size (files w') = S (size (delete m (files w')))).
  { rewrite <- (insert_delete_id (files w') m x) at 1 by done.
    rewrite map_size_insert_None by apply lookup_delete_eq. done. }
  assert (S0 : size (files w0) = S (size (delete m (files w)))).
  { simpl. rewrite <- insert_delete_eq.
    rewrite map_size_insert_None by apply lookup_delete_eq. done. }
  lia.
Qed.

Lemma save_articles_one_file_per_article_witness :
  size (delete (url_list_path (lit "Stories") (lit "wmur") Scenario.june_1)
          (files (snd (save_articles (lit "wmur") Scenario.june_1
                         [Scenario.meeting_article; Scenario.fire_article]
                         Scenario.archived))))
  = size (delete (url_list_path (lit "Stories") (lit "wmur") Scenario.june_1)
                 (files Scenario.archived)) + 2.
Proof.
  apply (save_articles_one_file_per_article (lit "wmur") Scenario.june_1
           [Scenario.meeting_article; Scenario.fire_article] Scenario.archived).
  assert (H : fst (save_articles (lit "wmur") Scenario.june_1
                     [Scenario.meeting_article; Scenario.fire_article]
                     Scenario.archived) = Ok tt)
    by (vm_compute; reflexivity).
  destruct (save_articles _ _ _ _) as [r w']. simpl in H. by rewrite H.
Defined.

(** The URL list of a batch that is not empty is written before any
    article and is there whether or not an article then fails: it lists
    the URLs of the batch that are not empty, each once, in increasing
    order. *)
Theorem save_articles_url_list site_slug target_date articles w :
  articles <> [] ->
  exists urls,
    files (snd (save_articles site_slug target_date articles w))
      !! url_list_path (ROOT_DIR w) site_slug target_date = Some (json_dumps urls)
    /\ StronglySorted str_lt urls
    /\ forall u, u ∈ urls <-> u <> [] /\ exists a, a ∈ articles /\ url a = u.
Proof.
  intros Hne. destruct articles as [|a rest]; [done|].
  rewrite save_articles_unfold.
  exists (sorted_set (List.filter (fun u => match u with [] => false | _ => true end)
                                  (map url (a :: rest)))).
  split_and!.
  - eapply lookup_weaken; [|apply for_each_save_effect]. apply lookup_insert_eq.
  - apply sorted_set_sorted.
  - intros u. rewrite sorted_set_elem. split.
    + intros H. apply list_elem_of_In, filter_In in H as [H Hu].
      apply in_map_iff in H as (b & <- & Hb). apply list_elem_of_In in Hb.
      split; [by destruct (url b)|]. by exists b.
    + intros [Hu (b & Hb & <-)]. apply list_elem_of_In, filter_In. split.
      * apply in_map_iff. exists b. split; [done|]. by apply list_elem_of_In.
      * by destruct (url b).
Qed.

Lemma save_articles_url_list_witness :
  exists urls,
    files (snd (save_articles (lit "wmur") Scenario.june_1
                  [Scenario.meeting_article; Scenario.fire_article]
                  (Scenario.fresh Scenario.dead_network)))
      !! url_list_path (lit "Stories") (lit "wmur") Scenario.june_1
    = Some (json_dumps urls)
    /\ StronglySorted str_lt urls
    /\ forall u, u ∈ urls <->
                 u <> [] /\ exists a, a ∈ [Scenario.meeting_article; Scenario.fire_article]
                                     /\ url a = u.
Proof.
  apply (save_articles_url_list (lit "wmur") Scenario.june_1
           [Scenario.meeting_article; Scenario.fire_article]
           (Scenario.fresh Scenario.dead_network)).
  discriminate.
Defined.

(** ** Titles that are not text *)

Lemma save_article_raises_type_error site_slug dir a w e w' :
  save_article site_slug dir a w = (Raise e, w') -> kind e = TypeError.
Proof.
  unfold save_article, bind, lift, get_world.
  destruct (filename_of (title_or_untitled a)) as [f|e0] eqn:Ef.
  - destruct (Collision.free_name_enough (files w) dir f) as [name ->].
    destruct (article_text a site_slug) as [text|e1] eqn:Et; [done|].
    intros [= <- _]. unfold article_text in Et.
    by destruct (title_or_untitled a); inversion Et.
  - intros [= <- _]. unfold filename_of in Ef.
    destruct (truthy _); [|done]. by destruct (title_or_untitled a); inversion Ef.
Qed.

Lemma save_article_bad_title site_slug dir a w :
  truthy (title a) = true -> (forall s, title a <> JStr s) ->
  exists e, save_article site_slug dir a w = (Raise e, w).
Proof.
  intros Ht Hs. unfold save_article, bind, lift, title_or_untitled, py_or, filename_of.
  rewrite Ht, Ht. destruct (title a) as [| | | |s| |] eqn:E; try by eexists.
  by destruct (Hs s).
Qed.

Lemma for_each_save_bad_title site_slug dir articles a w :
  a ∈ articles -> truthy (title a) = true -> (forall s, title a <> JStr s) ->
  exists e w',
    for_each articles (save_article site_slug dir) w = (Raise e, w')
    /\ kind e = TypeError.
Proof.
  intros Ha Ht Hs. revert w. induction articles as [|b rest IH]; intros w.
  { by apply elem_of_nil in Ha. }
  cbn [for_each]. unfold bind.
  destruct (save_article site_slug dir b w) as [[[]|e] w1] eqn:E.
  - apply elem_of_cons in Ha as [->|Ha]; [|by apply IH].
    destruct (save_article_bad_title site_slug dir b w Ht Hs) as [e He]. congruence.
  - exists e, w1. split; [done|]. by eapply save_article_raises_type_error.
Qed.

(** A batch that holds an article whose title is a true value other than
    text (a number, a list or an object of the decoded JSON) makes
    [save_articles] raise a TypeError. *)
Theorem save_articles_rejects_other_titles site_slug target_date articles a w :
  a ∈ articles -> truthy (title a) = true -> (forall s, title a <> JStr s) ->
  exists e w',
    save_articles site_slug target_date articles w = (Raise e, w')
    /\ kind e = TypeError.
Proof.
  intros Ha Ht Hs. destruct articles as [|b rest]; [by apply elem_of_nil in Ha|].
  rewrite save_articles_unfold. by eapply for_each_save_bad_title.
Qed.

Lemma save_articles_rejects_other_titles_witness :
  exists e w',
    save_articles (lit "keenesentinel") Scenario.june_1
      [Scenario.meeting_article; Scenario.listed_title_article]
      (Scenario.fresh Scenario.dead_network) = (Raise e, w')
    /\ kind e = TypeError.
Proof.
  apply (save_articles_rejects_other_titles _ _ _ Scenario.listed_title_article).
  - apply elem_of_cons. right. apply elem_of_cons. by left.
  - reflexivity.
  - intros s [=].
Defined.

End Archive.

Module Returned.
Import Str Py World Base Spec Effects.

(** ** wmur *)

(** Every article that [scrape] of wmur returns carries the target date:
    the comparison of line 144 is made on the article that is returned. *)
Theorem wmur_scrape_target_date target_date w articles w' :
  Wmur.scrape target_date w = (Ok articles, w') ->
  Forall (fun a => date_of a = Some target_date) articles.
Proof.
  unfold Wmur.scrape, bind.
  destruct (Wmur.get_candidate_urls w) as [[candidates|e] w1]; [|done].
  destruct (Adapters.wmur_scrape_loop_spec target_date candidates [] w1)
    as (arts & w2 & -> & _ & H).
  intros [= <- _]. by apply H.
Qed.

Lemma wmur_scrape_target_date_witness :
  Forall (fun a => date_of a = Some Scenario.june_1)
    (match fst (Wmur.scrape Scenario.june_1 (Scenario.fresh Scenario.gallery_network)) with
     | Ok articles => articles
     | Raise _ => []
     end).
Proof.
  assert (H : exists articles w',
             Wmur.scrape Scenario.june_1 (Scenario.fresh Scenario.gallery_network)
             = (Ok articles, w')).
  { destruct (Wmur.scrape _ _) as [[articles|e] w'] eqn:E; [by eexists _, _|].
    apply (f_equal fst) in E. vm_compute in E. discriminate. }
  destruct H as (articles & w' & H). rewrite H. simpl.
  exact (wmur_scrape_target_date _ _ _ _ H).
Defined.

(** What the loop of [scrape] keeps was returned by [scrape_article]
    for one of the candidates and carries the target date. *)
Lemma wmur_scrape_loop_forall (P : Article -> Prop) target_date :
  (forall url w a w1,
      Wmur.scrape_article url target_date w = (Ok (Some a), w1) ->
      date_of a = Some target_date -> P a) ->
  forall candidates valid_articles w articles w',
    Wmur.scrape_loop target_date candidates valid_articles w = (Ok articles, w') ->
    Forall P valid_articles -> Forall P articles.
Proof.
  intros HP. induction candidates as [|url rest IH]; intros acc w articles w'.
  { by intros [= <- _]. }
  cbn [Wmur.scrape_loop]. unfold bind at 1. unfold try_except, bind at 1.
  destruct (Wmur.scrape_article url target_date w) as [[[a|]|e] w1] eqn:E.
  - unfold ret at 1. intros H Hacc. eapply IH; [exact H|].
    case_bool_decide; [|done].
    apply Forall_app. split; [done|]. constructor; [|done]. by eapply HP.
  - unfold ret at 1. intros H Hacc. by eapply IH.
  - unfold any_exception, bind, log_to, ret. intros H Hacc. by eapply IH.
Qed.

Lemma wmur_body_paragraphs_clean ps :
  Forall (fun t => t <> [] /\ contains_any Wmur.hard_stop_phrases (lower t) = false)
         (Wmur.body_paragraphs ps)
  /\ sublist (Wmur.body_paragraphs ps) ps.
Proof.
  induction ps as [|t rest [IH1 IH2]]; [split; constructor|].
  cbn [Wmur.body_paragraphs]. destruct t as [|c t].
  { split; [done|]. by constructor. }
  cbv zeta. destruct (contains_any Wmur.hard_stop_phrases _) eqn:E.
  { split; [constructor|apply sublist_nil_l]. }
  destruct (_ && _).
  - split; [done|]. by constructor.
  - split; [|by constructor]. constructor; [|done]. by split.
Qed.

Lemma wmur_body_paragraphs_stop pre t post :
  t <> [] -> contains_any Wmur.hard_stop_phrases (lower t) = true ->
  Wmur.body_paragraphs (pre ++ t :: post) = Wmur.body_paragraphs pre.
Proof.
  intros Hne Ht. induction pre as [|p pre IH].
  { simpl app. cbn [Wmur.body_paragraphs]. destruct t; [done|]. cbv zeta. by rewrite Ht. }
  rewrite <- app_comm_cons. cbn [Wmur.body_paragraphs]. destruct p as [|c p]; [exact IH|].
  cbv zeta. by rewrite IH.
Qed.

(** The body that wmur extracts: the paragraphs kept are texts of the
    page that are not empty, in the order of the page, none of them with
    a closing phrase of the station; and everything from the first
    paragraph with such a phrase on is dropped. *)
Theorem wmur_body_stops_at_closing_phrase :
  (forall ps,
      Forall (fun t => t <> [] /\ contains_any Wmur.hard_stop_phrases (lower t) = false)
             (Wmur.body_paragraphs ps)
      /\ sublist (Wmur.body_paragraphs ps) ps)
  /\ (forall pre t post,
         t <> [] -> contains_any Wmur.hard_stop_phrases (lower t) = true ->
         Wmur.body_paragraphs (pre ++ t :: post) = Wmur.body_paragraphs pre).
Proof. split; [apply wmur_body_paragraphs_clean|apply wmur_body_paragraphs_stop]. Qed.

Lemma wmur_body_stops_at_closing_phrase_witness :
  Wmur.body_paragraphs
    ([lit "Crews responded."]
     ++ lit "Subscribe to WMUR's YouTube channel" :: [lit "More news"])
  = Wmur.body_paragraphs [lit "Crews responded."].
Proof.
  apply (proj2 wmur_body_stops_at_closing_phrase); [done|reflexivity].
Defined.

Lemma strip_head s c : head (strip s) = Some c -> isspace c = false.
Proof.
  unfold strip. intros H.
  destruct (Sanitizer.rstrip_prefix (lstrip s)) as (t & Ht & _).
  apply (Sanitizer.lstrip_head s). rewrite Ht.
  by destruct (rstrip (lstrip s)).
Qed.

Lemma strip_strip s : strip (strip s) = strip s.
Proof. apply RoundTrip.strip_id; [apply strip_head|apply RoundTrip.strip_last]. Qed.

Lemma wmur_scrape_article_shape url target_date w a w1 :
  Wmur.scrape_article url target_date w = (Ok (Some a), w1) ->
  Base.url a = url
  /\ (exists t, title a = JStr t /\ strip t = t
                /\ contains (lit "wmur") (lower t) = false
                /\ contains (lit "hearst television news") (lower t) = false)
  /\ Forall (fun p => p <> []) (paragraphs a).
Proof.
  unfold Wmur.scrape_article, bind at 1.
  destruct (fetch_html url w) as [[html|e] w0]; [|done]. cbv zeta.
  destruct (_ || _) eqn:E; [done|]. apply orb_false_iff in E as [E1 E2].
  unfold bind, lift, ret.
  assert (G : Forall (fun p => p <> []) (Wmur.body_paragraphs (p_texts (soup_of html)))).
  { eapply Forall_impl; [apply wmur_body_paragraphs_clean|]. by intros p [? _]. }
  assert (T : strip (Wmur.extract_title (soup_of html)) = Wmur.extract_title (soup_of html)).
  { unfold Wmur.extract_title. apply strip_strip. }
  destruct (DATE_PATTERN_search _) as [m|].
  - destruct (parse_us_date_string m) as [pub|e]; [|done].
    intros [= <- _]. split; [done|]. split; [|apply G]. eexists. by split_and!.
  - intros [= <- _]. split; [done|]. split; [|apply G]. eexists. by split_and!.
Qed.

(** The articles that [scrape] of wmur returns have a title that is a
    text without whitespace at its ends and without the name of the
    station or of its owner (pages with such a title are promotions and
    are skipped), and none of their paragraphs is empty. *)
Theorem wmur_scrape_skips_station_titles target_date w articles w' :
  Wmur.scrape target_date w = (Ok articles, w') ->
  Forall (fun a =>
            (exists t, title a = JStr t /\ strip t = t
                       /\ contains (lit "wmur") (lower t) = false
                       /\ contains (lit "hearst television news") (lower t) = false)
            /\ Forall (fun p => p <> []) (paragraphs a)) articles.
Proof.
  unfold Wmur.scrape, bind.
  destruct (Wmur.get_candidate_urls w) as [[candidates|e] w1]; [|done].
  intros H. eapply wmur_scrape_loop_forall; [|exact H|constructor].
  intros url w0 a w2 Ha _.
  by apply wmur_scrape_article_shape in Ha as (_ & ? & ?).
Qed.

Lemma wmur_scrape_skips_station_titles_witness :
  Forall (fun a =>
            (exists t, title a = JStr t /\ strip t = t
                       /\ contains (lit "wmur") (lower t) = false
                       /\ contains (lit "hearst television news") (lower t) = false)
            /\ Forall (fun p => p <> []) (paragraphs a))
    (match fst (Wmur.scrape Scenario.june_1 (Scenario.fresh Scenario.station_network)) with
     | Ok articles => articles
     | Raise _ => []
     end).
Proof.
  assert (H : exists articles w',
             Wmur.scrape Scenario.june_1 (Scenario.fresh Scenario.station_network)
             = (Ok articles, w')).
  { destruct (Wmur.scrape _ _) as [[articles|e] w'] eqn:E; [by eexists _, _|].
    apply (f_equal fst) in E. vm_compute in E. discriminate. }
  destruct H as (articles & w' & H). rewrite H. simpl.
  exact (wmur_scrape_skips_station_titles _ _ _ _ H).
Defined.

(** ** The candidates of wmur *)

Lemma wmur_collect_candidates anchors urls :
  NoDup urls -> Forall wmur_candidate urls ->
  NoDup (Wmur.collect anchors urls) /\ Forall wmur_candidate (Wmur.collect anchors urls).
Proof.
  revert urls. induction anchors as [|href rest IH]; intros urls Hnd Hall; [done|].
  cbn [Wmur.collect]. destruct href as [|c href]; [by apply IH|]. cbv zeta.
  generalize (if startswith (lit "/") (c :: href)
              then Wmur.BASE_URL ++ c :: href else c :: href).
  intros h.
  destruct (startswith Wmur.BASE_URL h) eqn:E1; [|by apply IH].
  destruct (contains (lit "/article/") h) eqn:E2; [|by apply IH].
  destruct (contains_any Wmur.NON_NEWS_KEYWORDS (lower h)) eqn:E3; [by apply IH|].
  cbn [negb]. case_bool_decide as E4; [by apply IH|].
  assert (NoDup (urls ++ [h]) /\ Forall wmur_candidate (urls ++ [h])) as [Hnd' Hall'].
  { split.
    - apply NoDup_app. split_and!; [done| |apply NoDup_singleton].
      intros x Hx Hx'. apply list_elem_of_singleton in Hx'. by subst.
    - apply Forall_app. split; [done|]. by repeat constructor. }
  destruct (_ <=? _); [done|]. by apply IH.
Qed.

(** The URLs that [get_candidate_urls] of wmur returns are pairwise
    different, start with the address of the site, hold [/article/] and
    none of the words that mark pages which are not news. *)
Theorem wmur_candidates_are_news_articles w urls w' :
  Wmur.get_candidate_urls w = (Ok urls, w') ->
  NoDup urls
  /\ Forall (fun u => startswith Wmur.BASE_URL u = true
                      /\ contains (lit "/article/") u = true
                      /\ contains_any Wmur.NON_NEWS_KEYWORDS (lower u) = false) urls.
Proof.
  unfold Wmur.get_candidate_urls, bind, ret.
  destruct (fetch_html Wmur.LOCAL_NEWS_URL w) as [[html|e] w1]; [|done].
  intros [= <- _]. apply wmur_collect_candidates; constructor.
Qed.

Lemma wmur_candidates_are_news_articles_witness :
  NoDup (match fst (Wmur.get_candidate_urls (Scenario.fresh Scenario.station_network)) with
         | Ok urls => urls
         | Raise _ => []
         end)
  /\ Forall (fun u => startswith Wmur.BASE_URL u = true
                      /\ contains (lit "/article/") u = true
                      /\ contains_any Wmur.NON_NEWS_KEYWORDS (lower u) = false)
       (match fst (Wmur.get_candidate_urls (Scenario.fresh Scenario.station_network)) with
        | Ok urls => urls
        | Raise _ => []
        end).
Proof.
  assert (H : exists urls w',
             Wmur.get_candidate_urls (Scenario.fresh Scenario.station_network)
             = (Ok urls, w')).
  { destruct (Wmur.get_candidate_urls _) as [[urls|e] w'] eqn:E; [by eexists _, _|].
    apply (f_equal fst) in E. vm_compute in E. discriminate. }
  destruct H as (urls & w' & H). rewrite H. simpl.
  exact (wmur_candidates_are_news_articles _ _ _ H).
Defined.

(** ** wcax and vtdigger: the date in the URL *)

Section Listing.
Variable urljoin : list ascii -> list ascii -> list ascii.
Variable BASE_URL : list ascii.
Variable MAX_ARTICLES : nat.

Lemma url_collect_dated target_date anchors urls :
  NoDup urls ->
  Forall (fun u => startswith BASE_URL u = true
                   /\ UrlDate.url_date u = Some (Ok target_date)) urls ->
  NoDup (UrlDate.collect urljoin BASE_URL MAX_ARTICLES target_date anchors urls)
  /\ Forall (fun u => startswith BASE_URL u = true
                      /\ UrlDate.url_date u = Some (Ok target_date))
            (UrlDate.collect urljoin BASE_URL MAX_ARTICLES target_date anchors urls).
Proof.
  revert urls. induction anchors as [|href rest IH]; intros urls Hnd Hall; [done|].
  cbn [UrlDate.collect]. destruct href as [|c href]; [by apply IH|]. cbv zeta.
  generalize (if startswith (lit "/") (c :: href)
              then urljoin BASE_URL (c :: href) else c :: href).
  intros h.
  destruct (startswith BASE_URL h) eqn:E1; [|by apply IH]. cbn [negb].
  destruct (UrlDate.url_date h) as [[d|e]|] eqn:E2; [|by apply IH..].
  case_bool_decide as E3; [|by apply IH]. subst d. cbn [negb].
  case_bool_decide as E4; [by apply IH|].
  assert (NoDup (urls ++ [h])
          /\ Forall (fun u => startswith BASE_URL u = true
                              /\ UrlDate.url_date u = Some (Ok target_date))
                    (urls ++ [h])) as [Hnd' Hall'].
  { split.
    - apply NoDup_app. split_and!; [done| |apply NoDup_singleton].
      intros x Hx Hx'. apply list_elem_of_singleton in Hx'. by subst.
    - apply Forall_app. split; [done|]. by repeat constructor. }
  destruct (_ <=? _); [done|]. by apply IH.
Qed.

End Listing.

Lemma wcax_scrape_article_date url target_date w a w1 :
  UrlDate.url_date url = Some (Ok target_date) ->
  Wcax.scrape_article url target_date w = (Ok (Some a), w1) ->
  date_of a = Some target_date /\ Base.url a = url.
Proof.
  intros Hu. unfold Wcax.scrape_article, bind, ret.
  destruct (fetch_html url w) as [[html|e] w0]; [|done]. cbv zeta.
  destruct (contains_any Wcax.EXCLUDE_TITLES _); [done|].
  destruct (_ && _); [done|]. rewrite Hu. by intros [= <- _].
Qed.

Lemma wcax_scrape_loop_dated target_date urls articles w result w' :
  Forall (fun u => UrlDate.url_date u = Some (Ok target_date)) urls ->
  Wcax.scrape_loop target_date urls articles w = (Ok result, w') ->
  Forall (fun a => date_of a = Some target_date) articles ->
  Forall (fun a => date_of a = Some target_date) result.
Proof.
  intros Hu. revert articles w. induction Hu as [|u rest Hu _ IH]; intros acc w.
  { by intros [= <- _]. }
  cbn [Wcax.scrape_loop]. unfold bind at 1. unfold try_except, bind at 1.
  destruct (Wcax.scrape_article u target_date w) as [[[a|]|e] w1] eqn:E.
  - unfold ret at 1. intros H Hacc. eapply IH; [exact H|].
    apply Forall_app. split; [done|]. constructor; [|done].
    by eapply wcax_scrape_article_date.
  - unfold ret at 1. intros H Hacc. by eapply IH.
  - unfold any_exception, bind, log_to, ret. intros H Hacc. by eapply IH.
Qed.

Lemma vtdigger_scrape_article_date url target_date w a w1 :
  UrlDate.url_date url = Some (Ok target_date) ->
  Vtdigger.scrape_article url target_date w = (Ok (Some a), w1) ->
  date_of a = Some target_date /\ Base.url a = url.
Proof.
  intros Hu. unfold Vtdigger.scrape_article, bind at 1.
  destruct (fetch_html url w) as [[html|e] w0]; [|done]. cbv zeta.
  case_bool_decide; [done|]. destruct (_ || _); [done|]. rewrite Hu.
  unfold bind, ret.
  destruct (Vtdigger.body_paragraphs false _); [|done]. by intros [= <- _].
Qed.

Lemma vtdigger_scrape_loop_dated target_date urls articles w result w' :
  Forall (fun u => UrlDate.url_date u = Some (Ok target_date)) urls ->
  Vtdigger.scrape_loop target_date urls articles w = (Ok result, w') ->
  Forall (fun a => date_of a = Some target_date) articles ->
  Forall (fun a => date_of a = Some target_date) result.
Proof.
  intros Hu. revert articles w. induction Hu as [|u rest Hu _ IH]; intros acc w.
  { by intros [= <- _]. }
  cbn [Vtdigger.scrape_loop]. unfold bind at 1. unfold try_except, bind at 1.
  destruct (Vtdigger.scrape_article u target_date w) as [[[a|]|e] w1] eqn:E.
  - unfold ret at 1. intros H Hacc. eapply IH; [exact H|].
    apply Forall_app. split; [done|]. constructor; [|done].
    by eapply vtdigger_scrape_article_date.
  - unfold ret at 1. intros H Hacc. by eapply IH.
  - unfold any_exception, bind, log_to, ret. intros H Hacc. by eapply IH.
Qed.

Lemma wcax_urls_dated urljoin d w urls w' :
  Wcax.get_urls_for_date urljoin d w = (Ok urls, w') ->
  NoDup urls
  /\ Forall (fun u => startswith Wcax.BASE_URL u = true
                      /\ UrlDate.url_date u = Some (Ok d)) urls.
Proof.
  unfold Wcax.get_urls_for_date, bind, ret.
  destruct (fetch_html Wcax.NEWS_URL w) as [[html|e] w1]; [|done].
  intros [= <- _]. apply url_collect_dated; constructor.
Qed.

Lemma vtdigger_urls_dated urljoin d w urls w' :
  Vtdigger.get_urls_for_date urljoin d w = (Ok urls, w') ->
  NoDup urls
  /\ Forall (fun u => startswith Vtdigger.BASE_URL u = true
                      /\ UrlDate.url_date u = Some (Ok d)) urls.
Proof.
  unfold Vtdigger.get_urls_for_date, bind, ret.
  destruct (fetch_html Vtdigger.BASE_URL w) as [[html|e] w1]; [|done].
  intros [= <- _]. apply url_collect_dated; constructor.
Qed.

(** The URLs that [get_urls_for_date] of wcax and of vtdigger return are
    pairwise different, start with the address of the site, and the first
    [/YYYY/MM/DD/] of each is the target date. *)
Theorem dated_listing_matches_target :
  (forall urljoin d w urls w',
      Wcax.get_urls_for_date urljoin d w = (Ok urls, w') ->
      NoDup urls
      /\ Forall (fun u => startswith Wcax.BASE_URL u = true
                          /\ UrlDate.url_date u = Some (Ok d)) urls)
  /\ (forall urljoin d w urls w',
         Vtdigger.get_urls_for_date urljoin d w = (Ok urls, w') ->
         NoDup urls
         /\ Forall (fun u => startswith Vtdigger.BASE_URL u = true
                             /\ UrlDate.url_date u = Some (Ok d)) urls).
Proof. split; [apply wcax_urls_dated|apply vtdigger_urls_dated]. Qed.

Lemma dated_listing_matches_target_witness :
  NoDup [Wcax.BASE_URL ++ lit "/2025/06/01/fire/"]
  /\ Forall (fun u => startswith Wcax.BASE_URL u = true
                      /\ UrlDate.url_date u = Some (Ok Scenario.june_1))
            [Wcax.BASE_URL ++ lit "/2025/06/01/fire/"].
Proof.
  apply (proj1 dated_listing_matches_target Scenario.simple_urljoin Scenario.june_1
           (Scenario.fresh Scenario.dated_network) _
           (snd (Wcax.get_urls_for_date Scenario.simple_urljoin Scenario.june_1
                   (Scenario.fresh Scenario.dated_network)))).
  vm_compute. reflexivity.
Defined.

(** Every article that [scrape] of wcax or of vtdigger returns carries the
    target date: its date is read in its URL, and the URL was kept for
    that date. *)
Theorem dated_urls_give_target_date :
  (forall urljoin d w articles w',
      Wcax.scrape urljoin d w = (Ok articles, w') ->
      Forall (fun a => date_of a = Some d) articles)
  /\ (forall urljoin d w articles w',
         Vtdigger.scrape urljoin d w = (Ok articles, w') ->
         Forall (fun a => date_of a = Some d) articles).
Proof.
  split; intros urljoin d w articles w'.
  - unfold Wcax.scrape, bind at 1.
    destruct (Wcax.get_urls_for_date urljoin d w) as [[urls|e] w1] eqn:E; [|done].
    apply wcax_urls_dated in E as [_ E].
    intros H. eapply wcax_scrape_loop_dated; [|exact H|constructor].
    eapply Forall_impl; [exact E|]. by intros u [_ ?].
  - unfold Vtdigger.scrape, bind at 1.
    destruct (Vtdigger.get_urls_for_date urljoin d w) as [[urls|e] w1] eqn:E; [|done].
    apply vtdigger_urls_dated in E as [_ E].
    intros H. eapply vtdigger_scrape_loop_dated; [|exact H|constructor].
    eapply Forall_impl; [exact E|]. by intros u [_ ?].
Qed.

Lemma dated_urls_give_target_date_witness :
  Forall (fun a => date_of a = Some Scenario.june_1)
    (match fst (Wcax.scrape Scenario.simple_urljoin Scenario.june_1
                  (Scenario.fresh Scenario.dated_network)) with
     | Ok articles => articles
     | Raise _ => []
     end).
Proof.
  assert (H : exists articles w',
             Wcax.scrape Scenario.simple_urljoin Scenario.june_1
               (Scenario.fresh Scenario.dated_network) = (Ok articles, w')).
  { destruct (Wcax.scrape _ _ _) as [[articles|e] w'] eqn:E; [by eexists _, _|].
    apply (f_equal fst) in E. vm_compute in E. discriminate. }
  destruct H as (articles & w' & H). rewrite H. simpl.
  exact (proj1 dated_urls_give_target_date _ _ _ _ _ H).
Defined.

(** ** keenesentinel and reformer *)

Section Blox.
Variable urljoin : list ascii -> list ascii -> list ascii.
Variable find_all_p : list ascii -> list (list ascii).
Variable py_repr : json -> list ascii.
Variable cfg : Blox.config.

Lemma keep_paragraphs_nonempty ps :
  Forall (fun p => p <> []) (Blox.keep_paragraphs cfg ps).
Proof.
  induction ps as [|t rest IH]; [constructor|].
  cbn [Blox.keep_paragraphs]. destruct t as [|c t]; [done|]. cbv zeta.
  destruct (_ && _); [done|]. by constructor.
Qed.

Lemma clean_html_text_nonempty raw ps :
  Blox.clean_html_text find_all_p py_repr cfg raw = Ok ps ->
  Forall (fun p => p <> []) ps.
Proof.
  unfold Blox.clean_html_text. destruct (negb (truthy raw)).
  { intros [= <-]. constructor. }
  destruct raw; try done; intros [= <-]; apply keep_paragraphs_nonempty.
Qed.

Lemma scrape_row_shape target_date row a :
  Blox.scrape_row urljoin find_all_p py_repr cfg target_date row = Ok (Some a) ->
  date_of a = Some target_date
  /\ paragraphs a <> []
  /\ Forall (fun p => p <> []) (paragraphs a).
Proof.
  unfold Blox.scrape_row.
  destruct (get "starttime" row) as [start|e]; [|done].
  destruct (negb (truthy _)); [done|].
  destruct (Blox.parse_start_time _) as [pub|e];
    [|by destruct (is_value_or_attribute_error e)].
  case_bool_decide as Ed; [|done]. subst pub. cbn [negb].
  destruct (get_default "title" _ row) as [title|e]; [|done].
  destruct (get_default "url" _ row) as [raw_url|e]; [|done].
  destruct (get "content" row) as [content|e]; [|done].
  destruct (get "body" row) as [body|e]; [|done].
  destruct (Blox.join_url _ _ _) as [u|e]; [|done].
  destruct (negb (truthy _)); [done|].
  destruct (Blox.clean_html_text _ _ _ _) as [[|p ps]|e] eqn:Ec; [done| |done].
  destruct (Blox.slice30 title) as [t30|e]; [|done].
  intros [= <-]. simpl. split; [done|]. split; [done|].
  by apply clean_html_text_nonempty in Ec.
Qed.

Lemma scrape_rows_shape target_date rows valid_articles articles :
  Blox.scrape_rows urljoin find_all_p py_repr cfg target_date rows valid_articles
  = Ok articles ->
  Forall (fun a => date_of a = Some target_date /\ paragraphs a <> []
                   /\ Forall (fun p => p <> []) (paragraphs a)) valid_articles ->
  Forall (fun a => date_of a = Some target_date /\ paragraphs a <> []
                   /\ Forall (fun p => p <> []) (paragraphs a)) articles.
Proof.
  revert valid_articles. induction rows as [|row rest IH]; intros acc.
  { by intros [= <-]. }
  cbn [Blox.scrape_rows].
  destruct (Blox.scrape_row _ _ _ _ _ row) as [[a|]|e] eqn:E; [| |done].
  - intros H Hacc. apply (IH _ H). apply Forall_app. split; [done|].
    constructor; [|done]. by eapply scrape_row_shape.
  - apply IH.
Qed.

Lemma blox_scrape_shape target_date w articles w' :
  Blox.scrape urljoin find_all_p py_repr cfg target_date w = (Ok articles, w') ->
  Forall (fun a => date_of a = Some target_date /\ paragraphs a <> []
                   /\ Forall (fun p => p <> []) (paragraphs a)) articles.
Proof.
  unfold Blox.scrape, bind.
  destruct (Blox.api_request cfg w) as [[[data|]|e] w1]; [| |done].
  - unfold lift, Blox.scrape_data.
    destruct (get_default "rows" _ data) as [rows|e]; [|done].
    destruct (len rows); [|done].
    destruct (Blox.iterate rows) as [items|e]; [|done].
    intros [= H _]. eapply scrape_rows_shape; [exact H|constructor].
  - intros [= <- _]. constructor.
Qed.

End Blox.

(** Every article that [scrape] of keenesentinel or of reformer returns
    carries the target date and has at least one paragraph, none of them
    empty. *)
Theorem json_adapters_return_dated_bodies :
  (forall urljoin find_all_p py_repr d w articles w',
      Keenesentinel.scrape urljoin find_all_p py_repr d w = (Ok articles, w') ->
      Forall (fun a => date_of a = Some d /\ paragraphs a <> []
                       /\ Forall (fun p => p <> []) (paragraphs a)) articles)
  /\ (forall cookie urljoin find_all_p py_repr d w articles w',
         Reformer.scrape cookie urljoin find_all_p py_repr d w = (Ok articles, w') ->
         Forall (fun a => date_of a = Some d /\ paragraphs a <> []
                          /\ Forall (fun p => p <> []) (paragraphs a)) articles).
Proof.
  split.
  - intros urljoin find_all_p py_repr d w articles w'. apply blox_scrape_shape.
  - intros cookie urljoin find_all_p py_repr d w articles w'. unfold Reformer.scrape.
    destruct (contains _ cookie); [|apply blox_scrape_shape].
    intros [= <- _]. constructor.
Qed.

Lemma json_adapters_return_dated_bodies_witness :
  Forall (fun a => date_of a = Some Scenario.june_1 /\ paragraphs a <> []
                   /\ Forall (fun p => p <> []) (paragraphs a))
    (match fst (Keenesentinel.scrape Scenario.simple_urljoin (fun html => [html])
                  (fun _ => lit "<value>") Scenario.june_1
                  (Scenario.fresh Scenario.api_network)) with
     | Ok articles => articles
     | Raise _ => []
     end).
Proof.
  assert (H : exists articles w',
             Keenesentinel.scrape Scenario.simple_urljoin (fun html => [html])
               (fun _ => lit "<value>") Scenario.june_1
               (Scenario.fresh Scenario.api_network) = (Ok articles, w')).
  { destruct (Keenesentinel.scrape _ _ _ _ _) as [[articles|e] w'] eqn:E;
      [by eexists _, _|].
    apply (f_equal fst) in E. vm_compute in E. discriminate. }
  destruct H as (articles & w' & H). rewrite H. simpl.
  exact (proj1 json_adapters_return_dated_bodies _ _ _ _ _ _ _ H).
Defined.

(** ** What makes [scrape] raise *)





(** ** The request of the JSON adapters *)

Lemma blox_scrape_effects urljoin find_all_p py_repr cfg d w :
  requests (snd (Blox.scrape urljoin find_all_p py_repr cfg d w))
  = requests w ++ [Blox.SEARCH_API_URL cfg ++ lit "?" ++ Blox.query cfg]
  /\ files (snd (Blox.scrape urljoin find_all_p py_repr cfg d w)) = files w.
Proof.
  assert (E : snd (Blox.scrape urljoin find_all_p py_repr cfg d w)
              = snd (Blox.api_request cfg w)).
  { unfold Blox.scrape, bind.
    by destruct (Blox.api_request cfg w) as [[[data|]|e] w1]. }
  rewrite E.
  unfold Blox.api_request, try_except, bind, requests_get, raise_for_status.
  destruct (net w _ _) as [reason|status body]; [done|]. cbn [fst snd].
  destruct ((400 <=? status) && (status <? 600)); [done|].
  unfold ret at 1. by destruct (json_of body).
Qed.

(** A run of keenesentinel or of reformer sends one request, to the search
    address with its query, and writes no file; reformer sends none and
    returns no article when its cookie is still the placeholder. *)
Theorem json_adapters_send_one_request :
  (forall urljoin find_all_p py_repr d w,
      requests (snd (Keenesentinel.scrape urljoin find_all_p py_repr d w))
      = requests w ++ [Blox.SEARCH_API_URL Keenesentinel.cfg ++ lit "?"
                       ++ Blox.query Keenesentinel.cfg]
      /\ files (snd (Keenesentinel.scrape urljoin find_all_p py_repr d w)) = files w)
  /\ (forall cookie urljoin find_all_p py_repr d w,
         files (snd (Reformer.scrape cookie urljoin find_all_p py_repr d w)) = files w
         /\ if contains (lit "PASTE_YOUR") cookie
            then fst (Reformer.scrape cookie urljoin find_all_p py_repr d w) = Ok []
                 /\ requests (snd (Reformer.scrape cookie urljoin find_all_p py_repr d w))
                    = requests w
            else requests (snd (Reformer.scrape cookie urljoin find_all_p py_repr d w))
                 = requests w ++ [Blox.SEARCH_API_URL Reformer.cfg ++ lit "?"
                                  ++ Blox.query Reformer.cfg]).
Proof.
  split.
  - intros. apply blox_scrape_effects.
  - intros cookie urljoin find_all_p py_repr d w. unfold Reformer.scrape.
    destruct (contains _ cookie); [done|].
    destruct (blox_scrape_effects urljoin find_all_p py_repr Reformer.cfg d w). done.
Qed.

End Returned.
